(** * Verification of the data acquisition component of y-finance-visualization

    Shallow embedding of [src/pull_dada/y_finance/data_fetcher.py]
    (class [YFinanceDataFetcher]) together with the parts of the Python
    runtime it relies on: [datetime.strptime], [timedelta] arithmetic,
    [strftime], [time.time]/[time.sleep], [print], the market-data
    provider [yfinance.Ticker(...).history] and the file system used by
    [DataFrame.to_csv].

    Conventions of the model
    - Python [str] values are [string]s (ASCII texts).
    - Python [float] seconds are exact rationals [Q].
    - A method is a computation [Py A]: it takes the program state, and
      gives back either a returned value or a raised exception, together
      with the state it leaves behind. *)

From Stdlib Require Import ZArith QArith Lqa Ascii String.
From stdpp Require Import base option list strings gmap fin_maps.
From stdpp Require Import pretty.

Open Scope string_scope.
Open Scope list_scope.
Open Scope Z_scope.

(* ===================================================================== *)
(** ** Python strings *)
(* ===================================================================== *)

Module PyStr.

(** [c.isspace()] on the ASCII range: TAB, LF, VT, FF, CR, the four
    separators 0x1c..0x1f and SPACE. *)
Definition isspace (c : ascii) : bool :=
  let n := N_of_ascii c in
  ((9 <=? n) && (n <=? 13) || (28 <=? n) && (n <=? 32))%N.

(** [c.upper()] on the ASCII range. *)
Definition upper_char (c : ascii) : ascii :=
  let n := N_of_ascii c in
  if ((97 <=? n) && (n <=? 122))%N then ascii_of_N (n - 32) else c.

Fixpoint upper (s : string) : string :=
  match s with
  | EmptyString => EmptyString
  | String c r => String (upper_char c) (upper r)
  end.

Fixpoint lstrip (s : string) : string :=
  match s with
  | String c r => if isspace c then lstrip r else s
  | EmptyString => EmptyString
  end.

(** [s.rstrip()]: drop the trailing white space. *)
Fixpoint rstrip (s : string) : string :=
  match s with
  | EmptyString => EmptyString
  | String c r =>
      match rstrip r with
      | EmptyString => if isspace c then EmptyString else String c EmptyString
      | r' => String c r'
      end
  end.

Definition strip (s : string) : string := rstrip (lstrip s).

(** [s.split(sep)] for a one-character separator: never empty, keeps
    empty fields. *)
Fixpoint split (sep : ascii) (s : string) : list string :=
  match s with
  | EmptyString => [EmptyString]
  | String c r =>
      if Ascii.eqb c sep then EmptyString :: split sep r
      else match split sep r with
           | f :: fs => String c f :: fs
           | [] => [String c EmptyString]
           end
  end.

(** Truth value of an [Optional[str]]: [None] and [''] are false. *)
Definition truthy (o : option string) : bool :=
  match o with
  | Some (String _ _) => true
  | _ => false
  end.

Definition isdigit (c : ascii) : bool :=
  let n := N_of_ascii c in ((48 <=? n) && (n <=? 57))%N.

Definition digit_value (c : ascii) : Z := Z.of_N (N_of_ascii c) - 48.

Definition digit_char (d : Z) : ascii := ascii_of_N (Z.to_N (48 + d mod 10)).

(** ['%02d' % n] and ['%04d' % n] for [0 <= n] below the field width. *)
Definition fmt02 (n : Z) : string :=
  String (digit_char (n / 10)) (String (digit_char n) EmptyString).

Definition fmt04 (n : Z) : string :=
  String (digit_char (n / 1000)) (String (digit_char (n / 100))
    (String (digit_char (n / 10)) (String (digit_char n) EmptyString))).

End PyStr.

(* ===================================================================== *)
(** ** Exceptions *)
(* ===================================================================== *)

(** An exception instance: its class name and [str(e)].  Every class
    used here derives from [Exception], so [except Exception] catches
    all of them. *)
Record Exception := mkException { exc_class : string; exc_str : string }.

Definition ValueError (msg : string) : Exception := mkException "ValueError" msg.
Definition OverflowError (msg : string) : Exception := mkException "OverflowError" msg.
Definition KeyError (msg : string) : Exception := mkException "KeyError" msg.

(* ===================================================================== *)
(** ** The [datetime] module, restricted to calendar dates *)
(* ===================================================================== *)

Module Datetime.

(** A [datetime] built by [strptime] from ["%Y-%m-%d"] has its time of
    day at midnight; only the calendar fields vary. *)
Record datetime := mkDate { year : Z; month : Z; day : Z }.

Definition MINYEAR : Z := 1.
Definition MAXYEAR : Z := 9999.
Definition MAXORDINAL : Z := 3652059.

Definition is_leap (y : Z) : bool :=
  (y mod 4 =? 0) && (negb (y mod 100 =? 0) || (y mod 400 =? 0)).

Definition days_before_year (y : Z) : Z :=
  let p := y - 1 in p * 365 + p / 4 - p / 100 + p / 400.

Definition DAYS_IN_MONTH : list Z :=
  [-1; 31; 28; 31; 30; 31; 30; 31; 31; 30; 31; 30; 31].

Definition DAYS_BEFORE_MONTH : list Z :=
  [-1; 0; 31; 59; 90; 120; 151; 181; 212; 243; 273; 304; 334].

Definition days_in_month (y m : Z) : Z :=
  if (m =? 2) && is_leap y then 29
  else nth (Z.to_nat m) DAYS_IN_MONTH 0.

Definition days_before_month (y m : Z) : Z :=
  nth (Z.to_nat m) DAYS_BEFORE_MONTH 0
  + (if (2 <? m) && is_leap y then 1 else 0).

(** [d.toordinal()]: day number, 0001-01-01 being day 1. *)
Definition toordinal (d : datetime) : Z :=
  days_before_year (year d) + days_before_month (year d) (month d) + day d.

Definition DI400Y : Z := 146097.
Definition DI100Y : Z := 36524.
Definition DI4Y : Z := 1461.

(** Inverse of [toordinal] by the 400/100/4/1-year cycle decomposition. *)
Definition ord2ymd (n0 : Z) : datetime :=
  let n := n0 - 1 in
  let n400 := n / DI400Y in let n := n mod DI400Y in
  let y := n400 * 400 + 1 in
  let n100 := n / DI100Y in let n := n mod DI100Y in
  let n4 := n / DI4Y in let n := n mod DI4Y in
  let n1 := n / 365 in let n := n mod 365 in
  let y := y + n100 * 100 + n4 * 4 + n1 in
  if (n1 =? 4) || (n100 =? 4) then mkDate (y - 1) 12 31
  else
    let leapyear := (n1 =? 3) && (negb (n4 =? 24) || (n100 =? 3)) in
    let m := Z.shiftr (n + 50) 5 in
    let preceding :=
      nth (Z.to_nat m) DAYS_BEFORE_MONTH 0
      + (if (2 <? m) && leapyear then 1 else 0) in
    if n <? preceding then
      let m' := m - 1 in
      let preceding' :=
        preceding - (nth (Z.to_nat m') DAYS_IN_MONTH 0
                     + (if (m' =? 2) && leapyear then 1 else 0)) in
      mkDate y m' (n - preceding' + 1)
    else mkDate y m (n - preceding + 1).

(** [(a - b).days] for two midnights. *)
Definition sub_days (a b : datetime) : Z := toordinal a - toordinal b.

(** [d - timedelta(days=k)]; leaving the supported years raises. *)
Definition minus_days (d : datetime) (k : Z) : Exception + datetime :=
  let n := toordinal d - k in
  if (1 <=? n) && (n <=? MAXORDINAL) then inr (ord2ymd n)
  else inl (OverflowError "date value out of range").

(** [d.strftime("%Y-%m-%d")], the year zero-padded to four digits. *)
Definition strftime_ymd (d : datetime) : string :=
  PyStr.fmt04 (year d) +:+ "-" +:+ PyStr.fmt02 (month d) +:+ "-"
    +:+ PyStr.fmt02 (day d).

(** *** [strptime(s, "%Y-%m-%d")]

    The format compiles to the regular expression
    [(\d\d\d\d)-(1[0-2]|0[1-9]|[1-9])-(3[0-1]|[1-2]\d|0[1-9]|[1-9]| [1-9])],
    matched at the start of [s] with ordered alternatives; the match
    must then cover all of [s].  The messages of the [ValueError]s are
    given without the quoting done by [repr]. *)

Definition in_range (lo hi : Z) (c : ascii) : bool :=
  PyStr.isdigit c && (lo <=? PyStr.digit_value c) && (PyStr.digit_value c <=? hi).

Definition re_Y (s : string) : option (Z * string) :=
  match s with
  | String a (String b (String c (String d r))) =>
      if PyStr.isdigit a && PyStr.isdigit b && PyStr.isdigit c && PyStr.isdigit d
      then Some (1000 * PyStr.digit_value a + 100 * PyStr.digit_value b
                 + 10 * PyStr.digit_value c + PyStr.digit_value d, r)
      else None
  | _ => None
  end.

Definition re_lit (c : ascii) (s : string) : option string :=
  match s with
  | String a r => if Ascii.eqb a c then Some r else None
  | EmptyString => None
  end.

(** Two-character alternative [[lo1-hi1][lo2-hi2]]. *)
Definition alt2 (lo1 hi1 lo2 hi2 : Z) (s : string) : list (Z * string) :=
  match s with
  | String a (String b r) =>
      if in_range lo1 hi1 a && in_range lo2 hi2 b
      then [(10 * PyStr.digit_value a + PyStr.digit_value b, r)] else []
  | _ => []
  end.

(** One-character alternative [[1-9]]. *)
Definition alt1 (s : string) : list (Z * string) :=
  match s with
  | String a r => if in_range 1 9 a then [(PyStr.digit_value a, r)] else []
  | EmptyString => []
  end.

(** Alternative [ [1-9]]: a blank, then one digit. *)
Definition alt_blank (s : string) : list (Z * string) :=
  match s with
  | String a r => if Ascii.eqb a " " then alt1 r else []
  | EmptyString => []
  end.

Definition re_m (s : string) : list (Z * string) :=
  alt2 1 1 0 2 s ++ alt2 0 0 1 9 s ++ alt1 s.

Definition re_d (s : string) : list (Z * string) :=
  alt2 3 3 0 1 s ++ alt2 1 2 0 9 s ++ alt2 0 0 1 9 s ++ alt1 s ++ alt_blank s.

(** First alternative of [alts] for which the rest of the pattern
    matches: the backtracking of the regular-expression engine. *)
Fixpoint first_match {A B : Type} (k : A -> option B) (alts : list A) : option B :=
  match alts with
  | [] => None
  | a :: rest => match k a with Some b => Some b | None => first_match k rest end
  end.

(** The fields and the unmatched remainder. *)
Definition re_match (s : string) : option (Z * Z * Z * string) :=
  match re_Y s with
  | None => None
  | Some (y, s1) =>
      match re_lit "-" s1 with
      | None => None
      | Some s2 =>
          first_match
            (fun '(m, s3) =>
               match re_lit "-" s3 with
               | None => None
               | Some s4 =>
                   match re_d s4 with
                   | (d, s5) :: _ => Some (y, m, d, s5)
                   | [] => None
                   end
               end)
            (re_m s2)
      end
  end.

Definition strptime_ymd (s : string) : Exception + datetime :=
  match re_match s with
  | None =>
      inl (ValueError ("time data '" +:+ s +:+ "' does not match format '%Y-%m-%d'"))
  | Some (y, m, d, rest) =>
      match rest with
      | String _ _ => inl (ValueError ("unconverted data remains: " +:+ rest))
      | EmptyString =>
          if y <? MINYEAR then
            inl (ValueError "year 0 is out of range")
          else if days_in_month y m <? d then
            inl (ValueError "day is out of range for month")
          else inr (mkDate y m d)
      end
  end.

End Datetime.

(** The last step of [ord2ymd] on its own: month and day of the
    [n]-th day (from 0) of a year. *)
Definition month_day (leapyear : bool) (n : Z) : Z * Z :=
  let m := Z.shiftr (n + 50) 5 in
  let preceding :=
    nth (Z.to_nat m) Datetime.DAYS_BEFORE_MONTH 0
    + (if (2 <? m) && leapyear then 1 else 0) in
  if n <? preceding then
    let m' := m - 1 in
    let preceding' :=
      preceding - (nth (Z.to_nat m') Datetime.DAYS_IN_MONTH 0
                   + (if (m' =? 2) && leapyear then 1 else 0)) in
    (m', n - preceding' + 1)
  else (m, n - preceding + 1).

(** [month_day] lands on a month of the year, on the right day. *)
Definition month_day_ok (leapyear : bool) (n : Z) : bool :=
  let '(m, d) := month_day leapyear n in
  (1 <=? m) && (m <=? 12) && (1 <=? d)
  && (d <=? (if (m =? 2) && leapyear then 29
             else nth (Z.to_nat m) Datetime.DAYS_IN_MONTH 0))
  && (nth (Z.to_nat m) Datetime.DAYS_BEFORE_MONTH 0
      + (if (2 <? m) && leapyear then 1 else 0) + d =? n + 1).

(** A date of the calendar, within the years [datetime] supports. *)
Definition valid_date (d : Datetime.datetime) : Prop :=
  1 <= Datetime.year d <= 9999 /\ 1 <= Datetime.month d <= 12
  /\ 1 <= Datetime.day d <= Datetime.days_in_month (Datetime.year d) (Datetime.month d).

(** [ok] holds of [n], [n + 1], .., [fuel] values in all. *)
Fixpoint all_from (ok : Z -> bool) (fuel : nat) (n : Z) : bool :=
  match fuel with
  | O => true
  | S fuel' => ok n && all_from ok fuel' (n + 1)
  end.

(* ===================================================================== *)
(** ** Data exchanged with the collaborators *)
(* ===================================================================== *)

(** One sampled period of a price series. *)
Record Row := mkRow {
  timestamp : Z; open_price : Q; high : Q; low : Q; close : Q; volume : Z
}.

(** A [pandas.DataFrame]: column labels and rows in index order. *)
Record DataFrame := mkFrame { columns : list string; rows : list Row }.

(** [df.empty]: some axis has length zero. *)
Definition empty (df : DataFrame) : bool :=
  match columns df, rows df with
  | _ :: _, _ :: _ => false
  | _, _ => true
  end.

(** Keyword arguments of [Ticker.history]: either [period=, interval=] or
    [start=, end=, interval=]. *)
Inductive HistoryArgs :=
| ByPeriod (period interval : string)
| ByRange (start_date end_date interval : string).

(** One call [yf.Ticker(ticker).history(...)]. *)
Record Request := mkRequest { req_ticker : string; req_args : HistoryArgs }.

(** A [pathlib.Path], as its components. *)
Definition Path := list string.

(** [p / name]. *)
Definition joinpath (p : Path) (name : string) : Path := p ++ [name].

(** The dictionary returned by [save_data]. *)
Record Paths := mkPaths { ticker_dir : Path; data_path : Path }.

(** One value of the dictionary returned by [fetch_and_save_multiple]:
    [{'status': 'success', 'paths': .., 'data': ..}] or
    [{'status': 'error', 'message': ..}]. *)
Inductive ResultEntry :=
| StatusSuccess (paths : Paths) (data : DataFrame)
| StatusError (message : string).

(** The collaborators outside the repository.  [history] is the answer of
    the provider to a request (a frame, or a raised exception) and
    [latency] the time the call takes; [oversleep] is by how much
    [time.sleep(d)] exceeds [d]; [mkdir] and [to_csv] tell whether the
    file system raises. *)
Class Environment := {
  history : string -> HistoryArgs -> Exception + DataFrame;
  latency : string -> HistoryArgs -> Q;
  oversleep : Q -> Q;
  mkdir : Path -> option Exception;
  to_csv : DataFrame -> Path -> option Exception
}.

(* ===================================================================== *)
(** ** Program state and the monad of methods *)
(* ===================================================================== *)

(** The instance attributes set by [__init__]. *)
Record YFinanceDataFetcher := mkFetcher {
  supported_intervals : gmap string string;
  last_request_time : option Q;
  min_request_interval : Q
}.

(** What the program does to the outside: the wall clock, the lines
    printed, the sleeps requested, the provider calls made and the files
    written, each in order of occurrence. *)
Record World := mkWorld {
  clock : Q;
  stdout : list string;
  sleeps : list Q;
  provider_calls : list Request;
  files : list (Path * DataFrame)
}.

Record State := mkState { self : YFinanceDataFetcher; world : World }.

Inductive Outcome (A : Type) :=
| Returned (a : A)
| Raised (e : Exception).
Arguments Returned {A} a.
Arguments Raised {A} e.

Definition Py (A : Type) : Type := State -> Outcome A * State.

Definition ret {A} (a : A) : Py A := fun s => (Returned a, s).

Definition raise {A} (e : Exception) : Py A := fun s => (Raised e, s).

Definition bind {A B} (c : Py A) (k : A -> Py B) : Py B :=
  fun s => match c s with
           | (Returned a, s') => k a s'
           | (Raised e, s') => (Raised e, s')
           end.

(** [try: body  except Exception as e: handler]. *)
Definition try_except {A} (body : Py A) (handler : Exception -> Py A) : Py A :=
  fun s => match body s with
           | (Returned a, s') => (Returned a, s')
           | (Raised e, s') => handler e s'
           end.

Notation "x <~ c1 ;; c2" := (bind c1 (fun x => c2))
  (at level 100, c1 at next level, c2 at level 200, right associativity).
Notation "c1 ;; c2" := (bind c1 (fun _ => c2))
  (at level 100, c2 at level 200, right associativity).

(** Result of a library function that may raise. *)
Definition lift {A} (r : Exception + A) : Py A :=
  match r with
  | inr a => ret a
  | inl e => raise e
  end.

Definition get_self : Py YFinanceDataFetcher := fun s => (Returned (self s), s).

Definition set_last_request_time (t : option Q) : Py unit :=
  fun s =>
    (Returned tt,
     mkState (mkFetcher (supported_intervals (self s)) t (min_request_interval (self s)))
             (world s)).

Definition set_world (f : World -> World) : Py unit :=
  fun s => (Returned tt, mkState (self s) (f (world s))).

(** [print(line)]. *)
Definition print (line : string) : Py unit :=
  set_world (fun w =>
    mkWorld (clock w) (stdout w ++ [line]) (sleeps w) (provider_calls w) (files w)).

(** [time.time()]. *)
Definition time_time : Py Q := fun s => (Returned (clock (world s)), s).

(** [time.sleep(d)]: the clock advances by [d] and the overshoot. *)
Definition time_sleep `{Environment} (d : Q) : Py unit :=
  set_world (fun w =>
    mkWorld (clock w + d + oversleep d)%Q (stdout w) (sleeps w ++ [d])
            (provider_calls w) (files w)).

(** [yf.Ticker(ticker).history] applied to keyword arguments. *)
Definition Ticker_history `{Environment} (ticker : string) (args : HistoryArgs)
  : Py DataFrame :=
  set_world (fun w =>
    mkWorld (clock w + latency ticker args)%Q (stdout w) (sleeps w)
            (provider_calls w ++ [mkRequest ticker args]) (files w)) ;;
  lift (history ticker args).

(** [path.mkdir(parents=True, exist_ok=True)]. *)
Definition Path_mkdir `{Environment} (p : Path) : Py unit :=
  match mkdir p with
  | Some e => raise e
  | None => ret tt
  end.

(** [data.to_csv(path)]. *)
Definition DataFrame_to_csv `{Environment} (data : DataFrame) (p : Path) : Py unit :=
  match to_csv data p with
  | Some e => raise e
  | None =>
      set_world (fun w =>
        mkWorld (clock w) (stdout w) (sleeps w) (provider_calls w)
                (files w ++ [(p, data)]))
  end.

(** [d[k]] on a [dict]. *)
Definition getitem (d : gmap string string) (k : string) : Py string :=
  match d !! k with
  | Some v => ret v
  | None => raise (KeyError k)
  end.

(* ===================================================================== *)
(** ** [class YFinanceDataFetcher] *)
(* ===================================================================== *)

Section Fetcher.
Context `{Environment}.

(** The dictionary literal of [__init__], in source order. *)
Definition catalog : list (string * string) :=
  [("1m", "7d"); ("2m", "60d"); ("5m", "60d"); ("15m", "60d");
   ("30m", "60d"); ("60m", "60d"); ("90m", "60d"); ("1h", "60d");
   ("1d", "max"); ("5d", "max"); ("1wk", "max"); ("1mo", "max");
   ("3mo", "max")].

(** [__init__]. *)
Definition __init__ : YFinanceDataFetcher :=
  {| supported_intervals := list_to_map catalog;
     last_request_time := None;
     min_request_interval := 0.5 |}.

Definition _rate_limit : Py unit :=
  me <~ get_self ;;
  match last_request_time me with
  | Some last =>
      now <~ time_time ;;
      let elapsed := (now - last)%Q in
      if negb (Qle_bool (min_request_interval me) elapsed)
      then time_sleep (min_request_interval me - elapsed)%Q
      else ret tt
  | None => ret tt
  end ;;
  now <~ time_time ;;
  set_last_request_time (Some now).

(** The literal list tested on line 63 of the source. *)
Definition minute_level : list string :=
  ["1m"; "2m"; "5m"; "15m"; "30m"; "60m"; "1h"].

(** Lines 61-71: the start date handed to the provider for an explicit
    range. *)
Definition adjust_start_date (interval start_date end_date : string) : Py string :=
  if bool_decide (interval ∈ minute_level) then
    start <~ lift (Datetime.strptime_ymd start_date) ;;
    end_ <~ lift (Datetime.strptime_ymd end_date) ;;
    let max_days := if String.eqb interval "1m" then 7 else 60 in
    if max_days <? Datetime.sub_days end_ start then
      adjusted <~ lift (Datetime.minus_days end_ max_days) ;;
      let start_date := Datetime.strftime_ymd adjusted in
      print ("Note: Adjusted start date to " +:+ start_date +:+ " due to "
             +:+ interval +:+ " interval limitations") ;;
      ret start_date
    else ret start_date
  else ret start_date.

(** The [try:] block of [fetch_data] (lines 58-89).  Building the
    [yf.Ticker] object only records the symbol, so it is part of
    [Ticker_history] here. *)
Definition fetch_data_try (me : YFinanceDataFetcher) (ticker interval : string)
    (start_date end_date : option string) : Py (option DataFrame) :=
  data <~
    (if PyStr.truthy start_date && PyStr.truthy end_date then
       let start_date := default "" start_date in
       let end_date := default "" end_date in
       start_date <~ adjust_start_date interval start_date end_date ;;
       Ticker_history ticker (ByRange start_date end_date interval)
     else
       period <~ getitem (supported_intervals me) interval ;;
       Ticker_history ticker (ByPeriod period interval)) ;;
  if empty data then
    print ("Warning: No data returned for " +:+ ticker) ;;
    ret None
  else ret (Some data).

(** The [except Exception as e:] block (lines 90-92). *)
Definition fetch_data_except (ticker : string) (e : Exception)
  : Py (option DataFrame) :=
  print ("Error fetching data for " +:+ ticker +:+ ": " +:+ exc_str e) ;;
  ret None.

Definition fetch_data (ticker interval : string)
    (start_date end_date : option string) : Py (option DataFrame) :=
  me <~ get_self ;;
  if negb (bool_decide (is_Some (supported_intervals me !! interval))) then
    raise (ValueError ("Unsupported interval: " +:+ interval))
  else
    _rate_limit ;;
    try_except (fetch_data_try me ticker interval start_date end_date)
               (fetch_data_except ticker).

Definition save_data (data : DataFrame) (ticker : string) (base_dir : Path)
    (interval : string) : Py Paths :=
  let ticker_dir := joinpath base_dir ticker in
  let data_dir := joinpath ticker_dir "data" in
  Path_mkdir data_dir ;;
  let file_name := ticker +:+ "_" +:+ interval +:+ ".csv" in
  let data_path := joinpath data_dir file_name in
  DataFrame_to_csv data data_path ;;
  ret {| ticker_dir := ticker_dir; data_path := data_path |}.

Definition process_tickers (ticker_input : string) : list string :=
  map (fun t => PyStr.upper (PyStr.strip t))
      (filter (fun t => PyStr.truthy (Some (PyStr.strip t)))
              (PyStr.split "," ticker_input)).

(** Body of the [for ticker in tickers] loop, [results] being the
    dictionary filled so far. *)
Fixpoint for_tickers (tickers : list string) (base_dir : Path) (interval : string)
    (start_date end_date : option string) (results : gmap string ResultEntry)
  : Py (gmap string ResultEntry) :=
  match tickers with
  | [] => ret results
  | ticker :: rest =>
      print ("Fetching data for " +:+ ticker +:+ "...") ;;
      data <~ fetch_data ticker interval start_date end_date ;;
      results <~
        match data with
        | Some data =>
            try_except
              (paths <~ save_data data ticker base_dir interval ;;
               let results := <[ticker := StatusSuccess paths data]> results in
               print ("Successfully saved data for " +:+ ticker) ;;
               ret results)
              (fun e =>
                 ret (<[ticker := StatusError ("Error saving data: " +:+ exc_str e)]>
                        results))
        | None => ret (<[ticker := StatusError "Failed to fetch data"]> results)
        end ;;
      for_tickers rest base_dir interval start_date end_date results
  end.

Definition fetch_and_save_multiple (ticker_input : string) (base_dir : Path)
    (interval : string) (start_date end_date : option string)
  : Py (gmap string ResultEntry) :=
  let tickers := process_tickers ticker_input in
  for_tickers tickers base_dir interval start_date end_date ∅.

End Fetcher.

(* ===================================================================== *)
(** ** Observations and test doubles used by the statements *)
(* ===================================================================== *)

(** Value and final state of a run. *)
Definition result {A} (c : Py A) (s : State) : Outcome A := fst (c s).
Definition after {A} (c : Py A) (s : State) : State := snd (c s).

(** A freshly constructed fetcher in a world where nothing has happened. *)
Definition fresh : State := mkState __init__ (mkWorld 0 [] [] [] []).

Definition sample_frame : DataFrame :=
  mkFrame ["Open"; "High"; "Low"; "Close"; "Volume"]
          [mkRow 1704205800 187 188 183 185 82488700].

(** A deterministic provider: no rows for BADTICKER, a transport error
    for DOWN, one row for every other symbol; storage never fails. *)
Definition fake_env : Environment :=
  {| history t _ :=
       if String.eqb t "BADTICKER" then inr (mkFrame [] [])
       else if String.eqb t "DOWN" then inl (mkException "ConnectionError" "boom")
       else inr sample_frame;
     latency _ _ := 0.25%Q;
     oversleep _ := 0%Q;
     mkdir _ := None;
     to_csv _ _ := None |}.


(** The catalog and the configured gap are the same in both states. *)
Definition same_config (s s' : State) : Prop :=
  supported_intervals (self s') = supported_intervals (self s)
  /\ min_request_interval (self s') = min_request_interval (self s).

(** What [fetch_data] makes of the provider's answer (lines 85-92). *)
Definition classify (answer : Exception + DataFrame) : option DataFrame :=
  match answer with
  | inr data => if empty data then None else Some data
  | inl _ => None
  end.

(** Two environments treat ticker [u] alike: same provider answers for
    [u], same behaviour of the file system. *)
Definition agree_on (env1 env2 : Environment) (u : string) : Prop :=
  (forall a, @history env1 u a = @history env2 u a)
  /\ (forall p, @mkdir env1 p = @mkdir env2 p)
  /\ (forall d p, @to_csv env1 d p = @to_csv env2 d p).

(** The report entry [u] gets when it is fetched on its own by a fetcher
    with attributes [me], starting from an untouched world. *)
Definition entry_alone (env : Environment) (me : YFinanceDataFetcher) (base_dir : Path)
    (interval : string) (start_date end_date : option string) (u : string)
  : option ResultEntry :=
  match result (@for_tickers env [u] base_dir interval start_date end_date ∅)
               (mkState me (mkWorld 0 [] [] [] [])) with
  | Returned r => r !! u
  | Raised _ => None
  end.

(* ===================================================================== *)
(** ** Observations on strings, reports and clocks *)
(* ===================================================================== *)

(** The first character, if any, is not white space. *)
Definition starts_clean (s : string) : Prop :=
  match s with
  | String c _ => PyStr.isspace c = false
  | EmptyString => True
  end.

(** Nothing but white space and commas. *)
Definition blank_input (input : string) : Prop :=
  Forall (fun c => PyStr.isspace c = true \/ c = ","%char) (list_ascii_of_string input).

(** The clock has not gone back behind the last grant. *)
Definition clock_sane (s : State) : Prop :=
  match last_request_time (self s) with
  | Some last => (last <= clock (world s))%Q
  | None => True
  end.

(** The files a report entry stands for. *)
Definition written (e : ResultEntry) : list (Path * DataFrame) :=
  match e with
  | StatusSuccess p d => [(data_path p, d)]
  | StatusError _ => []
  end.

(** The entry the loop of [fetch_and_save_multiple] makes for [u] out of
    what [fetch_data] returned for it (lines 146-165). *)
Definition entry_for `{Environment} (base_dir : Path) (i u : string)
    (o : option DataFrame) : ResultEntry :=
  match o with
  | None => StatusError "Failed to fetch data"
  | Some d =>
      match mkdir (base_dir ++ [u; "data"]) with
      | Some ex => StatusError ("Error saving data: " +:+ exc_str ex)
      | None =>
          match to_csv d (base_dir ++ [u; "data"; u +:+ "_" +:+ i +:+ ".csv"]) with
          | Some ex => StatusError ("Error saving data: " +:+ exc_str ex)
          | None =>
              StatusSuccess
                (mkPaths (base_dir ++ [u])
                         (base_dir ++ [u; "data"; u +:+ "_" +:+ i +:+ ".csv"])) d
          end
      end
  end.

(** A computation's outcome with its returned value mapped by [f]. *)
Definition map_outcome {A B} (f : A -> B) (x : Outcome A * State) : Outcome B * State :=
  (match fst x with Returned a => Returned (f a) | Raised e => Raised e end, snd x).

(* ===================================================================== *)
(** ** The command line front end ([src/main.py])

    The questions put to the user ([questionary]) are arguments of the
    model: a function takes the answers it would be given.  The ticker
    file is given by the lines that iterating over it yields, or [None]
    when it is not there. *)
(* ===================================================================== *)

Module PyText.

(** [s.startswith(c)] for a one-character prefix. *)
Definition startswith (c : ascii) (s : string) : bool :=
  match s with
  | String a _ => Ascii.eqb a c
  | EmptyString => false
  end.

(** [s.split()]: the words of [s], separated by runs of white space. *)
Fixpoint split_ws (s : string) : list string :=
  match s with
  | EmptyString => []
  | String c r =>
      if PyStr.isspace c then split_ws r
      else
        match r with
        | EmptyString => [String c EmptyString]
        | String d _ =>
            if PyStr.isspace d then String c EmptyString :: split_ws r
            else match split_ws r with
                 | w :: ws => String c w :: ws
                 | [] => [String c EmptyString]
                 end
        end
  end.

End PyText.

Definition FileNotFoundError (msg : string) : Exception :=
  mkException "FileNotFoundError" msg.
Definition IndexError (msg : string) : Exception := mkException "IndexError" msg.

Module Main.

(** The test of line 34 on a line that has been stripped. *)
Definition is_ticker_line (line : string) : bool :=
  PyStr.truthy (Some (PyStr.strip line))
  && negb (PyText.startswith "#" (PyStr.strip line)).

(** Lines 33-38: what one line of the file adds to [tickers]. *)
Definition ticker_of_line (line : string) : list string :=
  let line := PyStr.strip line in
  if PyStr.truthy (Some line) && negb (PyText.startswith "#" line) then
    let ticker := PyStr.strip (hd EmptyString (PyStr.split "#" line)) in
    if PyStr.truthy (Some ticker) then [ticker] else []
  else [].

(** [read_ticker_file]. *)
Definition read_ticker_file (file : option (list string)) : Exception + list string :=
  match file with
  | None =>
      inl (FileNotFoundError
             "[Errno 2] No such file or directory: 'input_tickers/input_tickers.txt'")
  | Some lines => inr (concat (map ticker_of_line lines))
  end.

(** [check_input_file]. *)
Definition check_input_file (file : option (list string)) : Exception + bool :=
  match file with
  | Some _ =>
      match read_ticker_file file with
      | inr tickers => inr (0 <? Z.of_nat (length tickers))
      | inl e => inl e
      end
  | None => inr false
  end.

(** [get_tickers], given the answers to its two prompts: [use_file] is
    the truth value of the answer to the confirmation, [typed] the
    answer to the text prompt.  [questionary]'s [ask()] answers [None]
    when a prompt is cancelled: for the confirmation that counts as no,
    and for the text prompt [None] is what [get_tickers] returns.  What
    it prints is left out. *)
Definition get_tickers (file : option (list string)) (use_file : bool)
    (typed : option string) : Exception + option string :=
  match check_input_file file with
  | inl e => inl e
  | inr true =>
      match read_ticker_file file with
      | inl e => inl e
      | inr file_tickers =>
          if use_file then inr (Some (String.concat ", " file_tickers)) else inr typed
      end
  | inr false => inr typed
  end.

(** The table of [get_interval_selection]. *)
Definition intervals : list (string * string) :=
  [("1m", "One minute intervals - Last 7 days");
   ("2m", "Two minute intervals - Last 60 days");
   ("5m", "Five minute intervals - Last 60 days");
   ("15m", "Fifteen minute intervals - Last 60 days");
   ("30m", "Thirty minute intervals - Last 60 days");
   ("60m", "Hourly intervals - Last 60 days");
   ("1h", "Hourly intervals - Last 60 days");
   ("1d", "Daily intervals");
   ("5d", "Five day intervals");
   ("1wk", "Weekly intervals");
   ("1mo", "Monthly intervals");
   ("3mo", "Quarterly intervals")].

(** The entries of its menu. *)
Definition choices : list string :=
  map (fun '(interval, desc) => interval +:+ " (" +:+ desc +:+ ")") intervals.

(** [get_interval_selection], given the entry picked in the menu. *)
Definition get_interval_selection (selection : string) : Exception + string :=
  match PyText.split_ws selection with
  | w :: _ => inr w
  | [] => inl (IndexError "list index out of range")
  end.

(** [interval_ranges] of [get_date_range]. *)
Definition interval_ranges : list (string * list string) :=
  [("1m", ["Last 7 days"]);
   ("2m", ["Last 7 days"; "Last 30 days"; "Last 60 days"]);
   ("5m", ["Last 7 days"; "Last 30 days"; "Last 60 days"]);
   ("15m", ["Last 7 days"; "Last 30 days"; "Last 60 days"]);
   ("30m", ["Last 7 days"; "Last 30 days"; "Last 60 days"]);
   ("60m", ["Last 7 days"; "Last 30 days"; "Last 60 days"]);
   ("1h", ["Last 7 days"; "Last 30 days"; "Last 60 days"]);
   ("1d", ["Last 7 days"; "Last 30 days"; "Last 3 months"; "Last 6 months";
           "Last 1 year"; "Last 5 years"; "Custom range"]);
   ("5d", ["Last 30 days"; "Last 3 months"; "Last 6 months"; "Last 1 year";
           "Last 5 years"; "Custom range"]);
   ("1wk", ["Last 3 months"; "Last 6 months"; "Last 1 year"; "Last 5 years";
            "Custom range"]);
   ("1mo", ["Last 6 months"; "Last 1 year"; "Last 5 years"; "Custom range"]);
   ("3mo", ["Last 1 year"; "Last 5 years"; "Custom range"])].

(** [interval_ranges.get(interval, ["Last 1 year", "Custom range"])]:
    the entries of the date range menu. *)
Definition ranges (interval : string) : list string :=
  default ["Last 1 year"; "Custom range"]
          ((list_to_map interval_ranges : gmap string (list string)) !! interval).

(** [d - relativedelta(years=y, months=m)] of dateutil, for [0 <= m <= 12]:
    the month is moved first, the day is then cut down to the length of
    the month reached, and [datetime.replace] refuses a year outside
    [MINYEAR..MAXYEAR]. *)
Definition minus_relativedelta (d : Datetime.datetime) (years months : Z)
  : Exception + Datetime.datetime :=
  let year := Datetime.year d - years in
  let month := Datetime.month d - months in
  let '(year, month) :=
    if months =? 0 then (year, Datetime.month d)
    else if 12 <? month then (year + 1, month - 12)
    else if month <? 1 then (year - 1, month + 12)
    else (year, month) in
  let day := Z.min (Datetime.days_in_month year month) (Datetime.day d) in
  if (year <? Datetime.MINYEAR) || (Datetime.MAXYEAR <? year) then
    inl (ValueError ("year " +:+ pretty year +:+ " is out of range"))
  else inr (Datetime.mkDate year month day).

(** The [if]/[elif] chain of [get_date_range] (lines 184-196): the start
    date of a preset range, [None] for a label the chain does not know. *)
Definition preset_start (range_choice : string) (end_date : Datetime.datetime)
  : option (Exception + Datetime.datetime) :=
  if String.eqb range_choice "Last 7 days" then
    Some (Datetime.minus_days end_date 7)
  else if String.eqb range_choice "Last 30 days" then
    Some (Datetime.minus_days end_date 30)
  else if String.eqb range_choice "Last 3 months" then
    Some (minus_relativedelta end_date 0 3)
  else if String.eqb range_choice "Last 6 months" then
    Some (minus_relativedelta end_date 0 6)
  else if String.eqb range_choice "Last 1 year" then
    Some (minus_relativedelta end_date 1 0)
  else if String.eqb range_choice "Last 5 years" then
    Some (minus_relativedelta end_date 5 0)
  else None.

(** [get_date_range]: [now] is the date of [datetime.now()],
    [range_choice] the entry picked in the menu, [start_text] and
    [end_text] the answers to the two prompts of a custom range, and
    [parse] stands for [dateutil.parser.parse]. *)
Definition get_date_range (parse : string -> Exception + Datetime.datetime)
    (interval : string) (now : Datetime.datetime) (range_choice : string)
    (start_text end_text : string)
  : Exception + (option string * option string) :=
  let end_date := now in
  if String.eqb range_choice "Custom range" then
    match parse start_text with
    | inl e => inl e
    | inr start_date =>
        match (if PyStr.truthy (Some end_text) then parse end_text else inr end_date) with
        | inl e => inl e
        | inr end_date =>
            inr (Some (Datetime.strftime_ymd start_date),
                 Some (Datetime.strftime_ymd end_date))
        end
    end
  else
    match preset_start range_choice end_date with
    | None => inr (None, None)
    | Some (inl e) => inl e
    | Some (inr start_date) =>
        inr (Some (Datetime.strftime_ymd start_date),
             Some (Datetime.strftime_ymd end_date))
    end.

(** [get_user_inputs], given all the answers; [generate_charts] is the
    answer to its last question.  The ticker text it returns is [None]
    when the text prompt of [get_tickers] was cancelled.  The other
    prompts answer [None] when cancelled as well, which is no answer of
    its own here: in the interval menu [None] makes [selection.split()]
    raise, so that [get_user_inputs] does not return, as it does not
    for a [selection] without a word; in the range menu [None] falls
    through the chain like a label the chain does not know; for the end
    of a custom range [None] is false like the empty text, and for its
    start [None] makes the parser raise.  What it prints is left out. *)
Definition get_user_inputs (file : option (list string)) (use_file : bool)
    (typed : option string) (selection : string)
    (parse : string -> Exception + Datetime.datetime)
    (now : Datetime.datetime) (range_choice start_text end_text : string)
    (generate_charts : bool)
  : Exception + (option string * string * (option string * option string) * bool) :=
  match get_tickers file use_file typed with
  | inl e => inl e
  | inr tickers =>
      match get_interval_selection selection with
      | inl e => inl e
      | inr interval =>
          match get_date_range parse interval now range_choice start_text end_text with
          | inl e => inl e
          | inr date_range => inr (tickers, interval, date_range, generate_charts)
          end
      end
  end.

End Main.

(* ===================================================================== *)
(** ** The report as an ordered dictionary, and its summary panel
    ([src/cli/visualizations.py])

    [_display_summary_panel] looks at the first item of the report, so
    the order of the dictionary matters to it.  [Items] keeps that
    order; the loop of [fetch_and_save_multiple] is given once more on
    [Items], and shown below to fill both dictionaries alike. *)
(* ===================================================================== *)

(** A Python [dict] with its insertion order: the items, no key twice. *)
Definition Items := list (string * ResultEntry).

(** [d[k] = v]: a key already there keeps its place, a new one goes to
    the end. *)
Fixpoint setitem (d : Items) (k : string) (v : ResultEntry) : Items :=
  match d with
  | [] => [(k, v)]
  | (k', v') :: d' =>
      if String.eqb k' k then (k, v) :: d' else (k', v') :: setitem d' k v
  end.

(** The tickers of [ts] that are not in [seen], each once, in the order
    of their first appearance. *)
Fixpoint first_seen (seen ts : list string) : list string :=
  match ts with
  | [] => []
  | t :: ts' =>
      if bool_decide (t ∈ seen) then first_seen seen ts'
      else t :: first_seen (seen ++ [t]) ts'
  end.

Section Ordered.
Context `{Environment}.

(** The [for ticker in tickers] loop on the dictionary with its order. *)
Fixpoint for_tickers_items (tickers : list string) (base_dir : Path) (interval : string)
    (start_date end_date : option string) (results : Items) : Py Items :=
  match tickers with
  | [] => ret results
  | ticker :: rest =>
      print ("Fetching data for " +:+ ticker +:+ "...") ;;
      data <~ fetch_data ticker interval start_date end_date ;;
      results <~
        match data with
        | Some data =>
            try_except
              (paths <~ save_data data ticker base_dir interval ;;
               let results := setitem results ticker (StatusSuccess paths data) in
               print ("Successfully saved data for " +:+ ticker) ;;
               ret results)
              (fun e =>
                 ret (setitem results ticker
                        (StatusError ("Error saving data: " +:+ exc_str e))))
        | None => ret (setitem results ticker (StatusError "Failed to fetch data"))
        end ;;
      for_tickers_items rest base_dir interval start_date end_date results
  end.

Definition fetch_and_save_multiple_items (ticker_input : string) (base_dir : Path)
    (interval : string) (start_date end_date : option string) : Py Items :=
  let tickers := process_tickers ticker_input in
  for_tickers_items tickers base_dir interval start_date end_date [].

End Ordered.

Module Visualization.

(** The location shown in the panel: [p.parent] for a path [p], or a
    text.  The parent is kept as the code writes it and not computed: a
    path of the model is the list of the segments joined with [/], and
    what [pathlib] makes of a segment such as ['.'] or ['A/B'] is not
    part of it. *)
Inductive Location :=
  | ParentOf (p : Path)
  | Text (s : string).

(** What [_display_summary_panel] puts into the panel: the two counts
    and the location. *)
Record Summary := mkSummary {
  total_success : Z;
  total_failed : Z;
  location : Location
}.

(** [result['status'] == 'success']. *)
Definition is_success (e : ResultEntry) : bool :=
  match e with
  | StatusSuccess _ _ => true
  | StatusError _ => false
  end.

(** [_display_summary_panel], up to the call of [console.print]: an
    error entry has no ['paths'] key. *)
Definition _display_summary_panel (results : Items) : Exception + Summary :=
  let total_success := Z.of_nat (length (List.filter is_success (map snd results))) in
  let total_failed := Z.of_nat (length results) - total_success in
  match
    match results with
    | (_, first) :: _ =>
        match first with
        | StatusSuccess paths _ => inr (ParentOf (ticker_dir paths))
        | StatusError _ => inl (KeyError "'paths'")
        end
    | [] => inr (Text "N/A")
    end
  with
  | inl e => inl e
  | inr base_dir => inr (mkSummary total_success total_failed base_dir)
  end.

End Visualization.

(* ===================================================================== *)
(** ** Sanity checks of the runtime model *)
(* ===================================================================== *)

Example strptime_ok :
  Datetime.strptime_ymd "2024-02-29" = inr (Datetime.mkDate 2024 2 29).
Proof. reflexivity. Qed.

Example strptime_bad_day :
  Datetime.strptime_ymd "2023-02-29" = inl (ValueError "day is out of range for month").
Proof. reflexivity. Qed.

Example strptime_unpadded :
  Datetime.strptime_ymd "2024-1-5" = inr (Datetime.mkDate 2024 1 5).
Proof. reflexivity. Qed.

Example clamped_span_is_seven_days :
  Datetime.sub_days (Datetime.mkDate 2024 2 1) (Datetime.mkDate 2024 1 25) = 7.
Proof. reflexivity. Qed.

Example ordinal_2024_02_01 :
  Datetime.toordinal (Datetime.mkDate 2024 2 1) = 738917
  /\ Datetime.ord2ymd 738917 = Datetime.mkDate 2024 2 1.
Proof. split; reflexivity. Qed.

Example process_tickers_example :
  process_tickers "aapl, MSFT ,, goog" = ["AAPL"; "MSFT"; "GOOG"].
Proof. reflexivity. Qed.

(* ===================================================================== *)
(** ** Dates accepted by [strptime] *)
(* ===================================================================== *)

Module DatetimeFacts.
Import Datetime.

Lemma isdigit_value (c : ascii) :
  PyStr.isdigit c = true -> 0 <= PyStr.digit_value c <= 9.
Proof.
  unfold PyStr.isdigit, PyStr.digit_value. intros Hc.
  apply andb_true_iff in Hc as [H1 H2].
  apply N.leb_le in H1, H2. lia.
Qed.

Lemma in_range_value (lo hi : Z) (c : ascii) :
  in_range lo hi c = true -> lo <= PyStr.digit_value c <= hi.
Proof.
  unfold in_range. intros Hc.
  apply andb_true_iff in Hc as [Hc H2]. apply andb_true_iff in Hc as [_ H1].
  apply Z.leb_le in H1, H2. lia.
Qed.

Lemma re_Y_bounds (s r : string) (y : Z) :
  re_Y s = Some (y, r) -> 0 <= y <= 9999.
Proof.
  unfold re_Y. destruct s as [|a [|b [|c [|d r']]]]; try discriminate.
  destruct (PyStr.isdigit a) eqn:Ha; [|discriminate].
  destruct (PyStr.isdigit b) eqn:Hb; [|discriminate].
  destruct (PyStr.isdigit c) eqn:Hc; [|discriminate].
  destruct (PyStr.isdigit d) eqn:Hd; [|discriminate].
  cbn. intros [= <- _].
  apply isdigit_value in Ha, Hb, Hc, Hd. lia.
Qed.

Lemma alt2_bounds (lo1 hi1 lo2 hi2 : Z) (s r : string) (v : Z) :
  (v, r) ∈ alt2 lo1 hi1 lo2 hi2 s -> 10 * lo1 + lo2 <= v <= 10 * hi1 + hi2.
Proof.
  unfold alt2. destruct s as [|a [|b r']]; try (intros H; by apply elem_of_nil in H).
  destruct (in_range lo1 hi1 a) eqn:Ha; [|intros H; by apply elem_of_nil in H].
  destruct (in_range lo2 hi2 b) eqn:Hb; [|intros H; by apply elem_of_nil in H].
  cbn. intros Hin. apply list_elem_of_singleton in Hin. injection Hin as -> _.
  apply in_range_value in Ha, Hb. lia.
Qed.

Lemma alt1_bounds (s r : string) (v : Z) : (v, r) ∈ alt1 s -> 1 <= v <= 9.
Proof.
  unfold alt1. destruct s as [|a r']; [intros H; by apply elem_of_nil in H|].
  destruct (in_range 1 9 a) eqn:Ha; [|intros H; by apply elem_of_nil in H].
  intros Hin. apply list_elem_of_singleton in Hin. injection Hin as -> _.
  by apply in_range_value in Ha.
Qed.

Lemma alt_blank_bounds (s r : string) (v : Z) : (v, r) ∈ alt_blank s -> 1 <= v <= 9.
Proof.
  unfold alt_blank. destruct s as [|a r']; [intros H; by apply elem_of_nil in H|].
  destruct (Ascii.eqb a " "); [apply alt1_bounds | intros H; by apply elem_of_nil in H].
Qed.

Lemma re_m_bounds (s r : string) (v : Z) : (v, r) ∈ re_m s -> 1 <= v <= 12.
Proof.
  unfold re_m. rewrite !elem_of_app. intros [H|[H|H]].
  - apply alt2_bounds in H. lia.
  - apply alt2_bounds in H. lia.
  - apply alt1_bounds in H. lia.
Qed.

Lemma re_d_bounds (s r : string) (v : Z) : (v, r) ∈ re_d s -> 1 <= v <= 31.
Proof.
  unfold re_d. rewrite !elem_of_app. intros [H|[H|[H|[H|H]]]].
  - apply alt2_bounds in H. lia.
  - apply alt2_bounds in H. lia.
  - apply alt2_bounds in H. lia.
  - apply alt1_bounds in H. lia.
  - apply alt_blank_bounds in H. lia.
Qed.

Lemma first_match_Some {A B : Type} (k : A -> option B) (alts : list A) (b : B) :
  first_match k alts = Some b -> exists a, a ∈ alts /\ k a = Some b.
Proof.
  induction alts as [|a alts IH]; cbn; [discriminate|].
  destruct (k a) as [b'|] eqn:Hk.
  - intros [= ->]. exists a. split; [left | done].
  - intros H. destruct (IH H) as (a' & Hin & Ha'). exists a'. split; [by right | done].
Qed.

Lemma re_match_bounds (s rest : string) (y m d : Z) :
  re_match s = Some (y, m, d, rest) ->
  0 <= y <= 9999 /\ 1 <= m <= 12 /\ 1 <= d <= 31.
Proof.
  unfold re_match.
  destruct (re_Y s) as [[y0 s1]|] eqn:HY; [|discriminate].
  destruct (re_lit "-" s1) as [s2|]; [|discriminate].
  intros Hfm. apply first_match_Some in Hfm as ([m0 s3] & Hm & Hk).
  destruct (re_lit "-" s3) as [s4|]; [|discriminate].
  destruct (re_d s4) as [|[d0 s5] tl] eqn:Hd; [discriminate|].
  injection Hk as -> -> -> ->.
  split; [by apply (re_Y_bounds s s1)|].
  split; [by apply (re_m_bounds s2 s3)|].
  apply (re_d_bounds s4 rest). rewrite Hd. left.
Qed.

(** A date built by [strptime] is a date of the calendar. *)
Lemma strptime_ymd_valid (s : string) (dt : datetime) :
  strptime_ymd s = inr dt ->
  1 <= year dt <= 9999 /\ 1 <= month dt <= 12
  /\ 1 <= day dt <= days_in_month (year dt) (month dt).
Proof.
  unfold strptime_ymd.
  destruct (re_match s) as [[[[y m] d] rest]|] eqn:Hm; [|discriminate].
  destruct rest; [|discriminate].
  destruct (Z.ltb_spec y MINYEAR); [discriminate|].
  destruct (Z.ltb_spec (days_in_month y m) d); [discriminate|].
  intros [= <-]. cbn. apply re_match_bounds in Hm. unfold MINYEAR in *. lia.
Qed.

Lemma days_before_year_bounds (y : Z) :
  1 <= y <= 9998 -> 0 <= days_before_year y <= 3651428.
Proof.
  intros Hy. unfold days_before_year. cbv zeta.
  Z.div_mod_to_equations. lia.
Qed.

(** Its ordinal is one [fromordinal] accepts. *)
Lemma toordinal_bounds (s : string) (dt : datetime) :
  strptime_ymd s = inr dt -> 1 <= toordinal dt <= MAXORDINAL.
Proof.
  intros Hs. apply strptime_ymd_valid in Hs as (Hy & Hm & Hd).
  destruct dt as [y m d]. cbn in *. unfold toordinal, MAXORDINAL. cbn.
  assert (Hmonth : 0 <= days_before_month y m
                   /\ days_before_month y m + days_in_month y m
                      <= 365 + (if is_leap y then 1 else 0)).
  { unfold days_before_month, days_in_month.
    assert (Hcases : m = 1 \/ m = 2 \/ m = 3 \/ m = 4 \/ m = 5 \/ m = 6 \/ m = 7
                     \/ m = 8 \/ m = 9 \/ m = 10 \/ m = 11 \/ m = 12) by lia.
    destruct (is_leap y);
      destruct Hcases as [->|[->|[->|[->|[->|[->|[->|[->|[->|[->|[->| ->]]]]]]]]]]];
      cbv [Z.to_nat Pos.to_nat Pos.iter_op Nat.add]; cbn; lia. }
  destruct (decide (y = 9999)) as [->|Hne].
  - change (is_leap 9999) with false in Hmonth.
    change (days_before_year 9999) with 3651694. lia.
  - pose proof (days_before_year_bounds y). destruct (is_leap y); lia.
Qed.

(** Going back by less than the distance to another accepted date stays
    in range. *)
Lemma minus_days_in_range (sd ed : string) (a b : datetime) (k : Z) :
  strptime_ymd sd = inr a ->
  strptime_ymd ed = inr b ->
  0 <= k < sub_days b a ->
  minus_days b k = inr (ord2ymd (toordinal b - k)).
Proof.
  intros Ha Hb Hk. apply toordinal_bounds in Ha, Hb.
  unfold minus_days, sub_days in *. cbv zeta.
  destruct (Z.leb_spec 1 (toordinal b - k)); [|lia].
  destruct (Z.leb_spec (toordinal b - k) MAXORDINAL); [|lia].
  reflexivity.
Qed.

(** *** [ord2ymd] inverts [toordinal] *)

Lemma all_from_spec (ok : Z -> bool) (fuel : nat) :
  forall n, all_from ok fuel n = true ->
  forall x, n <= x < n + Z.of_nat fuel -> ok x = true.
Proof.
  induction fuel as [|fuel IH]; intros n Hall x Hx; [lia|].
  cbn [all_from] in Hall. apply andb_true_iff in Hall as [Hn Hrest].
  destruct (decide (x = n)) as [->|Hne]; [done|].
  apply (IH (n + 1)); [done | lia].
Qed.

Lemma month_day_checked (leapyear : bool) :
  all_from (month_day_ok leapyear) 365 0 = true.
Proof. destruct leapyear; vm_compute; reflexivity. Qed.

Lemma ord2ymd_unfold (n0 : Z) :
  ord2ymd n0 =
    let n := n0 - 1 in
    let n400 := n / 146097 in let n := n mod 146097 in
    let n100 := n / 36524 in let n := n mod 36524 in
    let n4 := n / 1461 in let n := n mod 1461 in
    let n1 := n / 365 in let n := n mod 365 in
    let y := n400 * 400 + 1 + n100 * 100 + n4 * 4 + n1 in
    if (n1 =? 4) || (n100 =? 4) then mkDate (y - 1) 12 31
    else
      let leapyear := (n1 =? 3) && (negb (n4 =? 24) || (n100 =? 3)) in
      mkDate y (fst (month_day leapyear n)) (snd (month_day leapyear n)).
Proof.
  unfold ord2ymd, month_day, DI400Y, DI100Y, DI4Y. cbv zeta.
  destruct (_ || _); [reflexivity|].
  destruct (_ <? _); reflexivity.
Qed.

Ltac decide_mods :=
  repeat match goal with
         | |- context [(?x mod ?k =? 0)] => destruct (Z.eqb_spec (x mod k) 0)
         end.

(** The date found for day number [n0] is a date of the calendar, and
    its day number is [n0]. *)
Lemma ord2ymd_spec (n0 : Z) :
  1 <= n0 ->
  toordinal (ord2ymd n0) = n0
  /\ 1 <= month (ord2ymd n0) <= 12
  /\ 1 <= day (ord2ymd n0) <= days_in_month (year (ord2ymd n0)) (month (ord2ymd n0))
  /\ 1 <= year (ord2ymd n0)
  /\ (n0 <= MAXORDINAL -> year (ord2ymd n0) <= 9999).
Proof.
  intros Hn. rewrite ord2ymd_unfold. cbv zeta. unfold MAXORDINAL.
  set (N := n0 - 1).
  assert (HN : 0 <= N) by (unfold N; lia).
  set (a := N / 146097). set (r1 := N mod 146097).
  set (b := r1 / 36524). set (r2 := r1 mod 36524).
  set (c := r2 / 1461). set (r3 := r2 mod 1461).
  set (e := r3 / 365). set (r4 := r3 mod 365).
  assert (H1 : N = 146097 * a + r1 /\ 0 <= r1 < 146097 /\ 0 <= a)
    by (unfold a, r1; Z.div_mod_to_equations; lia).
  assert (H2 : r1 = 36524 * b + r2 /\ 0 <= r2 < 36524 /\ 0 <= b <= 4)
    by (unfold b, r2; Z.div_mod_to_equations; lia).
  assert (H3 : r2 = 1461 * c + r3 /\ 0 <= r3 < 1461 /\ 0 <= c <= 24)
    by (unfold c, r3; Z.div_mod_to_equations; lia).
  assert (H4 : r3 = 365 * e + r4 /\ 0 <= r4 < 365 /\ 0 <= e <= 4)
    by (unfold e, r4; Z.div_mod_to_equations; lia).
  clearbody a r1 b r2 c r3 e r4.
  assert (Hn0 : n0 = N + 1) by (unfold N; lia). clearbody N. subst n0.
  destruct (Z.eqb_spec e 4) as [He|He]; [|destruct (Z.eqb_spec b 4) as [Hb|Hb]]; cbn [orb].
  - (* last day of the fourth year of a four-year cycle *)
    cbn [year month day]. change (days_in_month _ 12) with 31.
    split; [|lia].
    unfold toordinal, days_before_month, days_before_year, is_leap. cbn [year month day].
    cbv zeta. change (nth (Z.to_nat 12) DAYS_BEFORE_MONTH 0) with 334.
    change (2 <? 12) with true. cbn [andb].
    decide_mods; cbn [negb andb orb]; Z.div_mod_to_equations; lia.
  - (* last day of a 400-year cycle *)
    cbn [year month day]. change (days_in_month _ 12) with 31.
    split; [|lia].
    unfold toordinal, days_before_month, days_before_year, is_leap. cbn [year month day].
    cbv zeta. change (nth (Z.to_nat 12) DAYS_BEFORE_MONTH 0) with 334.
    change (2 <? 12) with true. cbn [andb].
    decide_mods; cbn [negb andb orb]; Z.div_mod_to_equations; lia.
  - set (leapyear := (e =? 3) && (negb (c =? 24) || (b =? 3))).
    pose proof (all_from_spec _ _ _ (month_day_checked leapyear) r4) as Hmd.
    unfold month_day_ok in Hmd.
    destruct (month_day leapyear r4) as [m d]. cbn [fst snd].
    specialize (Hmd ltac:(lia)).
    repeat (apply andb_true_iff in Hmd as [Hmd ?]).
    apply Z.leb_le in Hmd.
    repeat match goal with H : (_ <=? _) = true |- _ => apply Z.leb_le in H end.
    match goal with H : (_ =? _) = true |- _ => apply Z.eqb_eq in H; rename H into Hsum end.
    unfold toordinal, days_before_month, days_in_month. cbn [year month day].
    assert (Hleap : is_leap (a * 400 + 1 + b * 100 + c * 4 + e) = leapyear).
    { unfold is_leap, leapyear.
      destruct (Z.eqb_spec e 3), (Z.eqb_spec c 24), (Z.eqb_spec b 3);
        decide_mods; cbn [negb andb orb]; try reflexivity; exfalso;
        Z.div_mod_to_equations; lia. }
    rewrite Hleap.
    assert (Hy : days_before_year (a * 400 + 1 + b * 100 + c * 4 + e)
                 = 146097 * a + 36524 * b + 1461 * c + 365 * e).
    { unfold days_before_year. cbv zeta. Z.div_mod_to_equations. lia. }
    rewrite Hy. lia.
Qed.

Lemma toordinal_ord2ymd (n0 : Z) : 1 <= n0 -> toordinal (ord2ymd n0) = n0.
Proof. intros Hn. by apply ord2ymd_spec. Qed.

Lemma ord2ymd_valid (n0 : Z) : 1 <= n0 <= MAXORDINAL -> valid_date (ord2ymd n0).
Proof.
  intros [Hlo Hhi]. destruct (ord2ymd_spec n0 Hlo) as (_ & Hm & Hd & Hy & Hy').
  unfold valid_date. auto.
Qed.

(** *** [strptime] reads back what [strftime] writes *)

Lemma digit_char_spec (k : Z) :
  PyStr.isdigit (PyStr.digit_char k) = true
  /\ PyStr.digit_value (PyStr.digit_char k) = k mod 10.
Proof.
  unfold PyStr.digit_char.
  assert (H : 0 <= k mod 10 < 10) by (apply Z.mod_pos_bound; lia).
  assert (Hc : k mod 10 = 0 \/ k mod 10 = 1 \/ k mod 10 = 2 \/ k mod 10 = 3
               \/ k mod 10 = 4 \/ k mod 10 = 5 \/ k mod 10 = 6 \/ k mod 10 = 7
               \/ k mod 10 = 8 \/ k mod 10 = 9) by lia.
  destruct Hc as [->|[->|[->|[->|[->|[->|[->|[->|[->| ->]]]]]]]]]; split; reflexivity.
Qed.

Lemma re_Y_fmt04 (y : Z) (r : string) :
  0 <= y <= 9999 -> re_Y (PyStr.fmt04 y +:+ r) = Some (y, r).
Proof.
  intros Hy. unfold PyStr.fmt04, re_Y. cbv [String.append].
  destruct (digit_char_spec (y / 1000)) as [-> ->].
  destruct (digit_char_spec (y / 100)) as [-> ->].
  destruct (digit_char_spec (y / 10)) as [-> ->].
  destruct (digit_char_spec y) as [-> ->].
  cbn [andb]. do 2 f_equal. Z.div_mod_to_equations. lia.
Qed.

Lemma small_cases (k bound : Z) (P : Z -> Prop) :
  1 <= k <= bound ->
  (forall j : nat, (1 <= j <= Z.to_nat bound)%nat -> P (Z.of_nat j)) ->
  P k.
Proof.
  intros Hk HP. rewrite <- (Z2Nat.id k) by lia. apply HP. lia.
Qed.

(** The month and day fields, for each of the 12 x 31 texts. *)
Lemma parse_month_day (y m d : Z) :
  1 <= m <= 12 -> 1 <= d <= 31 ->
  first_match
    (fun '(m', s3) =>
       match re_lit "-" s3 with
       | None => None
       | Some s4 =>
           match re_d s4 with
           | (d', s5) :: _ => Some (y, m', d', s5)
           | [] => None
           end
       end)
    (re_m (PyStr.fmt02 m +:+ "-" +:+ PyStr.fmt02 d))
  = Some (y, m, d, "").
Proof.
  intros Hm Hd.
  apply (small_cases m 12 (fun m => _ = Some (y, m, d, "")) Hm). intros km Hkm.
  apply (small_cases d 31 (fun d => _ = Some (y, Z.of_nat km, d, "")) Hd). intros kd Hkd.
  change (Z.to_nat 12) with 12%nat in Hkm. change (Z.to_nat 31) with 31%nat in Hkd.
  do 13 (destruct km as [|km];
         [first [lia
                | do 32 (destruct kd as [|kd]; [first [lia | vm_compute; reflexivity]|]);
                  lia]|]);
    lia.
Qed.

Lemma days_in_month_le_31 (y m : Z) : days_in_month y m <= 31.
Proof.
  unfold days_in_month. destruct (_ && _); [lia|].
  destruct (Z.to_nat m) as [|k]; [cbn; lia|].
  do 13 (destruct k as [|k]; [cbn; lia|]). cbn. destruct k; lia.
Qed.

Lemma strptime_strftime (d : datetime) :
  valid_date d -> strptime_ymd (strftime_ymd d) = inr d.
Proof.
  destruct d as [y m dd]. unfold valid_date. cbn [year month day].
  intros (Hy & Hm & Hd).
  pose proof (days_in_month_le_31 y m) as H31.
  unfold strptime_ymd, strftime_ymd, re_match. cbn [year month day].
  rewrite re_Y_fmt04 by lia.
  change (re_lit "-" ("-" +:+ ?r)) with (Some r). cbv beta iota.
  rewrite parse_month_day by lia.
  unfold MINYEAR.
  destruct (Z.ltb_spec y 1); [lia|].
  destruct (Z.ltb_spec (days_in_month y m) dd); [lia|]. reflexivity.
Qed.

(** [d - timedelta(days=k)] is [k] days before [d], and its text is
    read back by [strptime] as that very date. *)
Lemma minus_days_span (d adj : datetime) (k : Z) :
  minus_days d k = inr adj ->
  sub_days d adj = k /\ strptime_ymd (strftime_ymd adj) = inr adj.
Proof.
  unfold minus_days, sub_days. cbv zeta.
  destruct (Z.leb_spec 1 (toordinal d - k)); cbn [andb]; [|discriminate].
  destruct (Z.leb_spec (toordinal d - k) MAXORDINAL); [|discriminate].
  intros [= <-]. rewrite toordinal_ord2ymd by done.
  split; [lia|]. apply strptime_strftime. by apply ord2ymd_valid.
Qed.

End DatetimeFacts.

(* ===================================================================== *)
(** ** Basic facts about the monad and the primitive effects *)
(* ===================================================================== *)

Section Properties.
Context `{env : Environment}.

(** [_rate_limit] always returns; it touches the clock, the sleeps and
    [last_request_time] only. *)
Lemma rate_limit_returns (s : State) :
  exists s', _rate_limit s = (Returned tt, s')
    /\ same_config s s'
    /\ stdout (world s') = stdout (world s)
    /\ provider_calls (world s') = provider_calls (world s)
    /\ files (world s') = files (world s).
Proof.
  unfold _rate_limit, bind, get_self.
  destruct (last_request_time (self s)) as [last|]; cbn.
  - destruct (negb _); cbn; eexists; (split; [reflexivity|]); cbn;
      unfold same_config; cbn; auto.
  - eexists; (split; [reflexivity|]); unfold same_config; cbn; auto.
Qed.

(** Lines 61-71 only print: they leave the fetcher and the rest of the
    world alone. *)
Lemma adjust_start_date_frame (i sd ed : string) (s : State) :
  exists o s', adjust_start_date i sd ed s = (o, s')
    /\ self s' = self s
    /\ clock (world s') = clock (world s)
    /\ sleeps (world s') = sleeps (world s)
    /\ provider_calls (world s') = provider_calls (world s)
    /\ files (world s') = files (world s).
Proof.
  unfold adjust_start_date, bind, lift, ret, raise, print, set_world.
  repeat case_match; simplify_eq; cbn; eauto 10.
Qed.

Lemma bind_returned {A B} (c : Py A) (k : A -> Py B) (s : State) (a : A) (s' : State) :
  c s = (Returned a, s') -> bind c k s = k a s'.
Proof. intros E. unfold bind. rewrite E. reflexivity. Qed.

Lemma bind_raised {A B} (c : Py A) (k : A -> Py B) (s : State) (e : Exception)
    (s' : State) :
  c s = (Raised e, s') -> bind c k s = (Raised e, s').
Proof. intros E. unfold bind. rewrite E. reflexivity. Qed.

Lemma bind_assoc {A B C} (c : Py A) (k : A -> Py B) (k' : B -> Py C) (s : State) :
  bind (bind c k) k' s = bind c (fun x => bind (k x) k') s.
Proof. unfold bind. destruct (c s) as [[a|e] s1]; reflexivity. Qed.

(** One provider call followed by the emptiness test of lines 85-89. *)
Lemma history_then_check (t : string) (a : HistoryArgs) (s : State) :
  exists s',
    bind (Ticker_history t a)
         (fun data =>
            if empty data then
              print ("Warning: No data returned for " +:+ t) ;; ret None
            else ret (Some data)) s
    = (match history t a with
       | inr d => Returned (classify (inr d))
       | inl e => Raised e
       end, s')
    /\ self s' = self s
    /\ provider_calls (world s') = provider_calls (world s) ++ [mkRequest t a].
Proof.
  unfold Ticker_history, bind, set_world, lift, ret, raise, print, set_world, classify.
  cbn. destruct (history t a) as [e|d]; cbn.
  - eexists. split; [reflexivity|]. cbn. auto.
  - destruct (empty d); cbn; eexists; (split; [reflexivity|]); cbn; auto.
Qed.

(** Past the interval test and the rate limiter [E1], into the [try]. *)
Ltac enter_try Hsup E1 :=
  unfold fetch_data; unfold bind at 1; unfold get_self; rewrite Hsup;
  rewrite bool_decide_eq_true_2 by eauto; cbn [negb];
  rewrite (bind_returned _ _ _ _ _ E1).

(** The [try:] block performs at most one provider call, for its own
    ticker, and a call that was made decides the value. *)
Lemma fetch_data_try_cases (me : YFinanceDataFetcher) (t i : string)
    (sd ed : option string) (s : State) :
  exists o s', fetch_data_try me t i sd ed s = (o, s')
    /\ self s' = self s
    /\ ((provider_calls (world s') = provider_calls (world s)
         /\ exists e, o = Raised e)
        \/ exists a,
             provider_calls (world s') = provider_calls (world s) ++ [mkRequest t a]
             /\ o = match history t a with
                    | inr d => Returned (classify (inr d))
                    | inl e => Raised e
                    end).
Proof.
  unfold fetch_data_try.
  destruct (PyStr.truthy sd && PyStr.truthy ed).
  - rewrite bind_assoc.
    destruct (adjust_start_date_frame i (default "" sd) (default "" ed) s)
      as (o & s1 & E & Hself & _ & _ & Hcalls & _).
    unfold bind at 1. rewrite E. destruct o as [sd'|e].
    + destruct (history_then_check t (ByRange sd' (default "" ed) i) s1)
        as (s2 & E2 & Hself2 & Hcalls2).
      rewrite E2. eexists _, _. split; [reflexivity|].
      split; [congruence|]. right. eexists. split; [|reflexivity]. congruence.
    + eexists _, _. split; [reflexivity|]. split; [done|]. left. eauto.
  - rewrite bind_assoc. unfold bind at 1, getitem.
    destruct (supported_intervals me !! i) as [p|]; cbn.
    + destruct (history_then_check t (ByPeriod p i) s) as (s2 & E2 & Hself2 & Hcalls2).
      rewrite E2. eexists _, _. split; [reflexivity|].
      split; [done|]. right. eauto.
    + eexists _, _. split; [reflexivity|]. split; [done|]. left. eauto.
Qed.

(** With a supported interval [fetch_data] always returns; its value is
    [None] unless the provider was called and answered with rows. *)
Lemma fetch_data_returns (t i p : string) (sd ed : option string) (s : State) :
  supported_intervals (self s) !! i = Some p ->
  exists o s', fetch_data t i sd ed s = (Returned o, s')
    /\ same_config s s'
    /\ ((o = None /\ provider_calls (world s') = provider_calls (world s))
        \/ exists a,
             provider_calls (world s') = provider_calls (world s) ++ [mkRequest t a]
             /\ o = classify (history t a)).
Proof.
  intros Hsup.
  destruct (rate_limit_returns s) as (s1 & E1 & Hcfg & _ & Hcalls1 & _).
  destruct (fetch_data_try_cases (self s) t i sd ed s1)
    as (o & s2 & E2 & Hself2 & Hcases).
  enter_try Hsup E1. unfold try_except. rewrite E2.
  destruct Hcases as [[Hc [e ->]] | (a & Hc & ->)].
  - unfold fetch_data_except, bind, print, set_world, ret. cbn.
    eexists _, _. split; [reflexivity|]. cbn.
    split; [unfold same_config in *; cbn; rewrite Hself2; done|].
    left. split; [done|]. congruence.
  - destruct (history t a) as [e|d] eqn:Hh.
    + unfold fetch_data_except, bind, print, set_world, ret. cbn.
      eexists _, _. split; [reflexivity|]. cbn.
      split; [unfold same_config in *; cbn; rewrite Hself2; done|].
      right. exists a. rewrite Hh. cbn. split; [congruence|done].
    + eexists _, _. split; [reflexivity|].
      split; [unfold same_config in *; rewrite Hself2; done|].
      right. exists a. rewrite Hh. split; [congruence|done].
Qed.

(** *** The start-date adjustment, case by case *)

Lemma adjust_start_date_other (i sd ed : string) (s : State) :
  i ∉ minute_level ->
  adjust_start_date i sd ed s = (Returned sd, s).
Proof.
  intros Hi. unfold adjust_start_date.
  rewrite bool_decide_eq_false_2 by done. reflexivity.
Qed.

Lemma adjust_start_date_bad_start (i sd ed : string) (e : Exception) (s : State) :
  i ∈ minute_level ->
  Datetime.strptime_ymd sd = inl e ->
  adjust_start_date i sd ed s = (Raised e, s).
Proof.
  intros Hi Hsd. unfold adjust_start_date.
  rewrite bool_decide_eq_true_2 by done.
  unfold bind, lift. rewrite Hsd. reflexivity.
Qed.

Lemma adjust_start_date_bad_end (i sd ed : string) (a : Datetime.datetime)
    (e : Exception) (s : State) :
  i ∈ minute_level ->
  Datetime.strptime_ymd sd = inr a ->
  Datetime.strptime_ymd ed = inl e ->
  adjust_start_date i sd ed s = (Raised e, s).
Proof.
  intros Hi Hsd Hed. unfold adjust_start_date.
  rewrite bool_decide_eq_true_2 by done.
  unfold bind, lift. rewrite Hsd, Hed. reflexivity.
Qed.

Lemma adjust_start_date_within (i sd ed : string) (a b : Datetime.datetime)
    (s : State) :
  i ∈ minute_level ->
  Datetime.strptime_ymd sd = inr a ->
  Datetime.strptime_ymd ed = inr b ->
  Datetime.sub_days b a <= (if String.eqb i "1m" then 7 else 60) ->
  adjust_start_date i sd ed s = (Returned sd, s).
Proof.
  intros Hi Hsd Hed Hspan. unfold adjust_start_date.
  rewrite bool_decide_eq_true_2 by done.
  unfold bind, lift. rewrite Hsd, Hed. cbn.
  destruct (Z.ltb_spec (if String.eqb i "1m" then 7 else 60) (Datetime.sub_days b a));
    [lia | reflexivity].
Qed.

Lemma adjust_start_date_beyond (i sd ed : string) (a b adj : Datetime.datetime)
    (s : State) :
  i ∈ minute_level ->
  Datetime.strptime_ymd sd = inr a ->
  Datetime.strptime_ymd ed = inr b ->
  (if String.eqb i "1m" then 7 else 60) < Datetime.sub_days b a ->
  Datetime.minus_days b (if String.eqb i "1m" then 7 else 60) = inr adj ->
  adjust_start_date i sd ed s
  = (Returned (Datetime.strftime_ymd adj),
     after (print ("Note: Adjusted start date to " +:+ Datetime.strftime_ymd adj
                   +:+ " due to " +:+ i +:+ " interval limitations")) s).
Proof.
  intros Hi Hsd Hed Hspan Hadj. unfold adjust_start_date.
  rewrite bool_decide_eq_true_2 by done.
  unfold bind, lift. rewrite Hsd, Hed. cbn.
  destruct (Z.ltb_spec (if String.eqb i "1m" then 7 else 60) (Datetime.sub_days b a));
    [|lia].
  rewrite Hadj. reflexivity.
Qed.

(** *** The provider request of [fetch_data], case by case *)

(** Without both dates: the catalog's period for the interval. *)
Lemma fetch_data_period (t i p : string) (sd ed : option string) (s : State) :
  supported_intervals (self s) !! i = Some p ->
  PyStr.truthy sd && PyStr.truthy ed = false ->
  exists s', fetch_data t i sd ed s
             = (Returned (classify (history t (ByPeriod p i))), s')
    /\ provider_calls (world s')
       = provider_calls (world s) ++ [mkRequest t (ByPeriod p i)].
Proof.
  intros Hsup Hdates.
  destruct (rate_limit_returns s) as (s1 & E1 & Hcfg & _ & Hcalls1 & _).
  enter_try Hsup E1. unfold try_except, fetch_data_try.
  rewrite Hdates, bind_assoc. unfold bind at 1, getitem. rewrite Hsup. cbn.
  destruct (history_then_check t (ByPeriod p i) s1) as (s2 & E2 & _ & Hcalls2).
  rewrite E2. destruct (history t (ByPeriod p i)) as [e|d]; cbn.
  - eexists. split; [reflexivity|]. cbn. congruence.
  - eexists. split; [reflexivity|]. congruence.
Qed.

(** With both dates, once lines 61-71 have settled on a start date. *)
Lemma fetch_data_range (t i p sd ed sd' : string) (s s2 : State) :
  supported_intervals (self s) !! i = Some p ->
  PyStr.truthy (Some sd) && PyStr.truthy (Some ed) = true ->
  adjust_start_date i sd ed (after _rate_limit s) = (Returned sd', s2) ->
  exists s', fetch_data t i (Some sd) (Some ed) s
             = (Returned (classify (history t (ByRange sd' ed i))), s')
    /\ provider_calls (world s')
       = provider_calls (world s) ++ [mkRequest t (ByRange sd' ed i)]
    /\ (forall line, line ∈ stdout (world s2) -> line ∈ stdout (world s')).
Proof.
  intros Hsup Hdates Hadj.
  destruct (rate_limit_returns s) as (s1 & E1 & Hcfg & _ & Hcalls1 & _).
  unfold after in Hadj. rewrite E1 in Hadj. cbn [snd] in Hadj.
  destruct (adjust_start_date_frame i sd ed s1)
    as (o & s2' & E & _ & _ & _ & Hcalls & _).
  rewrite Hadj in E. injection E as Ho Hs. subst o s2'.
  enter_try Hsup E1. unfold try_except, fetch_data_try.
  rewrite Hdates, bind_assoc. cbn [default from_option id]. unfold bind at 1. rewrite Hadj.
  pose proof (history_then_check t (ByRange sd' ed i) s2) as (s3 & E3 & _ & Hcalls3).
  rewrite E3.
  assert (Hout : forall line, line ∈ stdout (world s2) -> line ∈ stdout (world s3)).
  { revert E3. unfold Ticker_history, bind, set_world, lift, ret, raise, print,
      set_world. cbn.
    destruct (history t _) as [e|d]; cbn; [intros; simplify_eq; done|].
    destruct (empty d); cbn; intros; simplify_eq; cbn; set_solver. }
  destruct (history t (ByRange sd' ed i)) as [e|d]; cbn.
  - eexists. split; [reflexivity|]. cbn. split; [congruence|].
    intros line Hl. set_solver.
  - eexists. split; [reflexivity|]. split; [congruence|done].
Qed.

(** With both dates, when lines 61-71 raise: no call, value [None]. *)
Lemma fetch_data_range_raises (t i p sd ed : string) (e : Exception) (s s2 : State) :
  supported_intervals (self s) !! i = Some p ->
  PyStr.truthy (Some sd) && PyStr.truthy (Some ed) = true ->
  adjust_start_date i sd ed (after _rate_limit s) = (Raised e, s2) ->
  exists s', fetch_data t i (Some sd) (Some ed) s = (Returned None, s')
    /\ provider_calls (world s') = provider_calls (world s)
    /\ stdout (world s')
       = stdout (world s2) ++ ["Error fetching data for " +:+ t +:+ ": " +:+ exc_str e].
Proof.
  intros Hsup Hdates Hadj.
  destruct (rate_limit_returns s) as (s1 & E1 & Hcfg & _ & Hcalls1 & _).
  unfold after in Hadj. rewrite E1 in Hadj. cbn [snd] in Hadj.
  destruct (adjust_start_date_frame i sd ed s1)
    as (o & s2' & E & _ & _ & _ & Hcalls & _).
  rewrite Hadj in E. injection E as Ho Hs. subst o s2'.
  enter_try Hsup E1. unfold try_except, fetch_data_try.
  rewrite Hdates, bind_assoc. cbn [default from_option id]. unfold bind at 1. rewrite Hadj.
  unfold fetch_data_except, bind, print, set_world, ret. cbn.
  eexists. split; [reflexivity|]. cbn. split; [congruence|done].
Qed.

Lemma strptime_nonempty (x : string) (d : Datetime.datetime) :
  Datetime.strptime_ymd x = inr d -> PyStr.truthy (Some x) = true.
Proof. destruct x; [discriminate | reflexivity]. Qed.

(** *** The clamp, for the intervals named on line 63 *)

(** With parseable dates whose span exceeds the maximum (7 days for
    ['1m'], 60 days for the other six), the provider is queried from the
    date [adj] that lies the maximum before the end date, written as
    YYYY-MM-DD, and the note is printed. *)
Lemma fetch_data_clamps (t i p sd ed : string) (a b : Datetime.datetime) (s : State) :
  supported_intervals (self s) !! i = Some p ->
  i ∈ minute_level ->
  Datetime.strptime_ymd sd = inr a ->
  Datetime.strptime_ymd ed = inr b ->
  (if String.eqb i "1m" then 7 else 60) < Datetime.sub_days b a ->
  exists (adj : Datetime.datetime) (s' : State),
    Datetime.sub_days b adj = (if String.eqb i "1m" then 7 else 60)
    /\ Datetime.strptime_ymd (Datetime.strftime_ymd adj) = inr adj
    /\ fetch_data t i (Some sd) (Some ed) s
       = (Returned (classify (history t (ByRange (Datetime.strftime_ymd adj) ed i))), s')
    /\ provider_calls (world s')
       = provider_calls (world s)
         ++ [mkRequest t (ByRange (Datetime.strftime_ymd adj) ed i)]
    /\ ("Note: Adjusted start date to " +:+ Datetime.strftime_ymd adj +:+ " due to " +:+ i
        +:+ " interval limitations") ∈ stdout (world s').
Proof.
  intros Hsup Hi Hsd Hed Hspan.
  assert (Hdates : PyStr.truthy (Some sd) && PyStr.truthy (Some ed) = true).
  { rewrite (strptime_nonempty sd a), (strptime_nonempty ed b); done. }
  set (max_days := if String.eqb i "1m" then 7 else 60) in *.
  assert (Hminus : Datetime.minus_days b max_days
                   = inr (Datetime.ord2ymd (Datetime.toordinal b - max_days))).
  { apply (DatetimeFacts.minus_days_in_range sd ed a b); try done.
    unfold max_days. destruct (String.eqb i "1m"); lia. }
  destruct (DatetimeFacts.minus_days_span _ _ _ Hminus) as [Hback Hread].
  pose proof (adjust_start_date_beyond i sd ed a b _ (after _rate_limit s)
                Hi Hsd Hed Hspan Hminus) as Hadj.
  destruct (fetch_data_range t i p sd ed _ s _ Hsup Hdates Hadj)
    as (s' & E & Hcalls & Hout).
  eexists _, s'. split; [exact Hback|]. split; [exact Hread|].
  split; [exact E|]. split; [exact Hcalls|].
  apply Hout. unfold after at 1, print, set_world. cbn.
  apply elem_of_app. right. left.
Qed.

(** With parseable dates whose span is within the maximum, both dates
    reach the provider as given. *)
Lemma fetch_data_within (t i p sd ed : string) (a b : Datetime.datetime) (s : State) :
  supported_intervals (self s) !! i = Some p ->
  i ∈ minute_level ->
  Datetime.strptime_ymd sd = inr a ->
  Datetime.strptime_ymd ed = inr b ->
  Datetime.sub_days b a <= (if String.eqb i "1m" then 7 else 60) ->
  exists s',
    fetch_data t i (Some sd) (Some ed) s
    = (Returned (classify (history t (ByRange sd ed i))), s')
    /\ provider_calls (world s')
       = provider_calls (world s) ++ [mkRequest t (ByRange sd ed i)].
Proof.
  intros Hsup Hi Hsd Hed Hspan.
  assert (Hdates : PyStr.truthy (Some sd) && PyStr.truthy (Some ed) = true).
  { rewrite (strptime_nonempty sd a), (strptime_nonempty ed b); done. }
  pose proof (adjust_start_date_within i sd ed a b (after _rate_limit s)
                Hi Hsd Hed Hspan) as Hadj.
  destruct (fetch_data_range t i p sd ed sd s _ Hsup Hdates Hadj) as (s' & E & Hcalls & _).
  eauto.
Qed.

(** For every other supported interval, ['90m'] among them, the dates
    are not even parsed: both reach the provider as given. *)
Lemma fetch_data_unlisted (t i p sd ed : string) (s : State) :
  supported_intervals (self s) !! i = Some p ->
  i ∉ minute_level ->
  PyStr.truthy (Some sd) && PyStr.truthy (Some ed) = true ->
  exists s',
    fetch_data t i (Some sd) (Some ed) s
    = (Returned (classify (history t (ByRange sd ed i))), s')
    /\ provider_calls (world s')
       = provider_calls (world s) ++ [mkRequest t (ByRange sd ed i)].
Proof.
  intros Hsup Hi Hdates.
  pose proof (adjust_start_date_other i sd ed (after _rate_limit s) Hi) as Hadj.
  destruct (fetch_data_range t i p sd ed sd s _ Hsup Hdates Hadj) as (s' & E & Hcalls & _).
  eauto.
Qed.

(** *** Unsupported intervals *)

Lemma catalog_lookup_None (i : string) :
  i ∉ catalog.*1 -> supported_intervals __init__ !! i = None.
Proof. intros Hi. cbn [__init__ supported_intervals]. by apply not_elem_of_list_to_map_1. Qed.

(** C5: for an interval code outside the fixed supported set,
    [fetch_data] raises [ValueError("Unsupported interval: ..")] and
    leaves the whole state as it was (so neither the rate limiter nor
    the provider has run); [fetch_and_save_multiple] does not catch it:
    with at least one ticker the batch ends with that exception, and
    no sleep, provider call or file write has happened. *)
Theorem unsupported_interval_aborts (t i : string) (sd ed : option string)
    (ticker_input : string) (base_dir : Path) (s : State) :
  supported_intervals (self s) = supported_intervals __init__ ->
  i ∉ catalog.*1 ->
  process_tickers ticker_input ≠ [] ->
  fetch_data t i sd ed s = (Raised (ValueError ("Unsupported interval: " +:+ i)), s)
  /\ exists s',
       fetch_and_save_multiple ticker_input base_dir i sd ed s
       = (Raised (ValueError ("Unsupported interval: " +:+ i)), s')
       /\ self s' = self s
       /\ clock (world s') = clock (world s)
       /\ sleeps (world s') = sleeps (world s)
       /\ provider_calls (world s') = provider_calls (world s)
       /\ files (world s') = files (world s).
Proof.
  intros Hcat Hi Hne.
  assert (Hnone : supported_intervals (self s) !! i = None)
    by (rewrite Hcat; by apply catalog_lookup_None).
  assert (Hfetch : forall u s0, self s0 = self s ->
            fetch_data u i sd ed s0
            = (Raised (ValueError ("Unsupported interval: " +:+ i)), s0)).
  { intros u s0 Hs0. unfold fetch_data, bind, get_self. rewrite Hs0, Hnone.
    rewrite bool_decide_eq_false_2; [reflexivity|]. by intros [? ?]. }
  split; [by apply Hfetch|].
  unfold fetch_and_save_multiple.
  destruct (process_tickers ticker_input) as [|u rest]; [done|].
  cbn [for_tickers]. unfold bind at 1, print, set_world. cbn.
  unfold bind at 1. rewrite Hfetch by done.
  eexists. split; [reflexivity|]. cbn. auto.
Qed.

(** *** Explicit ranges *)

(** C6: resolving ['1m'] with start 2024-01-01 and end 2024-02-01 (a
    span of 31 days, above the 7-day maximum) queries the provider from
    2024-01-25, which is the end minus 7 days, to 2024-02-01; the
    clamping is made visible by the printed note, which names the
    adjusted start date. *)
Theorem one_minute_range_clamped (t : string) (last : option Q) (gap : Q)
    (w : World) :
  let s := mkState (mkFetcher (supported_intervals __init__) last gap) w in
  Datetime.sub_days (Datetime.mkDate 2024 2 1) (Datetime.mkDate 2024 1 1) = 31
  /\ Datetime.minus_days (Datetime.mkDate 2024 2 1) 7
     = inr (Datetime.mkDate 2024 1 25)
  /\ exists s',
       fetch_data t "1m" (Some "2024-01-01") (Some "2024-02-01") s
       = (Returned (classify (history t (ByRange "2024-01-25" "2024-02-01" "1m"))), s')
       /\ provider_calls (world s')
          = provider_calls w ++ [mkRequest t (ByRange "2024-01-25" "2024-02-01" "1m")]
       /\ "Note: Adjusted start date to 2024-01-25 due to 1m interval limitations"
          ∈ stdout (world s').
Proof.
  intros s. split; [reflexivity|]. split; [reflexivity|].
  destruct (fetch_data_range t "1m" "7d" "2024-01-01" "2024-02-01" "2024-01-25" s
              (after (print "Note: Adjusted start date to 2024-01-25 due to 1m interval limitations")
                     (after _rate_limit s)))
    as (s' & E & Hcalls & Hout).
  - reflexivity.
  - reflexivity.
  - apply (adjust_start_date_beyond "1m" "2024-01-01" "2024-02-01"
             (Datetime.mkDate 2024 1 1) (Datetime.mkDate 2024 2 1)
             (Datetime.mkDate 2024 1 25)); try reflexivity.
    set_solver.
  - exists s'. split; [exact E|]. split; [exact Hcalls|].
    apply Hout. unfold after, print, set_world. cbn. set_solver.
Qed.

(** C1, at the input where the code departs from it: the catalog gives
    ['90m'] a 60-day maximum, the requested span is 152 days, and yet
    the provider is queried with the start date as given, whereas the
    same call with ['60m'] is clamped to 2024-04-02. *)
Theorem ninety_minute_range_not_clamped (t : string) (last : option Q) (gap : Q)
    (w : World) :
  let s := mkState (mkFetcher (supported_intervals __init__) last gap) w in
  supported_intervals __init__ !! "90m" = Some "60d"
  /\ Datetime.sub_days (Datetime.mkDate 2024 6 1) (Datetime.mkDate 2024 1 1) = 152
  /\ provider_calls (world (after (fetch_data t "90m" (Some "2024-01-01") (Some "2024-06-01")) s))
     = provider_calls w ++ [mkRequest t (ByRange "2024-01-01" "2024-06-01" "90m")]
  /\ provider_calls (world (after (fetch_data t "60m" (Some "2024-01-01") (Some "2024-06-01")) s))
     = provider_calls w ++ [mkRequest t (ByRange "2024-04-02" "2024-06-01" "60m")].
Proof.
  intros s. split; [reflexivity|]. split; [reflexivity|]. split.
  - destruct (fetch_data_range t "90m" "60d" "2024-01-01" "2024-06-01" "2024-01-01" s
                (after _rate_limit s)) as (s' & E & Hcalls & _);
      [reflexivity | reflexivity | | ].
    + apply adjust_start_date_other.
      apply (proj1 (bool_decide_eq_false _)). reflexivity.
    + unfold after. rewrite E. exact Hcalls.
  - destruct (fetch_data_range t "60m" "60d" "2024-01-01" "2024-06-01" "2024-04-02" s
                (after (print "Note: Adjusted start date to 2024-04-02 due to 60m interval limitations")
                       (after _rate_limit s))) as (s' & E & Hcalls & _);
      [reflexivity | reflexivity | | ].
    + apply (adjust_start_date_beyond "60m" "2024-01-01" "2024-06-01"
               (Datetime.mkDate 2024 1 1) (Datetime.mkDate 2024 6 1)
               (Datetime.mkDate 2024 4 2)); try reflexivity.
      set_solver.
    + unfold after. rewrite E. exact Hcalls.
Qed.

(** C2, as the code has it: for every supported interval, an explicit
    range whose end date is strictly before its start date is not
    rejected.  [fetch_data] returns normally, the dates are not
    swapped, and the provider is queried with the range exactly as
    given. *)
Theorem reversed_range_passes_through (t i p sd ed : string)
    (a b : Datetime.datetime) (s : State) :
  supported_intervals (self s) !! i = Some p ->
  Datetime.strptime_ymd sd = inr a ->
  Datetime.strptime_ymd ed = inr b ->
  Datetime.toordinal b < Datetime.toordinal a ->
  exists s',
    fetch_data t i (Some sd) (Some ed) s
    = (Returned (classify (history t (ByRange sd ed i))), s')
    /\ provider_calls (world s')
       = provider_calls (world s) ++ [mkRequest t (ByRange sd ed i)].
Proof.
  intros Hsup Hsd Hed Hlt.
  assert (Hdates : PyStr.truthy (Some sd) && PyStr.truthy (Some ed) = true).
  { rewrite (strptime_nonempty sd a), (strptime_nonempty ed b); done. }
  assert (Hadj : adjust_start_date i sd ed (after _rate_limit s)
                 = (Returned sd, after _rate_limit s)).
  { destruct (decide (i ∈ minute_level)) as [Hi|Hi].
    - apply (adjust_start_date_within i sd ed a b); try done.
      unfold Datetime.sub_days. destruct (String.eqb i "1m"); lia.
    - by apply adjust_start_date_other. }
  destruct (fetch_data_range t i p sd ed sd s _ Hsup Hdates Hadj)
    as (s' & E & Hcalls & _).
  eauto.
Qed.

(** C3, as the code has it: when [start_date] is given and [end_date]
    is omitted, the test [start_date and end_date] fails, so the
    provider is queried with the catalog's default period for the
    interval; the start date is not sent and no end date is made up. *)
Theorem end_omitted_uses_default_period (t i p sd : string) (s : State) :
  supported_intervals (self s) !! i = Some p ->
  exists s',
    fetch_data t i (Some sd) None s
    = (Returned (classify (history t (ByPeriod p i))), s')
    /\ provider_calls (world s')
       = provider_calls (world s) ++ [mkRequest t (ByPeriod p i)].
Proof.
  intros Hsup. apply fetch_data_period; [done|].
  apply andb_false_r.
Qed.

(** [fetch_data] returns what its [try:] block returns, and [None] when
    that block raises. *)
Lemma fetch_data_result (t i p : string) (sd ed : option string) (s : State) :
  supported_intervals (self s) !! i = Some p ->
  result (fetch_data t i sd ed) s
  = Returned (match result (fetch_data_try (self s) t i sd ed) (after _rate_limit s) with
              | Returned o => o
              | Raised _ => None
              end).
Proof.
  intros Hsup.
  destruct (rate_limit_returns s) as (s1 & E1 & _).
  unfold result, after. enter_try Hsup E1. rewrite E1. cbn [snd]. unfold try_except.
  destruct (fetch_data_try (self s) t i sd ed s1) as [[o|e] s2]; reflexivity.
Qed.

(** Between two acquisitions nothing writes to the fetcher: after
    [fetch_data] it is as [_rate_limit] left it. *)
Lemma fetch_data_keeps_fetcher (t i p : string) (sd ed : option string) (s : State) :
  supported_intervals (self s) !! i = Some p ->
  self (after (fetch_data t i sd ed) s) = self (after _rate_limit s).
Proof.
  intros Hsup.
  destruct (rate_limit_returns s) as (s1 & E1 & _).
  destruct (fetch_data_try_cases (self s) t i sd ed s1) as (o & s2 & E2 & Hself & _).
  unfold after. enter_try Hsup E1. rewrite E1. unfold try_except. rewrite E2.
  destruct o as [o|e]; cbn; done.
Qed.

(** *** The value returned by [fetch_data] *)

Lemma classify_Some (answer : Exception + DataFrame) (d : DataFrame) :
  classify answer = Some d -> answer = inr d /\ empty d = false.
Proof.
  destruct answer as [e|d']; cbn; [discriminate|].
  destruct (empty d') eqn:He; [discriminate|]. intros [= ->]. done.
Qed.

Lemma empty_false_rows (d : DataFrame) :
  empty d = false -> (1 <= length (rows d))%nat.
Proof.
  unfold empty. destruct (columns d), (rows d); try discriminate. cbn. lia.
Qed.

(** C9: whenever [fetch_data] returns a value, that value is [None] or a
    frame that is not empty, hence with at least one row; an empty
    provider answer has been turned into [None]. *)
Theorem fetch_data_never_returns_empty (t i : string) (sd ed : option string)
    (s s' : State) (d : DataFrame) :
  fetch_data t i sd ed s = (Returned (Some d), s') ->
  empty d = false /\ (1 <= length (rows d))%nat.
Proof.
  intros Hrun.
  destruct (supported_intervals (self s) !! i) as [p|] eqn:Hsup.
  - destruct (fetch_data_returns t i p sd ed s Hsup)
      as (o & s1 & E & _ & [[Ho _] | (a & _ & Ho)]);
      rewrite E in Hrun; injection Hrun as Hd _; subst o; [discriminate|].
    symmetry in Ho. apply classify_Some in Ho as [_ Hd].
    split; [done | by apply empty_false_rows].
  - unfold fetch_data, bind, get_self in Hrun. rewrite Hsup in Hrun.
    rewrite bool_decide_eq_false_2 in Hrun by (by intros [? ?]).
    discriminate.
Qed.

(** *** The rate limiter *)

(** C8: take two consecutive acquisitions of the same fetcher, the
    second one starting in any state [s1] that still holds the fetcher
    left by the first.  Provided [time.sleep] never returns early, the
    second grant [g2] is at least the configured gap after the first
    grant [g1].  If less than the gap has elapsed when the second call
    reads the clock, it sleeps once, for exactly the remaining time;
    otherwise it does not sleep and the grant is the time just read.  The
    gap of a new fetcher is 0.5. *)
Theorem rate_limit_spacing (s0 s1 : State) :
  (forall d, 0 <= oversleep d)%Q ->
  self s1 = self (after _rate_limit s0) ->
  min_request_interval __init__ = 0.5%Q
  /\ exists g1 g2 : Q,
       last_request_time (self (after _rate_limit s0)) = Some g1
       /\ last_request_time (self (after _rate_limit s1)) = Some g2
       /\ (g1 + min_request_interval (self s0) <= g2)%Q
       /\ ((clock (world s1) - g1 < min_request_interval (self s0))%Q ->
           sleeps (world (after _rate_limit s1))
           = sleeps (world s1)
             ++ [(min_request_interval (self s0) - (clock (world s1) - g1))%Q])
       /\ ((min_request_interval (self s0) <= clock (world s1) - g1)%Q ->
           sleeps (world (after _rate_limit s1)) = sleeps (world s1)
           /\ g2 = clock (world s1)).
Proof.
  intros Hsleep Hself. split; [reflexivity|].
  assert (Hfirst : exists g1,
             last_request_time (self (after _rate_limit s0)) = Some g1
             /\ min_request_interval (self (after _rate_limit s0))
                = min_request_interval (self s0)).
  { unfold after, _rate_limit, bind, get_self.
    destruct (last_request_time (self s0)) as [last|]; cbn.
    - destruct (negb _); cbn; eauto.
    - eauto. }
  destruct Hfirst as (g1 & Hg1 & Hgap).
  rewrite <- Hself in Hg1, Hgap.
  exists g1. rewrite <- Hself.
  unfold after, _rate_limit, bind, get_self. rewrite Hg1, Hgap. cbn.
  set (gap := min_request_interval (self s0)).
  set (elapsed := (clock (world s1) - g1)%Q).
  destruct (Qle_bool gap elapsed) eqn:Hle; cbn.
  - apply Qle_bool_iff in Hle.
    exists (clock (world s1)). split; [done|]. split; [done|].
    split; [unfold elapsed in Hle; lra|]. split; [|done].
    intros Hlt. lra.
  - assert (Hlt : (elapsed < gap)%Q).
    { apply Qnot_le_lt. intros Hc. apply Qle_bool_iff in Hc. congruence. }
    eexists. split; [done|]. split; [reflexivity|].
    split; [|split; [done|intros Hc; lra]].
    pose proof (Hsleep (gap - elapsed)%Q). unfold elapsed in *. lra.
Qed.

End Properties.

(* ===================================================================== *)
(** ** Two runs side by side *)
(* ===================================================================== *)

(** The value computed by lines 61-71 does not depend on the state. *)
Lemma adjust_start_date_result (i sd ed : string) (s s' : State) :
  result (adjust_start_date i sd ed) s = result (adjust_start_date i sd ed) s'.
Proof.
  unfold result, adjust_start_date, bind, lift, ret, raise, print, set_world.
  repeat case_match; simplify_eq; cbn; congruence.
Qed.

Section TwoRuns.
Variables env1 env2 : Environment.
Variables (u i : string) (sd ed : option string).
Hypothesis Hagree : agree_on env1 env2 u.

(** The [try:] blocks of two fetchers with the same catalog compute the
    same outcome for [u], whatever their states. *)
Lemma fetch_data_try_agree (me1 me2 : YFinanceDataFetcher) (s1 s2 : State) :
  supported_intervals me1 = supported_intervals me2 ->
  result (@fetch_data_try env1 me1 u i sd ed) s1
  = result (@fetch_data_try env2 me2 u i sd ed) s2.
Proof.
  intros Hcat. destruct Hagree as (Hhist & _ & _).
  unfold result, fetch_data_try. rewrite Hcat.
  destruct (PyStr.truthy sd && PyStr.truthy ed).
  - rewrite !bind_assoc.
    pose proof (adjust_start_date_result i (default "" sd) (default "" ed) s1 s2) as Hres.
    unfold result in Hres.
    destruct (adjust_start_date i (default "" sd) (default "" ed) s1)
      as [o1 s1'] eqn:E1.
    destruct (adjust_start_date i (default "" sd) (default "" ed) s2)
      as [o2 s2'] eqn:E2.
    cbn [fst] in Hres. subst o2.
    destruct o1 as [sd'|e].
    + rewrite (bind_returned _ _ _ _ _ E1), (bind_returned _ _ _ _ _ E2).
      destruct (@history_then_check env1 u (ByRange sd' (default "" ed) i) s1')
        as (s1'' & F1 & _).
      destruct (@history_then_check env2 u (ByRange sd' (default "" ed) i) s2')
        as (s2'' & F2 & _).
      rewrite F1, F2, Hhist. reflexivity.
    + rewrite (bind_raised _ _ _ _ _ E1), (bind_raised _ _ _ _ _ E2). reflexivity.
  - rewrite !bind_assoc. unfold getitem.
    destruct (supported_intervals me2 !! i) as [q|].
    + rewrite !(bind_returned (ret q) _ _ q _ eq_refl).
      destruct (@history_then_check env1 u (ByPeriod q i) s1) as (s1'' & F1 & _).
      destruct (@history_then_check env2 u (ByPeriod q i) s2) as (s2'' & F2 & _).
      rewrite F1, F2, Hhist. reflexivity.
    + reflexivity.
Qed.

Lemma fetch_data_agree (p : string) (s1 s2 : State) :
  supported_intervals (self s1) !! i = Some p ->
  supported_intervals (self s2) = supported_intervals (self s1) ->
  exists o s1' s2',
    @fetch_data env1 u i sd ed s1 = (Returned o, s1')
    /\ @fetch_data env2 u i sd ed s2 = (Returned o, s2')
    /\ same_config s1 s1' /\ same_config s2 s2'.
Proof.
  intros Hsup1 Hcat.
  assert (Hsup2 : supported_intervals (self s2) !! i = Some p) by (by rewrite Hcat).
  destruct (@fetch_data_returns env1 u i p sd ed s1 Hsup1) as (o1 & s1' & E1 & Hc1 & _).
  destruct (@fetch_data_returns env2 u i p sd ed s2 Hsup2) as (o2 & s2' & E2 & Hc2 & _).
  pose proof (@fetch_data_result env1 u i p sd ed s1 Hsup1) as R1.
  pose proof (@fetch_data_result env2 u i p sd ed s2 Hsup2) as R2.
  unfold result at 1 in R1. unfold result at 1 in R2.
  rewrite E1 in R1. rewrite E2 in R2. cbn [fst] in R1, R2.
  rewrite (fetch_data_try_agree (self s1) (self s2) _ (after (@_rate_limit env2) s2))
    in R1 by done.
  exists o1, s1', s2'. rewrite E1, E2. repeat split; try apply Hc1; try apply Hc2.
  congruence.
Qed.

Lemma save_data_agree (d : DataFrame) (base_dir : Path) (s1 s2 : State) :
  result (@save_data env1 d u base_dir i) s1 = result (@save_data env2 d u base_dir i) s2
  /\ self (after (@save_data env1 d u base_dir i) s1) = self s1
  /\ self (after (@save_data env2 d u base_dir i) s2) = self s2.
Proof.
  destruct Hagree as (_ & Hmk & Hcsv).
  unfold result, after, save_data, bind, Path_mkdir, DataFrame_to_csv, set_world.
  rewrite Hmk, Hcsv.
  destruct (@mkdir env2 _); cbn; [done|].
  destruct (@to_csv env2 _ _); cbn; done.
Qed.

(** One turn of the loop in each run: both insert the same entry for
    [u], whatever the dictionaries and states they started from. *)
Lemma for_tickers_step (p : string) (rest1 rest2 : list string) (base_dir : Path)
    (r1 r2 : gmap string ResultEntry) (s1 s2 : State) :
  supported_intervals (self s1) !! i = Some p ->
  supported_intervals (self s2) = supported_intervals (self s1) ->
  exists e s1' s2',
    @for_tickers env1 (u :: rest1) base_dir i sd ed r1 s1
    = @for_tickers env1 rest1 base_dir i sd ed (<[u := e]> r1) s1'
    /\ @for_tickers env2 (u :: rest2) base_dir i sd ed r2 s2
       = @for_tickers env2 rest2 base_dir i sd ed (<[u := e]> r2) s2'
    /\ supported_intervals (self s1') = supported_intervals (self s1)
    /\ supported_intervals (self s2') = supported_intervals (self s2)
    /\ (result (@fetch_data env1 u i sd ed)
               (after (print ("Fetching data for " +:+ u +:+ "...")) s1)
        = Returned None ->
        e = StatusError "Failed to fetch data").
Proof.
  intros Hsup Hcat.
  set (line := "Fetching data for " +:+ u +:+ "...").
  destruct (fetch_data_agree p (after (print line) s1) (after (print line) s2))
    as (o & s1' & s2' & F1 & F2 & [Hc1 _] & [Hc2 _]); [done..|].
  cbn [for_tickers]. fold line.
  rewrite (bind_returned (print line) _ s1 tt (after (print line) s1) eq_refl).
  rewrite (bind_returned (print line) _ s2 tt (after (print line) s2) eq_refl).
  rewrite (bind_returned _ _ _ _ _ F1), (bind_returned _ _ _ _ _ F2).
  unfold result. rewrite F1. cbn [fst].
  destruct o as [d|].
  - destruct (save_data_agree d base_dir s1' s2') as (Hres & Hs1 & Hs2).
    unfold result, after in Hres, Hs1, Hs2.
    destruct (@save_data env1 d u base_dir i s1') as [o1 s1''] eqn:S1.
    destruct (@save_data env2 d u base_dir i s2') as [o2 s2''] eqn:S2.
    cbn [fst snd] in Hres, Hs1, Hs2. subst o2.
    destruct o1 as [paths|e].
    + exists (StatusSuccess paths d),
        (after (print ("Successfully saved data for " +:+ u)) s1''),
        (after (print ("Successfully saved data for " +:+ u)) s2'').
      split; [|split].
      * apply bind_returned. unfold try_except.
        rewrite (bind_returned _ _ _ _ _ S1). reflexivity.
      * apply bind_returned. unfold try_except.
        rewrite (bind_returned _ _ _ _ _ S2). reflexivity.
      * cbn. rewrite Hs1, Hs2, Hc1, Hc2. done.
    + exists (StatusError ("Error saving data: " +:+ exc_str e)), s1'', s2''.
      split; [|split].
      * apply bind_returned. unfold try_except.
        rewrite (bind_raised _ _ _ _ _ S1). reflexivity.
      * apply bind_returned. unfold try_except.
        rewrite (bind_raised _ _ _ _ _ S2). reflexivity.
      * rewrite Hs1, Hs2, Hc1, Hc2. done.
  - exists (StatusError "Failed to fetch data"), s1', s2'.
    split; [reflexivity|]. split; [reflexivity|]. rewrite Hc1, Hc2. done.
Qed.

End TwoRuns.

(* ===================================================================== *)
(** ** The batch loop *)
(* ===================================================================== *)

Lemma agree_on_refl (env : Environment) (u : string) : agree_on env env u.
Proof. unfold agree_on. auto. Qed.

Section Batch.
Context `{env : Environment}.
Variables (base_dir : Path) (i p : string) (sd ed : option string).

(** One turn of the loop inserts for [u] the entry [u] gets on its own,
    also in an environment that differs on other tickers. *)
Lemma for_tickers_cons (env' : Environment) (me : YFinanceDataFetcher) (u : string)
    (rest : list string) (r : gmap string ResultEntry) (s : State) :
  supported_intervals (self s) !! i = Some p ->
  supported_intervals me = supported_intervals (self s) ->
  agree_on env env' u ->
  exists e s',
    @for_tickers env (u :: rest) base_dir i sd ed r s
    = @for_tickers env rest base_dir i sd ed (<[u := e]> r) s'
    /\ supported_intervals (self s') = supported_intervals (self s)
    /\ entry_alone env' me base_dir i sd ed u = Some e
    /\ (result (@fetch_data env u i sd ed)
               (after (print ("Fetching data for " +:+ u +:+ "...")) s)
        = Returned None ->
        e = StatusError "Failed to fetch data").
Proof.
  intros Hsup Hme Hag.
  destruct (for_tickers_step env env' u i sd ed Hag p rest [] base_dir r ∅ s
              (mkState me (mkWorld 0 [] [] [] [])) Hsup Hme)
    as (e & s1 & s2 & E1 & E2 & Hc1 & _ & Hnone).
  exists e, s1. split; [exact E1|]. split; [exact Hc1|]. split; [|exact Hnone].
  unfold entry_alone, result. rewrite E2. cbn. apply lookup_insert_eq.
Qed.

(** The loop runs to its end and writes the keys it iterates over only. *)
Lemma for_tickers_returns (ts : list string) :
  forall (r : gmap string ResultEntry) (s : State),
    supported_intervals (self s) !! i = Some p ->
    exists r' s',
      for_tickers ts base_dir i sd ed r s = (Returned r', s')
      /\ supported_intervals (self s') = supported_intervals (self s)
      /\ forall u, u ∉ ts -> r' !! u = r !! u.
Proof.
  induction ts as [|t0 ts IH]; intros r s Hsup.
  - exists r, s. done.
  - destruct (for_tickers_cons env (self s) t0 ts r s Hsup eq_refl (agree_on_refl _ _))
      as (e & s1 & E & Hc & _).
    destruct (IH (<[t0 := e]> r) s1) as (r' & s' & E' & Hc' & Hframe);
      [by rewrite Hc|].
    exists r', s'. rewrite E, E'. split; [done|]. split; [congruence|].
    intros u Hu. apply not_elem_of_cons in Hu as [Hne Hu].
    rewrite Hframe by done. by apply lookup_insert_ne.
Qed.

(** Every ticker of the list ends up with the entry it gets on its own. *)
Lemma for_tickers_lookup (env' : Environment) (me : YFinanceDataFetcher) (u : string)
    (ts : list string) :
  forall (r r' : gmap string ResultEntry) (s s' : State),
    supported_intervals (self s) !! i = Some p ->
    supported_intervals me = supported_intervals (self s) ->
    agree_on env env' u ->
    u ∈ ts ->
    @for_tickers env ts base_dir i sd ed r s = (Returned r', s') ->
    r' !! u = entry_alone env' me base_dir i sd ed u.
Proof.
  induction ts as [|t0 ts IH]; intros r r' s s' Hsup Hme Hag Hin Hrun.
  - by apply elem_of_nil in Hin.
  - destruct (decide (u ∈ ts)) as [Hts|Hts].
    + destruct (for_tickers_cons env (self s) t0 ts r s Hsup eq_refl (agree_on_refl _ _))
        as (e & s1 & E & Hc & _).
      rewrite E in Hrun.
      apply (IH (<[t0 := e]> r) r' s1 s'); try done; congruence.
    + apply elem_of_cons in Hin as [->|Hin]; [|done].
      destruct (for_tickers_cons env' me t0 ts r s Hsup Hme Hag)
        as (e & s1 & E & Hc & Hentry & _).
      rewrite E in Hrun.
      destruct (for_tickers_returns ts (<[t0 := e]> r) s1) as (r'' & s'' & E' & _ & Hframe);
        [by rewrite Hc|].
      rewrite E' in Hrun. injection Hrun as <- <-.
      rewrite Hframe by done. rewrite Hentry. apply lookup_insert_eq.
Qed.

(** A ticker whose fetch yields [None] gets the fixed error entry. *)
Lemma entry_alone_failed (me : YFinanceDataFetcher) (u : string) :
  supported_intervals me !! i = Some p ->
  (forall s, supported_intervals (self s) = supported_intervals me ->
             result (fetch_data u i sd ed) s = Returned None) ->
  entry_alone env me base_dir i sd ed u = Some (StatusError "Failed to fetch data").
Proof.
  intros Hsup Hnone.
  destruct (for_tickers_cons env me u [] ∅ (mkState me (mkWorld 0 [] [] [] [])))
    as (e & s1 & E & _ & Hentry & He); [done | done | apply agree_on_refl |].
  rewrite Hentry. f_equal. apply He. apply Hnone. reflexivity.
Qed.

End Batch.

(* ===================================================================== *)
(** ** Per-ticker failures in a batch *)
(* ===================================================================== *)

Section Failures.
Context `{env : Environment}.


(** Every ticker of the input gets an entry. *)
Lemma batch_entries (ticker_input : string) (base_dir : Path) (i p : string)
    (sd ed : option string) (s : State) :
  supported_intervals (self s) !! i = Some p ->
  exists r s',
    fetch_and_save_multiple ticker_input base_dir i sd ed s = (Returned r, s')
    /\ forall u, u ∈ process_tickers ticker_input ->
         r !! u = entry_alone env (self s) base_dir i sd ed u
         /\ is_Some (r !! u).
Proof.
  intros Hsup. unfold fetch_and_save_multiple.
  destruct (for_tickers_returns base_dir i p sd ed (process_tickers ticker_input) ∅ s Hsup)
    as (r & s' & E & _ & _).
  exists r, s'. split; [exact E|]. intros u Hu.
  assert (Hr : r !! u = entry_alone env (self s) base_dir i sd ed u).
  { apply (for_tickers_lookup base_dir i p sd ed env (self s) u
             (process_tickers ticker_input) ∅ r s s');
      try done; apply agree_on_refl. }
  split; [exact Hr|]. rewrite Hr.
  destruct (for_tickers_cons base_dir i p sd ed env (self s) u [] ∅ s Hsup eq_refl
              (agree_on_refl _ _)) as (e & _ & _ & _ & -> & _).
  eauto.
Qed.


(** For an interval of the minute-level list of line 63, with both
    dates present and one of them not parseable as YYYY-MM-DD,
    [fetch_data] does not raise.  The [ValueError] of [strptime] is
    handled by the [except] clause that also handles provider failures:
    its message is printed after ["Error fetching data for .."], the
    provider is not called and the value is [None].  In a batch, every
    ticker therefore gets the error entry and the batch runs to its end. *)
Theorem malformed_date_degrades (t i p sd ed : string) (ticker_input : string)
    (base_dir : Path) (s : State) :
  supported_intervals (self s) !! i = Some p ->
  i ∈ minute_level ->
  PyStr.truthy (Some sd) = true ->
  PyStr.truthy (Some ed) = true ->
  (exists e, Datetime.strptime_ymd sd = inl e)
  \/ (exists e, Datetime.strptime_ymd ed = inl e) ->
  (exists s' e,
     fetch_data t i (Some sd) (Some ed) s = (Returned None, s')
     /\ provider_calls (world s') = provider_calls (world s)
     /\ stdout (world s')
        = stdout (world s) ++ ["Error fetching data for " +:+ t +:+ ": " +:+ exc_str e])
  /\ exists r s',
       fetch_and_save_multiple ticker_input base_dir i (Some sd) (Some ed) s
       = (Returned r, s')
       /\ forall u, u ∈ process_tickers ticker_input ->
            r !! u = Some (StatusError "Failed to fetch data").
Proof.
  intros Hsup Hi Hsd Hed Hbad.
  assert (Hdates : PyStr.truthy (Some sd) && PyStr.truthy (Some ed) = true)
    by (by rewrite Hsd, Hed).
  assert (Hadj : exists e, forall s0, adjust_start_date i sd ed s0 = (Raised e, s0)).
  { destruct (Datetime.strptime_ymd sd) as [e|a] eqn:Psd.
    - exists e. intros s0. by apply adjust_start_date_bad_start.
    - destruct Hbad as [[e He]|[e He]]; [discriminate|].
      exists e. intros s0. by apply (adjust_start_date_bad_end i sd ed a). }
  destruct Hadj as [e Hadj].
  assert (Hfetch : forall u s0, supported_intervals (self s0) = supported_intervals (self s) ->
            exists s0', fetch_data u i (Some sd) (Some ed) s0 = (Returned None, s0')
              /\ provider_calls (world s0') = provider_calls (world s0)
              /\ stdout (world s0')
                 = stdout (world s0)
                   ++ ["Error fetching data for " +:+ u +:+ ": " +:+ exc_str e]).
  { intros u s0 Hs0.
    assert (Hsup0 : supported_intervals (self s0) !! i = Some p) by (by rewrite Hs0).
    destruct (fetch_data_range_raises u i p sd ed e s0 _ Hsup0 Hdates (Hadj _))
      as (s0' & E & Hcalls & Hout).
    exists s0'. split; [exact E|]. split; [exact Hcalls|].
    rewrite Hout. f_equal.
    destruct (rate_limit_returns s0) as (s1 & E1 & _ & Hstd & _).
    unfold after. rewrite E1. exact Hstd. }
  split.
  - destruct (Hfetch t s eq_refl) as (s' & E & Hcalls & Hout). eauto.
  - destruct (batch_entries ticker_input base_dir i p (Some sd) (Some ed) s Hsup)
      as (r & s' & E & Hall).
    exists r, s'. split; [exact E|]. intros u Hu.
    destruct (Hall u Hu) as [-> _].
    apply (entry_alone_failed base_dir i p); [done|].
    intros s0 Hs0. destruct (Hfetch u s0 Hs0) as (s0' & E0 & _).
    unfold result. by rewrite E0.
Qed.

End Failures.

Section UnparsedDates.
Context `{env : Environment}.


End UnparsedDates.


(* ===================================================================== *)
(** ** Concrete runs against the fake provider *)
(* ===================================================================== *)

(** C2 fails as stated: with start 2024-02-01 and end 2024-01-01 (the end
    31 days before the start) and interval ['1d'], [fetch_data] raises
    nothing and the provider receives exactly that reversed range. *)
Lemma reversed_range_not_rejected :
  Datetime.sub_days (Datetime.mkDate 2024 1 1) (Datetime.mkDate 2024 2 1) = -31
  /\ (forall e, result (@fetch_data fake_env "AAPL" "1d" (Some "2024-02-01")
                          (Some "2024-01-01")) fresh <> Raised e)
  /\ provider_calls (world (after (@fetch_data fake_env "AAPL" "1d" (Some "2024-02-01")
                                     (Some "2024-01-01")) fresh))
     = [mkRequest "AAPL" (ByRange "2024-02-01" "2024-01-01" "1d")].
Proof.
  split; [reflexivity|]. split; [|reflexivity].
  intros e. vm_compute. discriminate.
Qed.

Lemma reversed_range_passes_through_witness :
  exists s',
    @fetch_data fake_env "AAPL" "1h" (Some "2024-02-01") (Some "2024-01-01") fresh
    = (Returned (classify (@history fake_env "AAPL"
                             (ByRange "2024-02-01" "2024-01-01" "1h"))), s')
    /\ provider_calls (world s')
       = provider_calls (world fresh)
         ++ [mkRequest "AAPL" (ByRange "2024-02-01" "2024-01-01" "1h")].
Proof.
  apply (@reversed_range_passes_through fake_env "AAPL" "1h" "60d"
           "2024-02-01" "2024-01-01"
           (Datetime.mkDate 2024 2 1) (Datetime.mkDate 2024 1 1) fresh);
    reflexivity.
Defined.

(** C3 fails as stated: with start 2024-01-01, no end date and interval
    ['1d'], the single provider call asks for the period ['max'], not
    for a range starting on 2024-01-01. *)
Lemma end_omitted_no_range_query :
  provider_calls (world (after (@fetch_data fake_env "AAPL" "1d" (Some "2024-01-01") None)
                               fresh))
  = [mkRequest "AAPL" (ByPeriod "max" "1d")]
  /\ ~ exists now,
         provider_calls (world (after (@fetch_data fake_env "AAPL" "1d"
                                         (Some "2024-01-01") None) fresh))
         = [mkRequest "AAPL" (ByRange "2024-01-01" now "1d")].
Proof.
  split; [reflexivity|]. intros [now Hnow]. vm_compute in Hnow. discriminate.
Qed.

Lemma end_omitted_uses_default_period_witness :
  exists s',
    @fetch_data fake_env "AAPL" "1d" (Some "2024-01-01") None fresh
    = (Returned (classify (@history fake_env "AAPL" (ByPeriod "max" "1d"))), s')
    /\ provider_calls (world s')
       = provider_calls (world fresh) ++ [mkRequest "AAPL" (ByPeriod "max" "1d")].
Proof.
  apply (@end_omitted_uses_default_period fake_env "AAPL" "1d" "max" "2024-01-01" fresh).
  reflexivity.
Defined.

Lemma unsupported_interval_aborts_witness :
  @fetch_data fake_env "AAPL" "7m" None None fresh
  = (Raised (ValueError "Unsupported interval: 7m"), fresh)
  /\ exists s',
       @fetch_and_save_multiple fake_env "aapl, msft" ["data"] "7m" None None fresh
       = (Raised (ValueError "Unsupported interval: 7m"), s')
       /\ self s' = self fresh
       /\ clock (world s') = clock (world fresh)
       /\ sleeps (world s') = sleeps (world fresh)
       /\ provider_calls (world s') = provider_calls (world fresh)
       /\ files (world s') = files (world fresh).
Proof.
  apply (@unsupported_interval_aborts fake_env "AAPL" "7m" None None
           "aapl, msft" ["data"] fresh).
  - reflexivity.
  - apply (proj1 (bool_decide_eq_false _)). reflexivity.
  - discriminate.
Defined.



Lemma malformed_date_degrades_witness :
  (exists s' e,
     @fetch_data fake_env "AAPL" "5m" (Some "2024-13-01") (Some "2024-01-05") fresh
     = (Returned None, s')
     /\ provider_calls (world s') = provider_calls (world fresh)
     /\ stdout (world s')
        = stdout (world fresh) ++ ["Error fetching data for " +:+ "AAPL" +:+ ": " +:+ exc_str e])
  /\ exists r s',
       @fetch_and_save_multiple fake_env "aapl, msft" ["data"] "5m"
         (Some "2024-13-01") (Some "2024-01-05") fresh
       = (Returned r, s')
       /\ forall u, u ∈ process_tickers "aapl, msft" ->
            r !! u = Some (StatusError "Failed to fetch data").
Proof.
  apply (@malformed_date_degrades fake_env "AAPL" "5m" "60d" "2024-13-01" "2024-01-05"
           "aapl, msft" ["data"] fresh).
  - reflexivity.
  - apply (bool_decide_unpack _). reflexivity.
  - reflexivity.
  - reflexivity.
  - left. eexists. reflexivity.
Defined.



Lemma fetch_data_never_returns_empty_witness :
  empty sample_frame = false /\ (1 <= length (rows sample_frame))%nat.
Proof.
  apply (@fetch_data_never_returns_empty fake_env "AAPL" "1d" None None fresh
           (after (@fetch_data fake_env "AAPL" "1d" None None) fresh) sample_frame).
  reflexivity.
Defined.

Lemma rate_limit_spacing_witness :
  let s0 := fresh in
  let s1 := mkState (self (after (@_rate_limit fake_env) fresh))
                    (mkWorld 0.2 [] [] [] []) in
  min_request_interval __init__ = 0.5%Q
  /\ exists g1 g2 : Q,
       last_request_time (self (after (@_rate_limit fake_env) s0)) = Some g1
       /\ last_request_time (self (after (@_rate_limit fake_env) s1)) = Some g2
       /\ (g1 + min_request_interval (self s0) <= g2)%Q
       /\ ((clock (world s1) - g1 < min_request_interval (self s0))%Q ->
           sleeps (world (after (@_rate_limit fake_env) s1))
           = sleeps (world s1)
             ++ [(min_request_interval (self s0) - (clock (world s1) - g1))%Q])
       /\ ((min_request_interval (self s0) <= clock (world s1) - g1)%Q ->
           sleeps (world (after (@_rate_limit fake_env) s1)) = sleeps (world s1)
           /\ g2 = clock (world s1)).
Proof.
  intros s0 s1. apply (@rate_limit_spacing fake_env s0 s1).
  - intros d. cbn. discriminate.
  - reflexivity.
Defined.

Example back_to_back_acquisitions_sleep :
  sleeps (world (after (@_rate_limit fake_env)
                       (mkState (self (after (@_rate_limit fake_env) fresh))
                                (mkWorld 0.2 [] [] [] []))))
  = [(0.5 - (0.2 - 0))%Q].
Proof. reflexivity. Qed.

(* ===================================================================== *)
(** ** Facts on the string operations *)
(* ===================================================================== *)

Module PyStrFacts.
Import PyStr.

Ltac all_ascii c :=
  destruct c as [[] [] [] [] [] [] [] []]; vm_compute; try reflexivity; try done.

Lemma upper_char_idem (c : ascii) : upper_char (upper_char c) = upper_char c.
Proof. all_ascii c. Qed.

Lemma isspace_upper_char (c : ascii) : isspace (upper_char c) = isspace c.
Proof. all_ascii c. Qed.

Lemma upper_char_comma (c : ascii) : upper_char c = ","%char -> c = ","%char.
Proof. all_ascii c. Qed.

Lemma split_nonempty (sep : ascii) (s : string) : split sep s <> [].
Proof.
  destruct s as [|c r]; cbn; [done|].
  destruct (Ascii.eqb c sep); [done|]. destruct (split sep r); done.
Qed.

Lemma split_app (sep : ascii) (a b : string) :
  split sep (a +:+ String sep b) = split sep a ++ split sep b.
Proof.
  induction a as [|c r IH].
  - change ("" +:+ String sep b) with (String sep b). cbn.
    by rewrite Ascii.eqb_refl.
  - change (String c r +:+ String sep b) with (String c (r +:+ String sep b)).
    cbn. destruct (Ascii.eqb c sep); [by rewrite IH|].
    rewrite IH. pose proof (split_nonempty sep r).
    destruct (split sep r); done.
Qed.

Lemma split_no_sep (sep : ascii) (s f : string) :
  f ∈ split sep s -> sep ∉ list_ascii_of_string f.
Proof.
  revert f. induction s as [|c r IH]; cbn; intros f Hf.
  - apply list_elem_of_singleton in Hf as ->. cbn. by intros ?%elem_of_nil.
  - destruct (Ascii.eqb_spec c sep) as [->|Hne].
    + apply elem_of_cons in Hf as [->|Hf]; [cbn; by intros ?%elem_of_nil | by apply IH].
    + pose proof (split_nonempty sep r).
      destruct (split sep r) as [|f0 fs]; [done|].
      apply elem_of_cons in Hf as [->|Hf].
      * cbn. intros [->|Hin]%elem_of_cons; [done|].
        by apply (IH f0); [left|].
      * apply IH. by right.
Qed.

Lemma split_id (sep : ascii) (s : string) :
  sep ∉ list_ascii_of_string s -> split sep s = [s].
Proof.
  induction s as [|c r IH]; cbn; [done|]. intros Hs.
  apply not_elem_of_cons in Hs as [Hne Hs].
  destruct (Ascii.eqb_spec c sep) as [->|_]; [done|]. by rewrite IH.
Qed.

Lemma lstrip_clean (s : string) : starts_clean (lstrip s).
Proof. induction s as [|c r IH]; cbn; [done|]. destruct (isspace c) eqn:E; done. Qed.

Lemma lstrip_id (s : string) : starts_clean s -> lstrip s = s.
Proof. destruct s as [|c r]; cbn; [done|]. by intros ->. Qed.

Lemma rstrip_clean (s : string) : starts_clean s -> starts_clean (rstrip s).
Proof.
  destruct s as [|c r]; cbn; [done|]. intros Hc.
  destruct (rstrip r); [by rewrite Hc | done].
Qed.

Lemma rstrip_idem (s : string) : rstrip (rstrip s) = rstrip s.
Proof.
  induction s as [|c r IH]; cbn; [done|].
  destruct (rstrip r) as [|d r'] eqn:E.
  - destruct (isspace c) eqn:Hc; cbn; [done|]. by rewrite Hc.
  - cbn. cbn in IH. by rewrite IH.
Qed.

Lemma strip_idem (s : string) : strip (strip s) = strip s.
Proof.
  unfold strip. rewrite (lstrip_id (rstrip (lstrip s))).
  - apply rstrip_idem.
  - apply rstrip_clean, lstrip_clean.
Qed.

Lemma upper_idem (s : string) : upper (upper s) = upper s.
Proof. induction s as [|c r IH]; cbn; [done|]. by rewrite upper_char_idem, IH. Qed.

Lemma lstrip_upper (s : string) : lstrip (upper s) = upper (lstrip s).
Proof.
  induction s as [|c r IH]; cbn; [done|].
  rewrite isspace_upper_char. destruct (isspace c); done.
Qed.

Lemma rstrip_upper (s : string) : rstrip (upper s) = upper (rstrip s).
Proof.
  induction s as [|c r IH]; cbn; [done|].
  rewrite IH, isspace_upper_char.
  destruct (rstrip r); cbn; [destruct (isspace c); done | done].
Qed.

Lemma strip_upper (s : string) : strip (upper s) = upper (strip s).
Proof. unfold strip. by rewrite lstrip_upper, rstrip_upper. Qed.

Lemma lstrip_chars (s : string) (c : ascii) :
  c ∈ list_ascii_of_string (lstrip s) -> c ∈ list_ascii_of_string s.
Proof.
  induction s as [|d r IH]; cbn; [done|].
  destruct (isspace d); [intros; right; by apply IH | done].
Qed.

Lemma rstrip_chars (s : string) (c : ascii) :
  c ∈ list_ascii_of_string (rstrip s) -> c ∈ list_ascii_of_string s.
Proof.
  revert c. induction s as [|d r IH]; cbn; [done|]. intros c.
  destruct (rstrip r) as [|e r'] eqn:E.
  - destruct (isspace d); cbn; [by intros ?%elem_of_nil|].
    intros [->|?%elem_of_nil]%elem_of_cons; [left | done].
  - cbn. intros [->|Hin]%elem_of_cons; [left|]. right. apply IH. by cbn.
Qed.

Lemma strip_chars (s : string) (c : ascii) :
  c ∈ list_ascii_of_string (strip s) -> c ∈ list_ascii_of_string s.
Proof. intros H. by apply lstrip_chars, rstrip_chars. Qed.

Lemma upper_chars (s : string) (c : ascii) :
  c ∈ list_ascii_of_string (upper s) ->
  exists c0, c0 ∈ list_ascii_of_string s /\ c = upper_char c0.
Proof.
  induction s as [|d r IH]; cbn; [by intros ?%elem_of_nil|].
  intros [->|Hin]%elem_of_cons.
  - exists d. split; [left | done].
  - destruct (IH Hin) as (c0 & H0 & ->). exists c0. split; [by right | done].
Qed.

Lemma upper_empty (s : string) : upper s = "" -> s = "".
Proof. destruct s; [done | discriminate]. Qed.

Lemma lstrip_blank (s : string) :
  Forall (fun c => PyStr.isspace c = true) (list_ascii_of_string s) -> PyStr.lstrip s = "".
Proof.
  induction s as [|c r IH]; cbn; [done|]. intros [Hc Hr]%Forall_cons. rewrite Hc. auto.
Qed.

Lemma split_blank (input f : string) :
  blank_input input -> f ∈ PyStr.split "," input ->
  Forall (fun c => PyStr.isspace c = true) (list_ascii_of_string f).
Proof.
  unfold blank_input. revert f. induction input as [|c r IH]; cbn; intros f Hb Hf.
  - apply list_elem_of_singleton in Hf as ->. constructor.
  - apply Forall_cons in Hb as [Hc Hb].
    destruct (Ascii.eqb_spec c ",") as [->|Hne].
    + apply elem_of_cons in Hf as [->|Hf]; [constructor | by apply IH].
    + destruct Hc as [Hc|Hc]; [|done].
      pose proof (split_nonempty "," r).
      destruct (PyStr.split "," r) as [|f0 fs]; [done|].
      apply elem_of_cons in Hf as [->|Hf].
      * cbn. constructor; [done|]. apply IH; [done | left].
      * apply IH; [done | by right].
Qed.

Lemma lstrip_keeps (s : string) (c : ascii) :
  c ∈ list_ascii_of_string s -> PyStr.isspace c = false ->
  c ∈ list_ascii_of_string (PyStr.lstrip s).
Proof.
  induction s as [|d r IH]; cbn; [done|]. intros Hin Hc.
  destruct (PyStr.isspace d) eqn:Hd; [|done].
  apply elem_of_cons in Hin as [->|Hin]; [congruence | by apply IH].
Qed.

Lemma rstrip_keeps (s : string) (c : ascii) :
  c ∈ list_ascii_of_string s -> PyStr.isspace c = false ->
  c ∈ list_ascii_of_string (PyStr.rstrip s).
Proof.
  induction s as [|d r IH]; cbn; [done|]. intros Hin Hc.
  apply elem_of_cons in Hin as [->|Hin].
  - destruct (PyStr.rstrip r); [rewrite Hc|]; left.
  - specialize (IH Hin Hc). destruct (PyStr.rstrip r) as [|e r']; [by apply elem_of_nil in IH|].
    by right.
Qed.

Lemma split_covers (sep c : ascii) (s : string) :
  c ∈ list_ascii_of_string s -> c <> sep ->
  exists f, f ∈ PyStr.split sep s /\ c ∈ list_ascii_of_string f.
Proof.
  induction s as [|d r IH]; cbn; [by intros ?%elem_of_nil|]. intros Hin Hne.
  pose proof (split_nonempty sep r).
  destruct (Ascii.eqb_spec d sep) as [->|Hd].
  - apply elem_of_cons in Hin as [->|Hin]; [done|].
    destruct (IH Hin Hne) as (f & Hf & Hc). exists f. split; [by right | done].
  - destruct (PyStr.split sep r) as [|f0 fs] eqn:E; [done|].
    apply elem_of_cons in Hin as [->|Hin].
    + eexists. split; [left|]. cbn. left.
    + destruct (IH Hin Hne) as (f & Hf & Hc).
      apply elem_of_cons in Hf as [->|Hf].
      * eexists. split; [left|]. cbn. by right.
      * exists f. split; [by right | done].
Qed.

End PyStrFacts.


Import PyStrFacts.

(* ===================================================================== *)
(** ** Ticker lists ([process_tickers]) *)
(* ===================================================================== *)

(** The tickers are the stripped, upper-cased fields that are not blank. *)
Lemma process_tickers_elem (input t : string) :
  t ∈ process_tickers input <->
  exists f, f ∈ PyStr.split "," input /\ PyStr.strip f <> "" /\ t = PyStr.upper (PyStr.strip f).
Proof.
  unfold process_tickers. rewrite list_elem_of_In, in_map_iff.
  split.
  - intros (f & <- & Hf). apply list_elem_of_In, list_elem_of_filter in Hf as [Hnz Hf].
    exists f. split; [done|]. split; [|done].
    destruct (PyStr.strip f); [done | discriminate].
  - intros (f & Hf & Hnz & ->). exists f. split; [done|].
    apply list_elem_of_In, list_elem_of_filter. split; [|done].
    destruct (PyStr.strip f); done.
Qed.

(** What a field of the input turns into. *)
Lemma field_ticker (input f : string) :
  f ∈ PyStr.split "," input -> PyStr.strip f <> "" ->
  let t := PyStr.upper (PyStr.strip f) in
  t <> ""
  /\ ~ In ","%char (list_ascii_of_string t)
  /\ PyStr.strip t = t
  /\ PyStr.upper t = t.
Proof.
  intros Hf Hnz t. subst t. split; [|split; [|split]].
  - intros H%upper_empty. done.
  - intros (c0 & Hc0 & Hc)%list_elem_of_In%upper_chars. symmetry in Hc.
    apply upper_char_comma in Hc as ->.
    apply strip_chars in Hc0. by apply (split_no_sep "," input f).
  - by rewrite strip_upper, strip_idem.
  - apply upper_idem.
Qed.

Lemma process_tickers_app (a b : string) :
  process_tickers (a +:+ String "," b) = process_tickers a ++ process_tickers b.
Proof.
  unfold process_tickers. rewrite split_app, filter_app. apply map_app.
Qed.

Lemma process_tickers_space (b : string) :
  process_tickers (String " " b) = process_tickers b.
Proof.
  unfold process_tickers. cbn [PyStr.split].
  change (Ascii.eqb " " ",") with false. cbv beta iota.
  pose proof (split_nonempty "," b).
  destruct (PyStr.split "," b) as [|f fs]; [done|].
  rewrite !filter_cons.
  change (PyStr.strip (String " " f)) with (PyStr.strip f).
  destruct (decide _); [|done]. cbn [map].
  change (PyStr.strip (String " " f)) with (PyStr.strip f). reflexivity.
Qed.

(** A text without commas or surrounding blanks is one ticker. *)
Lemma process_tickers_single (t : string) :
  t <> "" -> ~ In ","%char (list_ascii_of_string t) -> PyStr.strip t = t ->
  process_tickers t = [PyStr.upper t].
Proof.
  intros Hnz Hc Hs. unfold process_tickers.
  rewrite split_id by (by rewrite list_elem_of_In).
  rewrite filter_cons, Hs. destruct (decide _) as [_|Hn].
  - cbn [map filter list_filter]. by rewrite Hs.
  - destruct t; [done|]. by destruct Hn.
Qed.

(** Joining with [", "] and processing again processes each part. *)
Lemma process_tickers_join (ts : list string) :
  process_tickers (String.concat ", " ts) = concat (map process_tickers ts).
Proof.
  induction ts as [|t ts IH]; [reflexivity|].
  destruct ts as [|t' ts].
  - cbn. by rewrite app_nil_r.
  - change (String.concat ", " (t :: t' :: ts))
      with (t +:+ String "," (String " " (String.concat ", " (t' :: ts)))).
    rewrite process_tickers_app, process_tickers_space, IH. reflexivity.
Qed.

(** The ticker list is empty exactly when the input holds nothing but
    white space and commas. *)
Lemma process_tickers_nil (input : string) :
  process_tickers input = [] <-> blank_input input.
Proof.
  split.
  - intros Hnil. apply Forall_forall. intros c Hc.
    destruct (PyStr.isspace c) eqn:Hs; [by left|]. right.
    destruct (decide (c = ","%char)) as [|Hne]; [done|]. exfalso.
    destruct (split_covers "," c input Hc Hne) as (f & Hf & Hcf).
    assert (Hin : PyStr.upper (PyStr.strip f) ∈ process_tickers input).
    { apply process_tickers_elem. exists f. split; [done|]. split; [|done].
      intros Hempty. pose proof (rstrip_keeps _ c (lstrip_keeps f c Hcf Hs) Hs) as Hk.
      unfold PyStr.strip in Hempty. rewrite Hempty in Hk. by apply elem_of_nil in Hk. }
    rewrite Hnil in Hin. by apply elem_of_nil in Hin.
  - intros Hb. destruct (process_tickers input) as [|t ts] eqn:E; [done|]. exfalso.
    assert (Ht : t ∈ process_tickers input) by (rewrite E; left).
    apply process_tickers_elem in Ht as (f & Hf & Hnz & _).
    apply Hnz. unfold PyStr.strip. by rewrite (lstrip_blank f (split_blank input f Hb Hf)).
Qed.

(** X1: every ticker that [process_tickers] returns is non-empty, holds
    no comma, has no white space at either end and no lower-case letter
    left; processed on its own it comes back as itself. *)
Theorem process_tickers_well_formed (input t : string) :
  t ∈ process_tickers input ->
  t <> ""
  /\ ~ In ","%char (list_ascii_of_string t)
  /\ PyStr.strip t = t
  /\ PyStr.upper t = t
  /\ process_tickers t = [t].
Proof.
  intros (f & Hf & Hnz & ->)%process_tickers_elem.
  destruct (field_ticker input f Hf Hnz) as (H1 & H2 & H3 & H4).
  repeat (split; [done|]).
  rewrite process_tickers_single by done. by rewrite H4.
Qed.

(** X2: the list [process_tickers] returns, joined with [", "] the way
    [get_tickers] joins the tickers of the file, is processed to that
    same list: processing is idempotent. *)
Theorem process_tickers_rejoin (input : string) :
  process_tickers (String.concat ", " (process_tickers input)) = process_tickers input.
Proof.
  rewrite process_tickers_join.
  assert (H : Forall (fun t => process_tickers t = [t]) (process_tickers input)).
  { apply Forall_forall. intros t (f & Hf & Hnz & ->)%process_tickers_elem.
    destruct (field_ticker input f Hf Hnz) as (H1 & H2 & H3 & H4).
    rewrite process_tickers_single by done. by rewrite H4. }
  induction H as [|t l Ht _ IH]; [done|]. cbn. by rewrite Ht, IH.
Qed.

Section EmptyBatch.
Context `{env : Environment}.

(** X3: when the ticker input holds nothing but white space and commas,
    [fetch_and_save_multiple] returns the empty report and leaves the
    state as it was, whatever the interval: an unsupported interval is
    not noticed, since [fetch_data] is never called. *)
Theorem blank_input_empty_report (ticker_input : string) (base_dir : Path) (i : string)
    (sd ed : option string) (s : State) :
  blank_input ticker_input ->
  fetch_and_save_multiple ticker_input base_dir i sd ed s = (Returned ∅, s).
Proof.
  intros Hb%process_tickers_nil. unfold fetch_and_save_multiple. by rewrite Hb.
Qed.

End EmptyBatch.

(* ===================================================================== *)
(** ** What a fetch and a batch do to the world *)
(* ===================================================================== *)

Ltac into_try Hsup E1 :=
  unfold fetch_data; unfold bind at 1; unfold get_self; rewrite Hsup;
  rewrite bool_decide_eq_true_2 by eauto; cbn [negb];
  rewrite (bind_returned _ _ _ _ _ E1).

Section Effects.
Context `{env : Environment}.

(** [fetch_data] writes no file. *)
Lemma fetch_data_files (t i p : string) (sd ed : option string) (s : State) :
  supported_intervals (self s) !! i = Some p ->
  files (world (after (fetch_data t i sd ed) s)) = files (world s).
Proof.
  intros Hsup.
  destruct (rate_limit_returns s) as (s1 & E1 & _ & _ & _ & Hf1).
  unfold after. into_try Hsup E1. rewrite <- Hf1. clear E1 Hf1 Hsup.
  unfold try_except, fetch_data_try.
  destruct (PyStr.truthy sd && PyStr.truthy ed).
  - rewrite bind_assoc.
    destruct (adjust_start_date_frame i (default "" sd) (default "" ed) s1)
      as (o & s2 & E & _ & _ & _ & _ & Hf).
    unfold bind at 1. rewrite E. rewrite <- Hf. destruct o as [sd'|e]; [|reflexivity].
    unfold Ticker_history, bind, set_world, lift, ret, raise, print, set_world,
      fetch_data_except. cbn.
    destruct (history t _) as [e|d]; cbn; [reflexivity|]. destruct (empty d); reflexivity.
  - rewrite bind_assoc. unfold bind at 1, getitem.
    destruct (supported_intervals (self s) !! i); cbn; [|reflexivity].
    unfold Ticker_history, bind, set_world, lift, ret, raise, print, set_world,
      fetch_data_except. cbn.
    destruct (history t _) as [e|d]; cbn; [reflexivity|]. destruct (empty d); reflexivity.
Qed.

(** The provider call of [fetch_data] has the same arguments for every
    ticker and in every state of a fetcher with the same catalog. *)
Lemma fetch_data_calls_uniform (me : YFinanceDataFetcher) (i p : string)
    (sd ed : option string) :
  supported_intervals me !! i = Some p ->
  exists l : list HistoryArgs,
    (length l <= 1)%nat
    /\ (PyStr.truthy sd && PyStr.truthy ed = false -> l = [ByPeriod p i])
    /\ forall t s, supported_intervals (self s) = supported_intervals me ->
         provider_calls (world (after (fetch_data t i sd ed) s))
         = provider_calls (world s) ++ map (mkRequest t) l.
Proof.
  intros Hsup.
  destruct (PyStr.truthy sd && PyStr.truthy ed) eqn:Hdates.
  - destruct sd as [x|]; [|done]. destruct ed as [y|]; [|by rewrite andb_false_r in Hdates].
    destruct (adjust_start_date i x y fresh) as [[sd'|e] s0] eqn:Hprobe.
    + exists [ByRange sd' y i]. split; [cbn; lia|]. split; [done|]. intros t s Hs.
      assert (Hsup' : supported_intervals (self s) !! i = Some p) by (by rewrite Hs).
      pose proof (adjust_start_date_result i x y fresh (after _rate_limit s)) as Hres.
      unfold result in Hres. rewrite Hprobe in Hres. cbn [fst] in Hres.
      destruct (adjust_start_date i x y (after _rate_limit s)) as [o s2] eqn:Hadj.
      cbn [fst] in Hres. subst o.
      destruct (fetch_data_range t i p x y sd' s s2 Hsup' Hdates Hadj) as (s' & E & Hc & _).
      unfold after. rewrite E. exact Hc.
    + exists []. split; [cbn; lia|]. split; [done|]. intros t s Hs.
      assert (Hsup' : supported_intervals (self s) !! i = Some p) by (by rewrite Hs).
      pose proof (adjust_start_date_result i x y fresh (after _rate_limit s)) as Hres.
      unfold result in Hres. rewrite Hprobe in Hres. cbn [fst] in Hres.
      destruct (adjust_start_date i x y (after _rate_limit s)) as [o s2] eqn:Hadj.
      cbn [fst] in Hres. subst o.
      destruct (fetch_data_range_raises t i p x y e s s2 Hsup' Hdates Hadj)
        as (s' & E & Hc & _).
      unfold after. rewrite E. cbn. by rewrite app_nil_r.
  - exists [ByPeriod p i]. split; [cbn; lia|]. split; [done|]. intros t s Hs.
    assert (Hsup' : supported_intervals (self s) !! i = Some p) by (by rewrite Hs).
    destruct (fetch_data_period t i p sd ed s Hsup' Hdates) as (s' & E & Hc).
    unfold after. rewrite E. exact Hc.
Qed.

(** X4: [fetch_data] writes no file, whatever the interval, the dates
    and the provider's answer: saving is left to [save_data]. *)
Theorem fetch_data_touches_no_file (t i : string) (sd ed : option string) (s : State) :
  files (world (after (fetch_data t i sd ed) s)) = files (world s).
Proof.
  destruct (supported_intervals (self s) !! i) as [p|] eqn:Hsup.
  - by apply (fetch_data_files t i p).
  - unfold after, fetch_data, bind, get_self. rewrite Hsup.
    rewrite bool_decide_eq_false_2; [reflexivity|]. by intros [? ?].
Qed.

End Effects.

Section BatchEffects.
Context `{env : Environment}.
Variables (base_dir : Path) (i p : string) (sd ed : option string).

Lemma save_data_exact (d : DataFrame) (u : string) (s : State) :
  let dir := base_dir ++ [u; "data"] in
  let path := base_dir ++ [u; "data"; u +:+ "_" +:+ i +:+ ".csv"] in
  save_data d u base_dir i s
  = match mkdir dir with
    | Some ex => (Raised ex, s)
    | None =>
        match to_csv d path with
        | Some ex => (Raised ex, s)
        | None =>
            (Returned (mkPaths (base_dir ++ [u]) path),
             mkState (self s)
                     (mkWorld (clock (world s)) (stdout (world s)) (sleeps (world s))
                              (provider_calls (world s))
                              (files (world s) ++ [(path, d)])))
        end
    end.
Proof.
  cbv zeta. unfold save_data, joinpath, Path_mkdir, DataFrame_to_csv, bind, set_world, ret, raise.
  rewrite <- !app_assoc. cbn [app].
  destruct (mkdir _); [reflexivity|]. destruct (to_csv _ _); reflexivity.
Qed.

(** One turn of the loop, with all it does. *)
Lemma for_tickers_cons_exact (u : string) (s : State) :
  supported_intervals (self s) !! i = Some p ->
  exists (o : option DataFrame) (e : ResultEntry) (s1 s' : State),
    fetch_data u i sd ed (after (print ("Fetching data for " +:+ u +:+ "...")) s)
    = (Returned o, s1)
    /\ supported_intervals (self s1) = supported_intervals (self s)
    /\ (forall rest r,
          for_tickers (u :: rest) base_dir i sd ed r s
          = for_tickers rest base_dir i sd ed (<[u := e]> r) s')
    /\ self s' = self s1
    /\ clock (world s') = clock (world s1)
    /\ sleeps (world s') = sleeps (world s1)
    /\ provider_calls (world s') = provider_calls (world s1)
    /\ files (world s') = files (world s1) ++ written e
    /\ e = match o with
           | None => StatusError "Failed to fetch data"
           | Some d =>
               match mkdir (base_dir ++ [u; "data"]) with
               | Some ex => StatusError ("Error saving data: " +:+ exc_str ex)
               | None =>
                   match to_csv d (base_dir ++ [u; "data"; u +:+ "_" +:+ i +:+ ".csv"]) with
                   | Some ex => StatusError ("Error saving data: " +:+ exc_str ex)
                   | None =>
                       StatusSuccess
                         (mkPaths (base_dir ++ [u])
                                  (base_dir ++ [u; "data"; u +:+ "_" +:+ i +:+ ".csv"])) d
                   end
               end
           end.
Proof.
  intros Hsup.
  set (line := "Fetching data for " +:+ u +:+ "...").
  destruct (fetch_data_returns u i p sd ed (after (print line) s) Hsup)
    as (o & s1 & F & [Hcat _] & _).
  exists o. destruct o as [d|].
  - pose proof (save_data_exact d u s1) as S. cbv zeta in S.
    destruct (mkdir (base_dir ++ [u; "data"])) as [ex|] eqn:Hmk;
      [|destruct (to_csv d _) as [ex|] eqn:Hcsv].
    + eexists _, s1, s1. split; [exact F|]. split; [exact Hcat|]. split.
      { intros rest r. cbn [for_tickers]. fold line.
        rewrite (bind_returned (print line) _ s tt (after (print line) s) eq_refl).
        rewrite (bind_returned _ _ _ _ _ F).
        apply bind_returned. unfold try_except.
        rewrite (bind_raised _ _ _ _ _ S). reflexivity. }
      cbn. rewrite app_nil_r. done.
    + eexists _, s1, s1. split; [exact F|]. split; [exact Hcat|]. split.
      { intros rest r. cbn [for_tickers]. fold line.
        rewrite (bind_returned (print line) _ s tt (after (print line) s) eq_refl).
        rewrite (bind_returned _ _ _ _ _ F).
        apply bind_returned. unfold try_except.
        rewrite (bind_raised _ _ _ _ _ S). reflexivity. }
      cbn. rewrite app_nil_r. done.
    + eexists _, s1, _. split; [exact F|]. split; [exact Hcat|]. split.
      { intros rest r. cbn [for_tickers]. fold line.
        rewrite (bind_returned (print line) _ s tt (after (print line) s) eq_refl).
        rewrite (bind_returned _ _ _ _ _ F).
        apply bind_returned. unfold try_except.
        rewrite (bind_returned _ _ _ _ _ S). reflexivity. }
      cbn. done.
  - eexists _, s1, s1. split; [exact F|]. split; [exact Hcat|]. split.
    { intros rest r. cbn [for_tickers]. fold line.
      rewrite (bind_returned (print line) _ s tt (after (print line) s) eq_refl).
      rewrite (bind_returned _ _ _ _ _ F). reflexivity. }
    cbn. rewrite app_nil_r. done.
Qed.

(** The entry inserted is the one the ticker gets on its own. *)
Lemma for_tickers_cons_entry (me : YFinanceDataFetcher) (u : string) (e : ResultEntry)
    (s s' : State) :
  supported_intervals (self s) !! i = Some p ->
  supported_intervals me = supported_intervals (self s) ->
  (forall rest r,
     for_tickers (u :: rest) base_dir i sd ed r s
     = for_tickers rest base_dir i sd ed (<[u := e]> r) s') ->
  entry_alone env me base_dir i sd ed u = Some e.
Proof.
  intros Hsup Hme Hstep.
  destruct (for_tickers_cons base_dir i p sd ed env me u [] ∅ s Hsup Hme (agree_on_refl _ _))
    as (e0 & s0 & E0 & _ & Hentry & _).
  rewrite Hstep in E0. cbn [for_tickers] in E0. unfold ret in E0.
  apply (f_equal (fun x => match fst x with
                           | Returned m => m !! u
                           | Raised _ => None
                           end)) in E0.
  cbn [fst] in E0. rewrite !lookup_insert_eq in E0. by rewrite Hentry.
Qed.

(** The whole loop: its provider calls and the files it writes. *)
Lemma for_tickers_effects (me : YFinanceDataFetcher) (l : list HistoryArgs)
    (ts : list string) :
  supported_intervals me !! i = Some p ->
  (forall t s, supported_intervals (self s) = supported_intervals me ->
     provider_calls (world (after (fetch_data t i sd ed) s))
     = provider_calls (world s) ++ map (mkRequest t) l) ->
  forall (r : gmap string ResultEntry) (s : State),
    supported_intervals (self s) = supported_intervals me ->
    exists r' s',
      for_tickers ts base_dir i sd ed r s = (Returned r', s')
      /\ supported_intervals (self s') = supported_intervals me
      /\ provider_calls (world s')
         = provider_calls (world s) ++ concat (map (fun t => map (mkRequest t) l) ts)
      /\ files (world s')
         = files (world s)
           ++ concat (map (fun t => from_option written []
                                      (entry_alone env me base_dir i sd ed t)) ts).
Proof.
  intros Hsup Hcalls. induction ts as [|u ts IH]; intros r s Hs.
  - exists r, s. cbn. rewrite !app_nil_r. done.
  - assert (Hsup' : supported_intervals (self s) !! i = Some p) by (by rewrite Hs).
    destruct (for_tickers_cons_exact u s Hsup')
      as (o & e & s1 & s' & F & Hcat & Hstep & Hself & _ & _ & Hc & Hf & _).
    pose proof (for_tickers_cons_entry me u e s s' Hsup' (eq_sym Hs) Hstep) as Hentry.
    destruct (IH (<[u:=e]> r) s') as (r' & s'' & E & Hcat' & Hc' & Hf').
    { rewrite Hself, Hcat. exact Hs. }
    exists r', s''. rewrite Hstep, E. split; [done|]. split; [done|].
    pose proof (Hcalls u (after (print ("Fetching data for " +:+ u +:+ "...")) s) Hs) as Hcu.
    pose proof (fetch_data_files u i p sd ed
                  (after (print ("Fetching data for " +:+ u +:+ "...")) s) Hsup') as Hfu.
    unfold after at 1 in Hcu. unfold after at 1 in Hfu. rewrite F in Hcu, Hfu.
    cbn [snd] in Hcu, Hfu. cbn in Hcu, Hfu.
    split.
    + rewrite Hc', Hc, Hcu. cbn [map concat]. by rewrite <- app_assoc.
    + rewrite Hf', Hf, Hfu. cbn [map concat]. rewrite Hentry. cbn. by rewrite <- app_assoc.
Qed.

End BatchEffects.

Section BatchTheorems.
Context `{env : Environment}.

Lemma entry_alone_eq (me : YFinanceDataFetcher) (base_dir : Path) (i p u : string)
    (sd ed : option string) (o : option DataFrame) (s0 : State) :
  supported_intervals me !! i = Some p ->
  supported_intervals (self s0) = supported_intervals me ->
  result (fetch_data u i sd ed) s0 = Returned o ->
  entry_alone env me base_dir i sd ed u = Some (entry_for base_dir i u o).
Proof.
  intros Hsup Hs0 Ho.
  set (blank := mkState me (mkWorld 0 [] [] [] [])).
  destruct (for_tickers_cons_exact base_dir i p sd ed u blank Hsup)
    as (o1 & e & s1 & s' & F & _ & Hstep & _ & _ & _ & _ & _ & He).
  rewrite (for_tickers_cons_entry base_dir i p sd ed me u e blank s' Hsup eq_refl Hstep).
  f_equal. rewrite He. unfold entry_for.
  destruct (fetch_data_agree env env u i sd ed (agree_on_refl _ _) p s0
              (after (print ("Fetching data for " +:+ u +:+ "...")) blank))
    as (o2 & s0' & s1' & E0 & E1 & _); [by rewrite Hs0 | by rewrite Hs0 |].
  unfold result in Ho. rewrite E0 in Ho. rewrite E1 in F.
  cbn [fst] in Ho. injection Ho as ->. injection F as -> _. reflexivity.
Qed.

(** A batch with a supported interval, with all that is shown of it
    below. *)
Lemma batch_run (ticker_input : string) (base_dir : Path) (i p : string)
    (sd ed : option string) (s : State) :
  supported_intervals (self s) !! i = Some p ->
  exists (l : list HistoryArgs) (r : gmap string ResultEntry) (s' : State),
    (length l <= 1)%nat
    /\ (PyStr.truthy sd && PyStr.truthy ed = false -> l = [ByPeriod p i])
    /\ fetch_and_save_multiple ticker_input base_dir i sd ed s = (Returned r, s')
    /\ provider_calls (world s')
       = provider_calls (world s)
         ++ concat (map (fun t => map (mkRequest t) l) (process_tickers ticker_input))
    /\ files (world s')
       = files (world s)
         ++ concat (map (fun t => from_option written [] (r !! t))
                        (process_tickers ticker_input))
    /\ dom r = list_to_set (process_tickers ticker_input)
    /\ forall t o,
         t ∈ process_tickers ticker_input ->
         result (fetch_data t i sd ed) s = Returned o ->
         r !! t = Some (entry_for base_dir i t o).
Proof.
  intros Hsup.
  destruct (fetch_data_calls_uniform (self s) i p sd ed Hsup) as (l & Hlen & Hper & Hl).
  destruct (for_tickers_effects base_dir i p sd ed (self s) l (process_tickers ticker_input)
              Hsup Hl ∅ s eq_refl) as (r & s' & E & _ & Hc & Hf).
  destruct (batch_entries ticker_input base_dir i p sd ed s Hsup) as (r0 & s0 & E0 & Hall).
  unfold fetch_and_save_multiple in E0. rewrite E in E0. injection E0 as <- <-.
  exists l, r, s'. split; [exact Hlen|]. split; [exact Hper|]. split; [exact E|].
  split; [exact Hc|]. split; [|split].
  - rewrite Hf. do 2 f_equal.
    apply map_ext_in. intros t Ht%list_elem_of_In. by destruct (Hall t Ht) as [-> _].
  - apply set_eq. intros u. rewrite elem_of_dom, elem_of_list_to_set. split.
    + intros Hu. destruct (decide (u ∈ process_tickers ticker_input)) as [|Hn]; [done|].
      destruct (for_tickers_returns base_dir i p sd ed (process_tickers ticker_input) ∅ s Hsup)
        as (r1 & s1 & E1 & _ & Hframe).
      rewrite E in E1. injection E1 as <- <-.
      rewrite Hframe in Hu by done. rewrite lookup_empty in Hu. by destruct Hu.
    + intros Hu. by apply Hall.
  - intros t o Ht Ho. destruct (Hall t Ht) as [-> _].
    by apply (entry_alone_eq (self s) base_dir i p t sd ed o s).
Qed.

(** X5: a batch with a supported interval asks the provider at most
    once per ticker, in the order of the ticker list, and with the same
    arguments for every ticker; without both dates these are the
    catalog's period for the interval. *)
Theorem batch_provider_calls (ticker_input : string) (base_dir : Path) (i p : string)
    (sd ed : option string) (s : State) :
  supported_intervals (self s) !! i = Some p ->
  exists (l : list HistoryArgs) (r : gmap string ResultEntry) (s' : State),
    (length l <= 1)%nat
    /\ (PyStr.truthy sd && PyStr.truthy ed = false -> l = [ByPeriod p i])
    /\ fetch_and_save_multiple ticker_input base_dir i sd ed s = (Returned r, s')
    /\ provider_calls (world s')
       = provider_calls (world s)
         ++ concat (map (fun t => map (mkRequest t) l) (process_tickers ticker_input)).
Proof.
  intros Hsup.
  destruct (batch_run ticker_input base_dir i p sd ed s Hsup)
    as (l & r & s' & Hlen & Hper & E & Hc & _).
  exists l, r, s'. done.
Qed.


(** X7: the keys of the report are the tickers of the input, no more and
    no less; without repeated tickers the report has as many entries as
    the list has tickers. *)
Theorem batch_keys (ticker_input : string) (base_dir : Path) (i p : string)
    (sd ed : option string) (s : State) :
  supported_intervals (self s) !! i = Some p ->
  exists (r : gmap string ResultEntry) (s' : State),
    fetch_and_save_multiple ticker_input base_dir i sd ed s = (Returned r, s')
    /\ dom r = list_to_set (process_tickers ticker_input)
    /\ (NoDup (process_tickers ticker_input) ->
        size r = length (process_tickers ticker_input)).
Proof.
  intros Hsup.
  destruct (batch_run ticker_input base_dir i p sd ed s Hsup)
    as (l & r & s' & _ & _ & E & _ & _ & Hdom & _).
  exists r, s'. split; [exact E|]. split; [exact Hdom|].
  intros Hnd. rewrite <- (size_dom (D:=gset string)), Hdom. by apply size_list_to_set.
Qed.

(** X8: the entry of a ticker is decided by what [fetch_data] returns
    for it and by whether the file system accepts the write: the fixed
    error for [None], the error with the exception's text when [mkdir]
    or [to_csv] raises, success with the two paths and the frame
    otherwise. *)
Theorem batch_entry_by_cases (ticker_input : string) (base_dir : Path) (i p : string)
    (sd ed : option string) (s : State) (t : string) (o : option DataFrame) :
  supported_intervals (self s) !! i = Some p ->
  t ∈ process_tickers ticker_input ->
  result (fetch_data t i sd ed) s = Returned o ->
  exists (r : gmap string ResultEntry) (s' : State),
    fetch_and_save_multiple ticker_input base_dir i sd ed s = (Returned r, s')
    /\ r !! t = Some (entry_for base_dir i t o).
Proof.
  intros Hsup Ht Ho.
  destruct (batch_run ticker_input base_dir i p sd ed s Hsup)
    as (l & r & s' & _ & _ & E & _ & _ & _ & Hent).
  exists r, s'. split; [exact E|]. by apply Hent.
Qed.

(** X9: a success entry is never made up: its ticker was asked for, its
    paths are [base_dir/T] and [base_dir/T/data/T_I.csv], its frame is
    a non-empty answer of the provider for that ticker, and that frame
    has been written to the data path. *)
Theorem batch_success_is_backed (ticker_input : string) (base_dir : Path) (i p : string)
    (sd ed : option string) (s : State) :
  supported_intervals (self s) !! i = Some p ->
  exists (r : gmap string ResultEntry) (s' : State),
    fetch_and_save_multiple ticker_input base_dir i sd ed s = (Returned r, s')
    /\ forall t paths d,
         r !! t = Some (StatusSuccess paths d) ->
         t ∈ process_tickers ticker_input
         /\ paths = mkPaths (base_dir ++ [t])
                            (base_dir ++ [t; "data"; t +:+ "_" +:+ i +:+ ".csv"])
         /\ empty d = false
         /\ (exists a, history t a = inr d)
         /\ (data_path paths, d) ∈ files (world s').
Proof.
  intros Hsup.
  destruct (batch_run ticker_input base_dir i p sd ed s Hsup)
    as (l & r & s' & _ & _ & E & _ & Hf & Hdom & Hent).
  exists r, s'. split; [exact E|]. intros t paths d Hr.
  assert (Ht : t ∈ process_tickers ticker_input).
  { apply (elem_of_list_to_set (C:=gset string)). rewrite <- Hdom.
    apply elem_of_dom. eauto. }
  split; [exact Ht|].
  destruct (fetch_data_returns t i p sd ed s Hsup) as (o & s0 & F & _ & Ho).
  assert (Hr2 : r !! t = Some (entry_for base_dir i t o)).
  { apply Hent; [done|]. unfold result. by rewrite F. }
  rewrite Hr in Hr2. injection Hr2 as Hr2. unfold entry_for in Hr2.
  destruct o as [d'|]; [|discriminate].
  destruct (mkdir _); [discriminate|]. destruct (to_csv _ _); [discriminate|].
  injection Hr2 as -> ->.
  split; [reflexivity|].
  destruct Ho as [[? _]|(a & _ & Ho)]; [discriminate|].
  symmetry in Ho. apply classify_Some in Ho as [Hh He].
  split; [exact He|]. split; [eauto|].
  rewrite Hf. apply elem_of_app. right.
  apply list_elem_of_In, in_concat. eexists. split.
  - apply in_map_iff. exists t. split; [reflexivity | by apply list_elem_of_In].
  - rewrite Hr. cbn. by left.
Qed.

End BatchTheorems.

(* ===================================================================== *)
(** ** What rate limiting costs *)
(* ===================================================================== *)

Section Budget.
Context `{env : Environment}.

(** The sleeps of one acquisition. *)
Lemma rate_limit_sleep_list (s : State) :
  exists l : list Q,
    sleeps (world (after _rate_limit s)) = sleeps (world s) ++ l
    /\ (length l <= 1)%nat
    /\ Forall (fun d => (0 < d)%Q) l
    /\ (clock_sane s -> Forall (fun d => (d <= min_request_interval (self s))%Q) l)
    /\ last_request_time (self (after _rate_limit s))
       = Some (clock (world (after _rate_limit s))).
Proof.
  unfold clock_sane, after, _rate_limit, bind, get_self.
  destruct (last_request_time (self s)) as [last|]; cbn.
  - destruct (Qle_bool _ _) eqn:Hle; cbn.
    + exists []. rewrite app_nil_r. repeat split; auto.
    + assert (Hlt : (clock (world s) - last < min_request_interval (self s))%Q).
      { apply Qnot_le_lt. intros Hc. apply Qle_bool_iff in Hc. congruence. }
      eexists [_]. repeat split; auto.
      * constructor; [lra | constructor].
      * intros Hsane. constructor; [lra | constructor].
  - exists []. rewrite app_nil_r. repeat split; auto.
Qed.

(** X10: one call of [_rate_limit] sleeps at most once, never on the
    first call of a fetcher, always for a positive time, and for no
    longer than the configured gap unless the clock went back behind
    the last grant; it records the time at which it returns, and with a
    [time.sleep] that does not return early the clock never goes back. *)
Theorem rate_limit_sleeps (s : State) :
  exists l : list Q,
    sleeps (world (after _rate_limit s)) = sleeps (world s) ++ l
    /\ (length l <= 1)%nat
    /\ (last_request_time (self s) = None -> l = [])
    /\ Forall (fun d => (0 < d)%Q) l
    /\ (clock_sane s -> Forall (fun d => (d <= min_request_interval (self s))%Q) l)
    /\ last_request_time (self (after _rate_limit s))
       = Some (clock (world (after _rate_limit s)))
    /\ ((forall d, 0 <= oversleep d)%Q ->
        (clock (world s) <= clock (world (after _rate_limit s)))%Q).
Proof.
  unfold clock_sane, after, _rate_limit, bind, get_self.
  destruct (last_request_time (self s)) as [last|]; cbn.
  - destruct (Qle_bool _ _) eqn:Hle; cbn.
    + exists []. rewrite app_nil_r. repeat split; auto; try done. intros _. lra.
    + assert (Hlt : (clock (world s) - last < min_request_interval (self s))%Q).
      { apply Qnot_le_lt. intros Hc. apply Qle_bool_iff in Hc. congruence. }
      eexists [_]. repeat split; auto; try done.
      * constructor; [lra | constructor].
      * intros Hsane. constructor; [lra | constructor].
      * intros Hov. pose proof (Hov (min_request_interval (self s) - (clock (world s) - last))%Q).
        lra.
  - exists []. rewrite app_nil_r. repeat split; auto; try done. intros _. lra.
Qed.

(** After the rate limiter, [fetch_data] does not sleep and the clock
    only moves forward by the provider's latency. *)
Lemma fetch_data_time (t i p : string) (sd ed : option string) (s : State) :
  supported_intervals (self s) !! i = Some p ->
  (forall u a, 0 <= latency u a)%Q ->
  sleeps (world (after (fetch_data t i sd ed) s)) = sleeps (world (after _rate_limit s))
  /\ (clock (world (after _rate_limit s)) <= clock (world (after (fetch_data t i sd ed) s)))%Q.
Proof.
  intros Hsup Hlat.
  destruct (rate_limit_returns s) as (s1 & E1 & _).
  unfold after. destruct (fetch_data t i sd ed s) as [o s'] eqn:F.
  rewrite E1. cbn [snd]. revert F. into_try Hsup E1. clear E1 Hsup.
  unfold try_except, fetch_data_try.
  destruct (PyStr.truthy sd && PyStr.truthy ed).
  - rewrite bind_assoc.
    destruct (adjust_start_date_frame i (default "" sd) (default "" ed) s1)
      as (o1 & s2 & E & _ & Hck & Hsl & _).
    unfold bind at 1. rewrite E. rewrite <- Hck, <- Hsl. destruct o1 as [sd'|e].
    + unfold Ticker_history, bind, set_world, lift, ret, raise, print, set_world,
        fetch_data_except. cbn.
      pose proof (Hlat t (ByRange sd' (default "" ed) i)).
      destruct (history t _) as [e|d]; cbn; [intros [= <- <-]; cbn; split; [done|lra]|].
      destruct (empty d); cbn; intros [= <- <-]; cbn; (split; [done|lra]).
    + cbn. intros [= <- <-]. cbn. split; [done|lra].
  - rewrite bind_assoc. unfold bind at 1, getitem.
    destruct (supported_intervals (self s) !! i) as [q|]; cbn;
      [|intros [= <- <-]; cbn; split; [done|lra]].
    unfold Ticker_history, bind, set_world, lift, ret, raise, print, set_world,
      fetch_data_except. cbn.
    pose proof (Hlat t (ByPeriod q i)).
    destruct (history t _) as [e|d]; cbn; [intros [= <- <-]; cbn; split; [done|lra]|].
    destruct (empty d); cbn; intros [= <- <-]; cbn; (split; [done|lra]).
Qed.

Lemma for_tickers_sleeps (base_dir : Path) (i p : string) (sd ed : option string)
    (gap : Q) (ts : list string) :
  (forall u a, 0 <= latency u a)%Q ->
  (forall d, 0 <= oversleep d)%Q ->
  forall (r : gmap string ResultEntry) (s : State),
    supported_intervals (self s) !! i = Some p ->
    min_request_interval (self s) = gap ->
    clock_sane s ->
    exists r' s' (l : list Q),
      for_tickers ts base_dir i sd ed r s = (Returned r', s')
      /\ sleeps (world s') = sleeps (world s) ++ l
      /\ (length l <= length ts)%nat
      /\ Forall (fun d => (0 < d /\ d <= gap)%Q) l
      /\ clock_sane s'.
Proof.
  intros Hlat Hov. induction ts as [|u ts IH]; intros r s Hsup Hgap Hsane.
  - exists r, s, []. rewrite app_nil_r. repeat split; auto.
  - destruct (for_tickers_cons_exact base_dir i p sd ed u s Hsup)
      as (o & e & s1 & s' & F & Hcat & Hstep & Hself & Hck & Hsl & _).
    set (s0 := after (print ("Fetching data for " +:+ u +:+ "...")) s) in *.
    assert (Hs0 : self s0 = self s /\ clock (world s0) = clock (world s)
                  /\ sleeps (world s0) = sleeps (world s)) by done.
    destruct Hs0 as (Hself0 & Hck0 & Hsl0).
    assert (Hsup0 : supported_intervals (self s0) !! i = Some p) by (by rewrite Hself0).
    destruct (rate_limit_sleep_list s0) as (l1 & Hl1 & Hlen1 & Hpos & Hle & Hlast).
    assert (Hsane0 : clock_sane s0) by (unfold clock_sane; by rewrite Hself0, Hck0).
    specialize (Hle Hsane0).
    destruct (fetch_data_time u i p sd ed s0 Hsup0 Hlat) as [Hsl1 Hck1].
    pose proof (fetch_data_keeps_fetcher u i p sd ed s0 Hsup0) as Hkeep.
    unfold after at 1 in Hsl1. unfold after at 2 in Hck1. unfold after at 1 in Hkeep.
    rewrite F in Hsl1, Hck1, Hkeep. cbn [snd] in Hsl1, Hck1, Hkeep.
    destruct (rate_limit_returns s0) as (sr & Er & [Hcatr Hgapr] & _).
    assert (Hsane' : clock_sane s').
    { unfold clock_sane. rewrite Hself, Hkeep, Hlast, Hck. exact Hck1. }
    assert (Hgap' : min_request_interval (self s') = gap).
    { rewrite Hself, Hkeep. unfold after. rewrite Er. cbn [snd].
      rewrite Hgapr, Hself0. exact Hgap. }
    assert (Hsup' : supported_intervals (self s') !! i = Some p).
    { rewrite Hself, Hcat. exact Hsup0. }
    destruct (IH (<[u:=e]> r) s' Hsup' Hgap' Hsane') as (r' & s'' & l & E & Hl & Hlen & Hall & Hfin).
    exists r', s'', (l1 ++ l). rewrite Hstep, E. split; [done|].
    split; [rewrite Hl, Hsl, Hsl1, Hl1, Hsl0; by rewrite app_assoc|].
    split; [rewrite length_app; cbn; lia|].
    split; [|done]. apply Forall_app. split; [|done].
    rewrite Hself0, Hgap in Hle.
    clear -Hpos Hle. induction l1; constructor; inversion Hpos; inversion Hle; subst; auto.
Qed.

(** X11: rate limiting costs a batch at most one sleep per ticker, each
    positive and no longer than the configured gap, provided time only
    moves forward. *)
Theorem batch_sleep_budget (ticker_input : string) (base_dir : Path) (i p : string)
    (sd ed : option string) (s : State) :
  supported_intervals (self s) !! i = Some p ->
  (forall u a, 0 <= latency u a)%Q ->
  (forall d, 0 <= oversleep d)%Q ->
  clock_sane s ->
  exists (r : gmap string ResultEntry) (s' : State) (l : list Q),
    fetch_and_save_multiple ticker_input base_dir i sd ed s = (Returned r, s')
    /\ sleeps (world s') = sleeps (world s) ++ l
    /\ (length l <= length (process_tickers ticker_input))%nat
    /\ Forall (fun d => (0 < d /\ d <= min_request_interval (self s))%Q) l.
Proof.
  intros Hsup Hlat Hov Hsane.
  destruct (for_tickers_sleeps base_dir i p sd ed (min_request_interval (self s))
              (process_tickers ticker_input) Hlat Hov ∅ s Hsup eq_refl Hsane)
    as (r & s' & l & E & Hl & Hlen & Hall & _).
  exists r, s', l. done.
Qed.

End Budget.

(* ===================================================================== *)
(** ** Explicit ranges for the intervals of line 63 *)
(* ===================================================================== *)

Section SpanBound.
Context `{env : Environment}.

(** X20: for each of the seven intervals named on line 63 and any two
    parseable dates, the end date in a year that [strftime] writes with
    four digits on every platform, the provider is asked for a range
    that ends on the given end date and starts on a date [a'] at most
    the limit (7 days for ['1m'], 60 days for the others) before it;
    the start is the given one unless that lay further back, and is
    never moved back. *)
Theorem minute_range_span_bounded (t i p sd ed : string) (a b : Datetime.datetime)
    (s : State) :
  supported_intervals (self s) !! i = Some p ->
  i ∈ minute_level ->
  Datetime.strptime_ymd sd = inr a ->
  Datetime.strptime_ymd ed = inr b ->
  1001 <= Datetime.year b ->
  exists (sd' : string) (a' : Datetime.datetime) (s' : State),
    fetch_data t i (Some sd) (Some ed) s
    = (Returned (classify (history t (ByRange sd' ed i))), s')
    /\ provider_calls (world s')
       = provider_calls (world s) ++ [mkRequest t (ByRange sd' ed i)]
    /\ Datetime.strptime_ymd sd' = inr a'
    /\ Datetime.sub_days b a' <= (if String.eqb i "1m" then 7 else 60)
    /\ Datetime.sub_days b a' <= Datetime.sub_days b a
    /\ (Datetime.sub_days b a <= (if String.eqb i "1m" then 7 else 60) -> sd' = sd).
Proof.
  intros Hsup Hi Hsd Hed _.
  destruct (Z.ltb_spec (if String.eqb i "1m" then 7 else 60) (Datetime.sub_days b a))
    as [Hbeyond|Hwithin].
  - destruct (fetch_data_clamps t i p sd ed a b s Hsup Hi Hsd Hed Hbeyond)
      as (adj & s' & Hspan & Hread & E & Hcalls & _).
    exists (Datetime.strftime_ymd adj), adj, s'. repeat (split; [done || lia|]). lia.
  - destruct (fetch_data_within t i p sd ed a b s Hsup Hi Hsd Hed Hwithin)
      as (s' & E & Hcalls).
    exists sd, a, s'. repeat (split; [done || lia|]). done.
Qed.

End SpanBound.

(* ===================================================================== *)
(** ** The command line front end *)
(* ===================================================================== *)

(** *** The ticker file *)

Lemma ticker_of_line_well_formed (line t : string) :
  t ∈ Main.ticker_of_line line ->
  t <> "" /\ ~ In "#"%char (list_ascii_of_string t) /\ PyStr.strip t = t.
Proof.
  unfold Main.ticker_of_line. cbv zeta.
  destruct (_ && _); [|by intros ?%elem_of_nil].
  destruct (PyStr.strip (hd "" _)) as [|c r] eqn:E; cbn [PyStr.truthy];
    [by intros ?%elem_of_nil|].
  intros ->%list_elem_of_singleton. rewrite <- E. split; [by rewrite E|]. split.
  - intros Hin%list_elem_of_In%strip_chars.
    pose proof (split_nonempty "#" (PyStr.strip line)) as Hne.
    destruct (PyStr.split "#" (PyStr.strip line)) as [|f fs] eqn:Es; [done|].
    cbn [hd] in Hin. apply (split_no_sep "#" (PyStr.strip line) f); [|done].
    rewrite Es. left.
  - apply strip_idem.
Qed.

(** A line that is kept always yields a ticker: the test on line 37 of
    main.py never fails. *)
Lemma ticker_of_line_kept (line : string) :
  PyStr.strip line <> "" -> PyText.startswith "#" (PyStr.strip line) = false ->
  exists t, Main.ticker_of_line line = [t].
Proof.
  intros Hnz Hst. unfold Main.ticker_of_line. cbv zeta. rewrite Hst.
  pose proof (lstrip_clean (PyStr.rstrip (PyStr.lstrip line))) as _.
  assert (Hclean : starts_clean (PyStr.strip line))
    by (apply rstrip_clean, lstrip_clean).
  destruct (PyStr.strip line) as [|c r] eqn:E; [done|]. cbn [PyStr.truthy andb negb].
  cbn in Hst, Hclean. cbn [PyStr.split].
  destruct (Ascii.eqb_spec c "#") as [->|Hc]; [done|].
  pose proof (split_nonempty "#" r) as Hne.
  destruct (PyStr.split "#" r) as [|f fs]; [done|]. cbn [hd].
  assert (Hs : PyStr.strip (String c f) <> "").
  { unfold PyStr.strip. cbn [PyStr.lstrip]. rewrite Hclean. cbn [PyStr.rstrip].
    destruct (PyStr.rstrip f); [by rewrite Hclean | done]. }
  destruct (PyStr.strip (String c f)); [done|]. eauto.
Qed.

Lemma ticker_of_line_eq (line : string) :
  Main.ticker_of_line line
  = if Main.is_ticker_line line
    then [PyStr.strip (hd "" (PyStr.split "#" (PyStr.strip line)))]
    else [].
Proof.
  unfold Main.is_ticker_line.
  destruct (PyStr.truthy (Some (PyStr.strip line))) eqn:Ht;
    [|unfold Main.ticker_of_line; cbv zeta; by rewrite Ht].
  destruct (PyText.startswith "#" (PyStr.strip line)) eqn:Hs;
    [unfold Main.ticker_of_line; cbv zeta; by rewrite Ht, Hs|].
  cbn [andb negb].
  destruct (ticker_of_line_kept line) as (t & Et); [|done|].
  { intros E. by rewrite E in Ht. }
  rewrite Et. revert Et. unfold Main.ticker_of_line. cbv zeta.
  rewrite Ht, Hs. cbn [andb negb]. destruct (PyStr.truthy (Some (PyStr.strip (hd _ _)))); [|done]. by intros <-.
Qed.

(** X12: [read_ticker_file] returns, in file order, one ticker for each
    line that is neither blank nor a comment, namely the line up to its
    first [#], stripped: the test of line 37 never drops a line.  No
    ticker is empty, holds a [#] or has white space at either end. *)
Theorem read_ticker_file_tickers (lines ts : list string) :
  Main.read_ticker_file (Some lines) = inr ts ->
  ts = map (fun line => PyStr.strip (hd "" (PyStr.split "#" (PyStr.strip line))))
           (List.filter Main.is_ticker_line lines)
  /\ Forall (fun t => t <> "" /\ ~ In "#"%char (list_ascii_of_string t) /\ PyStr.strip t = t) ts.
Proof.
  intros [= <-]. split.
  - induction lines as [|l ls IH]; [done|]. cbn [map concat List.filter].
    rewrite ticker_of_line_eq, IH. by destruct (Main.is_ticker_line l).
  - apply Forall_forall. intros t Ht.
    apply list_elem_of_In, in_concat in Ht as (l & Hl & Ht).
    apply in_map_iff in Hl as (line & <- & _).
    by apply (ticker_of_line_well_formed line), list_elem_of_In.
Qed.

(** X13: when the file yields tickers and the user accepts them,
    [get_tickers] returns them joined with [", "], and
    [process_tickers] takes that text apart again: a line without a
    comma arrives as one ticker, upper-cased, in file order. *)
Theorem file_tickers_reach_batch (lines ts : list string) (typed : option string) :
  Main.read_ticker_file (Some lines) = inr ts ->
  ts <> [] ->
  Main.get_tickers (Some lines) true typed = inr (Some (String.concat ", " ts))
  /\ process_tickers (String.concat ", " ts) = concat (map process_tickers ts)
  /\ (Forall (fun t => ~ In ","%char (list_ascii_of_string t)) ts ->
      process_tickers (String.concat ", " ts) = map PyStr.upper ts).
Proof.
  intros Hread Hne.
  destruct (read_ticker_file_tickers lines ts Hread) as [_ Hwf].
  split.
  - unfold Main.get_tickers, Main.check_input_file. rewrite Hread.
    destruct ts; [done|]. reflexivity.
  - rewrite process_tickers_join. split; [done|]. intros Hc. clear Hread Hne.
    induction ts as [|t ts IH]; [done|].
    apply Forall_cons in Hwf as [(Hnz & _ & Hs) Hwf]. apply Forall_cons in Hc as [Hc Hcs].
    cbn [map concat]. rewrite process_tickers_single by done. cbn. f_equal. by apply IH.
Qed.

(** *** The interval menu *)

(** A word followed by a blank is the first word of the text. *)
Lemma split_ws_head (w rest : string) :
  w <> "" ->
  Forall (fun c => PyStr.isspace c = false) (list_ascii_of_string w) ->
  PyText.split_ws (w +:+ String " " rest) = w :: PyText.split_ws rest.
Proof.
  induction w as [|c r IH]; [done|]. intros _ [Hc Hr]%Forall_cons.
  change (String c r +:+ String " " rest) with (String c (r +:+ String " " rest)).
  cbn [PyText.split_ws]. rewrite Hc. destruct r as [|d r'].
  - reflexivity.
  - change (String d r' +:+ String " " rest) with (String d (r' +:+ String " " rest)) in *.
    apply Forall_cons in Hr as Hd. destruct Hd as [Hd _]. rewrite Hd.
    rewrite IH by done. reflexivity.
Qed.

Lemma get_interval_selection_entry (code desc : string) :
  code <> "" ->
  Forall (fun c => PyStr.isspace c = false) (list_ascii_of_string code) ->
  Main.get_interval_selection (code +:+ " (" +:+ desc +:+ ")") = inr code.
Proof.
  intros Hnz Hw. unfold Main.get_interval_selection.
  change (code +:+ " (" +:+ desc +:+ ")") with (code +:+ String " " ("(" +:+ desc +:+ ")")).
  by rewrite split_ws_head.
Qed.

(** An entry of the menu is read back as its code, which the catalog
    of [__init__] knows. *)
Lemma menu_entry_code (code desc : string) :
  (code, desc) ∈ Main.intervals ->
  Main.get_interval_selection (code +:+ " (" +:+ desc +:+ ")") = inr code
  /\ is_Some (supported_intervals __init__ !! code).
Proof.
  intros Hin.
  assert (H : code <> ""
              /\ Forall (fun c => PyStr.isspace c = false) (list_ascii_of_string code)
              /\ is_Some (supported_intervals __init__ !! code)).
  { unfold Main.intervals in Hin.
    repeat (apply elem_of_cons in Hin as [[= -> ->]|Hin];
            [split; [done|]; split; [repeat constructor | by eexists]|]).
    by apply elem_of_nil in Hin. }
  destruct H as (Hnz & Hw & Hp).
  split; [by apply get_interval_selection_entry | done].
Qed.

Section Menu.
Context `{env : Environment}.

(** X14: whichever entry of the interval menu is picked,
    [get_interval_selection] returns the code of that entry, and the
    fetcher supports it: [fetch_data] does not raise for it. *)
Theorem menu_interval_is_supported (code desc t : string) (sd ed : option string)
    (s : State) :
  (code, desc) ∈ Main.intervals ->
  supported_intervals (self s) = supported_intervals __init__ ->
  Main.get_interval_selection (code +:+ " (" +:+ desc +:+ ")") = inr code
  /\ exists o s', fetch_data t code sd ed s = (Returned o, s').
Proof.
  intros Hin Hs. destruct (menu_entry_code code desc Hin) as (Hsel & p & Hp).
  split; [done|]. rewrite <- Hs in Hp.
  destruct (fetch_data_returns t code p sd ed s Hp) as (o & s' & E & _). eauto.
Qed.

End Menu.

(** X15: the menu offers every interval of the fetcher's catalog except
    ['90m'], and nothing else: a code is in the catalog exactly when it
    is in the menu or is ['90m'], and ['90m'], which the catalog has,
    is not in the menu. *)
Theorem menu_offers_all_but_90m (code : string) :
  (is_Some (supported_intervals __init__ !! code)
   <-> code ∈ Main.intervals.*1 \/ code = "90m")
  /\ ("90m" ∉ Main.intervals.*1)
  /\ is_Some (supported_intervals __init__ !! "90m").
Proof.
  split; [|split].
  - split.
    + intros [p Hp]. cbn [__init__ supported_intervals] in Hp.
      apply elem_of_list_to_map_2 in Hp. unfold catalog in Hp.
      repeat (apply elem_of_cons in Hp as [[= -> ->]|Hp];
              [first [ by right | left; apply (bool_decide_unpack _); reflexivity ]|]).
      by apply elem_of_nil in Hp.
    + intros [Hin| ->]; [|by eexists].
      unfold Main.intervals in Hin. cbn [fmap list_fmap fst] in Hin.
      repeat (apply elem_of_cons in Hin as [->|Hin]; [by eexists|]).
      by apply elem_of_nil in Hin.
  - apply (proj1 (bool_decide_eq_false _)). reflexivity.
  - by eexists.
Qed.

(** *** The date range menu *)

Lemma strftime_truthy (d : Datetime.datetime) :
  PyStr.truthy (Some (Datetime.strftime_ymd d)) = true.
Proof. reflexivity. Qed.

(** X16: [get_date_range] returns both dates or none: never one date
    without the other, and never an empty text, so that [fetch_data]
    takes its explicit-range branch exactly when a range was made. *)
Theorem date_range_both_or_none (parse : string -> Exception + Datetime.datetime)
    (interval : string) (now : Datetime.datetime) (choice start_text end_text : string)
    (sd ed : option string) :
  Main.get_date_range parse interval now choice start_text end_text = inr (sd, ed) ->
  (sd = None /\ ed = None)
  \/ (PyStr.truthy sd = true /\ PyStr.truthy ed = true).
Proof.
  unfold Main.get_date_range. cbv zeta.
  repeat case_match; intros [= <- <-]; auto using strftime_truthy.
Qed.

Lemma minus_days_recent (now : Datetime.datetime) (k : Z) :
  valid_date now -> 1970 <= Datetime.year now -> 0 <= k <= 366 ->
  exists start, Datetime.minus_days now k = inr start
    /\ Datetime.sub_days now start = k
    /\ Datetime.strptime_ymd (Datetime.strftime_ymd start) = inr start
    /\ Datetime.strptime_ymd (Datetime.strftime_ymd now) = inr now.
Proof.
  intros Hv Hy Hk.
  pose proof (DatetimeFacts.strptime_strftime now Hv) as Hnow.
  pose proof (DatetimeFacts.toordinal_bounds _ _ Hnow) as [_ Hhi].
  assert (Hlo : 366 < Datetime.toordinal now).
  { destruct now as [y m d]. destruct Hv as (_ & Hm & Hd). cbn in *.
    unfold Datetime.toordinal. cbn [Datetime.year Datetime.month Datetime.day].
    assert (0 <= Datetime.days_before_month y m).
    { unfold Datetime.days_before_month.
      assert (Hcases : m = 1 \/ m = 2 \/ m = 3 \/ m = 4 \/ m = 5 \/ m = 6 \/ m = 7
                       \/ m = 8 \/ m = 9 \/ m = 10 \/ m = 11 \/ m = 12) by lia.
      destruct (Datetime.is_leap y);
        destruct Hcases as [->|[->|[->|[->|[->|[->|[->|[->|[->|[->|[->| ->]]]]]]]]]]];
        cbv [Z.to_nat Pos.to_nat Pos.iter_op Nat.add]; cbn; lia. }
    assert (400 < Datetime.days_before_year y).
    { unfold Datetime.days_before_year. cbv zeta. Z.div_mod_to_equations. lia. }
    lia. }
  destruct (Datetime.minus_days now k) as [e|start] eqn:E.
  - exfalso. revert E. unfold Datetime.minus_days. cbv zeta.
    destruct (Z.leb_spec 1 (Datetime.toordinal now - k)); [|lia].
    destruct (Z.leb_spec (Datetime.toordinal now - k) Datetime.MAXORDINAL); [|lia].
    discriminate.
  - exists start. destruct (DatetimeFacts.minus_days_span _ _ _ E). done.
Qed.

Lemma ranges_cases (i choice : string) :
  choice ∈ Main.ranges i ->
  (i ∈ minute_level
   /\ (choice = "Last 7 days"
       \/ i <> "1m" /\ (choice = "Last 30 days" \/ choice = "Last 60 days")))
  \/ ((i ∉ minute_level)
      /\ choice ∈ ["Last 7 days"; "Last 30 days"; "Last 3 months"; "Last 6 months";
                   "Last 1 year"; "Last 5 years"; "Custom range"]).
Proof.
  unfold Main.ranges.
  destruct (_ !! i) as [l|] eqn:E.
  - apply elem_of_list_to_map_2 in E. cbn [default from_option id].
    unfold Main.interval_ranges in E.
    repeat (apply elem_of_cons in E as [[= -> ->]|E];
            [intros Hc;
             repeat (apply elem_of_cons in Hc as [->|Hc];
                     [first [ left; split; [apply (bool_decide_unpack _); reflexivity|];
                              first [ by left | right; split; [done|]; by auto ]
                            | right; split;
                              [apply (proj1 (bool_decide_eq_false _)); reflexivity
                              |apply (bool_decide_unpack _); reflexivity] ]|]);
             by apply elem_of_nil in Hc|]).
    by apply elem_of_nil in E.
  - apply not_elem_of_list_to_map in E. cbn [default from_option id].
    intros Hc. right. split.
    + intros Hi. apply E. unfold minute_level in Hi.
      repeat (apply elem_of_cons in Hi as [->|Hi];
              [apply (bool_decide_unpack _); reflexivity|]).
      by apply elem_of_nil in Hi.
    + repeat (apply elem_of_cons in Hc as [->|Hc];
              [apply (bool_decide_unpack _); reflexivity|]).
      by apply elem_of_nil in Hc.
Qed.

Lemma minus_relativedelta_recent (now : Datetime.datetime) (years months : Z) :
  valid_date now -> 1970 <= Datetime.year now -> 0 <= years <= 5 -> 0 <= months <= 12 ->
  exists start, Main.minus_relativedelta now years months = inr start.
Proof.
  intros (Hy & Hm & _) Hlo Hyears Hmonths. unfold Main.minus_relativedelta. cbv zeta.
  unfold Datetime.MINYEAR, Datetime.MAXYEAR.
  destruct (months =? 0).
  - destruct (Z.ltb_spec (Datetime.year now - years) 1); [lia|].
    destruct (Z.ltb_spec 9999 (Datetime.year now - years)); [lia|]. cbn. eauto.
  - destruct (Z.ltb_spec 12 (Datetime.month now - months)); [lia|].
    destruct (Z.ltb_spec (Datetime.month now - months) 1).
    + destruct (Z.ltb_spec (Datetime.year now - years - 1) 1); [lia|].
      destruct (Z.ltb_spec 9999 (Datetime.year now - years - 1)); [lia|]. cbn. eauto.
    + destruct (Z.ltb_spec (Datetime.year now - years) 1); [lia|].
      destruct (Z.ltb_spec 9999 (Datetime.year now - years)); [lia|]. cbn. eauto.
Qed.

Lemma preset_start_recent (choice : string) (now : Datetime.datetime) :
  valid_date now -> 1970 <= Datetime.year now ->
  choice ∈ ["Last 7 days"; "Last 30 days"; "Last 3 months"; "Last 6 months";
            "Last 1 year"; "Last 5 years"] ->
  exists start, Main.preset_start choice now = Some (inr start).
Proof.
  intros Hv Hy Hc.
  repeat (apply elem_of_cons in Hc as [->|Hc];
          [unfold Main.preset_start; cbn [String.eqb Ascii.eqb Bool.eqb];
           first [ destruct (minus_days_recent now 7 Hv Hy) as (start & -> & _); [lia|]
                 | destruct (minus_days_recent now 30 Hv Hy) as (start & -> & _); [lia|]
                 | destruct (minus_relativedelta_recent now 0 3 Hv Hy) as (start & ->);
                   [lia|lia|]
                 | destruct (minus_relativedelta_recent now 0 6 Hv Hy) as (start & ->);
                   [lia|lia|]
                 | destruct (minus_relativedelta_recent now 1 0 Hv Hy) as (start & ->);
                   [lia|lia|]
                 | destruct (minus_relativedelta_recent now 5 0 Hv Hy) as (start & ->);
                   [lia|lia|] ];
           eauto|]).
  by apply elem_of_nil in Hc.
Qed.

Section RangeMenu.
Context `{env : Environment}.

(** X17: a preset range picked from the menu of its interval reaches
    the provider as it was made: the start date the preset stands for
    and today as the end date, never clamped.  The one exception is
    ["Last 60 days"], which the [if] chain does not know: it yields no
    dates at all, and the provider is asked for the catalog's default
    period of the interval instead. *)
Theorem menu_range_sent_as_is (parse : string -> Exception + Datetime.datetime)
    (i p choice start_text end_text t : string) (now : Datetime.datetime) (s : State) :
  supported_intervals (self s) !! i = Some p ->
  choice ∈ Main.ranges i ->
  choice <> "Custom range" ->
  valid_date now -> 1970 <= Datetime.year now ->
  exists (sd ed : option string) (a : HistoryArgs) (s' : State),
    Main.get_date_range parse i now choice start_text end_text = inr (sd, ed)
    /\ fetch_data t i sd ed s = (Returned (classify (history t a)), s')
    /\ provider_calls (world s') = provider_calls (world s) ++ [mkRequest t a]
    /\ match Main.preset_start choice now with
       | Some (inr start) =>
           sd = Some (Datetime.strftime_ymd start)
           /\ ed = Some (Datetime.strftime_ymd now)
           /\ a = ByRange (Datetime.strftime_ymd start) (Datetime.strftime_ymd now) i
       | Some (inl _) => False
       | None =>
           choice = "Last 60 days" /\ sd = None /\ ed = None /\ a = ByPeriod p i
       end.
Proof.
  intros Hsup Hc Hcustom Hv Hy.
  apply ranges_cases in Hc as [[Hi Hc]|[Hi Hc]].
  - destruct Hc as [->|[Hne [->| ->]]].
    + destruct (minus_days_recent now 7 Hv Hy) as (start & Hm & Hspan & Hrs & Hrn); [lia|].
      destruct (fetch_data_within t i p _ _ start now s Hsup Hi Hrs Hrn) as (s' & E & Hcalls).
      { rewrite Hspan. destruct (String.eqb i "1m"); lia. }
      eexists _, _, _, s'. split; [|split; [exact E|split; [exact Hcalls|]]].
      * unfold Main.get_date_range, Main.preset_start.
        cbn [String.eqb Ascii.eqb Bool.eqb]. by rewrite Hm.
      * unfold Main.preset_start. cbn [String.eqb Ascii.eqb Bool.eqb]. by rewrite Hm.
    + destruct (minus_days_recent now 30 Hv Hy) as (start & Hm & Hspan & Hrs & Hrn); [lia|].
      destruct (fetch_data_within t i p _ _ start now s Hsup Hi Hrs Hrn) as (s' & E & Hcalls).
      { rewrite Hspan. destruct (String.eqb_spec i "1m"); [done | lia]. }
      eexists _, _, _, s'. split; [|split; [exact E|split; [exact Hcalls|]]].
      * unfold Main.get_date_range, Main.preset_start.
        cbn [String.eqb Ascii.eqb Bool.eqb]. by rewrite Hm.
      * unfold Main.preset_start. cbn [String.eqb Ascii.eqb Bool.eqb]. by rewrite Hm.
    + destruct (fetch_data_period t i p None None s Hsup eq_refl) as (s' & E & Hcalls).
      exists None, None, (ByPeriod p i), s'. split; [reflexivity|]. split; [exact E|].
      split; [exact Hcalls|]. done.
  - assert (Hc' : choice ∈ ["Last 7 days"; "Last 30 days"; "Last 3 months"; "Last 6 months";
                            "Last 1 year"; "Last 5 years"]).
    { rewrite !elem_of_cons in Hc. rewrite !elem_of_cons. tauto. }
    destruct (preset_start_recent choice now Hv Hy Hc') as (start & Hp).
    destruct (fetch_data_unlisted t i p (Datetime.strftime_ymd start)
                (Datetime.strftime_ymd now) s Hsup Hi eq_refl) as (s' & E & Hcalls).
    eexists _, _, _, s'. split; [|split; [exact E|split; [exact Hcalls|]]].
    + unfold Main.get_date_range. rewrite Hp.
      destruct (String.eqb_spec choice "Custom range"); [done | reflexivity].
    + by rewrite Hp.
Qed.

(** X22: a custom range whose two dates are read as dates of the year
    1000 or later (years that [strftime] writes with four digits on
    every platform) reaches the provider as it was typed, once parsed:
    the start and the end as [dateutil] read them (today when the end
    is left empty), written as YYYY-MM-DD, in the order given and with
    no check that the start comes first; the menus that offer a custom
    range belong to intervals that [fetch_data] never clamps. *)
Theorem custom_range_sent_as_parsed (parse : string -> Exception + Datetime.datetime)
    (i p start_text end_text t : string) (now a b : Datetime.datetime) (s : State) :
  supported_intervals (self s) !! i = Some p ->
  "Custom range" ∈ Main.ranges i ->
  parse start_text = inr a ->
  (if PyStr.truthy (Some end_text) then parse end_text else inr now) = inr b ->
  1000 <= Datetime.year a -> 1000 <= Datetime.year b ->
  exists s',
    Main.get_date_range parse i now "Custom range" start_text end_text
    = inr (Some (Datetime.strftime_ymd a), Some (Datetime.strftime_ymd b))
    /\ fetch_data t i (Some (Datetime.strftime_ymd a)) (Some (Datetime.strftime_ymd b)) s
       = (Returned (classify (history t (ByRange (Datetime.strftime_ymd a)
                                                 (Datetime.strftime_ymd b) i))), s')
    /\ provider_calls (world s')
       = provider_calls (world s)
         ++ [mkRequest t (ByRange (Datetime.strftime_ymd a) (Datetime.strftime_ymd b) i)].
Proof.
  intros Hsup Hc Ha Hb _ _.
  apply ranges_cases in Hc as [[_ [Hc|[_ [Hc|Hc]]]]|[Hi _]]; try discriminate.
  destruct (fetch_data_unlisted t i p (Datetime.strftime_ymd a) (Datetime.strftime_ymd b)
              s Hsup Hi eq_refl) as (s' & E & Hcalls).
  exists s'. split; [|done].
  unfold Main.get_date_range. cbn [String.eqb Ascii.eqb Bool.eqb]. cbv zeta.
  by rewrite Ha, Hb.
Qed.

(** X21: if the interval is picked from the interval menu, the ticker
    prompt was not cancelled, and [get_user_inputs] returns, then the
    batch started with what it returned by a fetcher with the catalog
    of [__init__] runs to its end, whatever the other answers were: it
    raises nothing, unsupported interval included, and reports on
    every ticker; the two dates are both there or both missing.  (A
    cancelled ticker prompt makes [get_user_inputs] return [None] for
    the tickers, which is no ticker text for the batch.) *)
Theorem menu_inputs_batch_returns (file : option (list string)) (use_file : bool)
    (typed : option string) (selection : string)
    (parse : string -> Exception + Datetime.datetime)
    (now : Datetime.datetime) (range_choice start_text end_text : string)
    (generate_charts g : bool) (tickers interval : string) (sd ed : option string)
    (base_dir : Path) (s : State) :
  selection ∈ Main.choices ->
  Main.get_user_inputs file use_file typed selection parse now range_choice
    start_text end_text generate_charts = inr (Some tickers, interval, (sd, ed), g) ->
  supported_intervals (self s) = supported_intervals __init__ ->
  exists (r : gmap string ResultEntry) (s' : State),
    fetch_and_save_multiple tickers base_dir interval sd ed s = (Returned r, s')
    /\ dom r = list_to_set (process_tickers tickers)
    /\ ((sd = None /\ ed = None) \/ (PyStr.truthy sd = true /\ PyStr.truthy ed = true)).
Proof.
  intros Hsel Hin Hs. unfold Main.get_user_inputs in Hin.
  destruct (Main.get_tickers file use_file typed) as [?|tickers0]; [done|].
  apply list_elem_of_In, in_map_iff in Hsel as ([code desc] & <- & Hcode%list_elem_of_In).
  destruct (menu_entry_code code desc Hcode) as (Hread & p & Hp).
  rewrite Hread in Hin.
  destruct (Main.get_date_range parse code now range_choice start_text end_text)
    as [?|[sd0 ed0]] eqn:Hrange; [done|].
  injection Hin as -> -> -> -> _.
  rewrite <- Hs in Hp.
  destruct (batch_run tickers base_dir interval p sd ed s Hp)
    as (l & r & s' & _ & _ & E & _ & _ & Hdom & _).
  exists r, s'. split; [exact E|]. split; [exact Hdom|].
  revert Hrange. unfold Main.get_date_range. cbv zeta.
  repeat case_match; intros [= <- <-]; auto using strftime_truthy.
Qed.

End RangeMenu.

(* ===================================================================== *)
(** ** The report in order, and the summary panel *)
(* ===================================================================== *)

Lemma list_to_map_setitem (d : Items) (k : string) (v : ResultEntry) :
  (list_to_map (setitem d k v) : gmap string ResultEntry) = <[k := v]> (list_to_map d).
Proof.
  induction d as [|[k' v'] d IH]; [done|]. cbn [setitem].
  destruct (String.eqb_spec k' k) as [->|Hne]; cbn [list_to_map foldr fst snd].
  - by rewrite insert_insert_eq.
  - change (foldr _ _ ?l) with (list_to_map l : gmap string ResultEntry).
    rewrite IH. by apply insert_insert_ne.
Qed.

Lemma keys_setitem (d : Items) (k : string) (v : ResultEntry) :
  map fst (setitem d k v)
  = if bool_decide (k ∈ map fst d) then map fst d else map fst d ++ [k].
Proof.
  induction d as [|[k' v'] d IH]; [done|]. cbn [setitem map fst].
  destruct (String.eqb_spec k' k) as [->|Hne].
  - rewrite bool_decide_eq_true_2 by left. done.
  - cbn [map fst]. rewrite IH.
    destruct (decide (k ∈ map fst d)) as [Hin|Hnin].
    + rewrite !bool_decide_eq_true_2; [done | by right | done].
    + rewrite !bool_decide_eq_false_2; [done | | done].
      intros [?|?]%elem_of_cons; congruence.
Qed.

Section OrderedFacts.
Context `{env : Environment}.
Variables (base_dir : Path) (i : string) (sd ed : option string).

(** Both dictionaries are filled alike. *)
Lemma for_tickers_items_refines (ts : list string) :
  forall (d : Items) (s : State),
    for_tickers ts base_dir i sd ed (list_to_map d) s
    = map_outcome list_to_map (for_tickers_items ts base_dir i sd ed d s).
Proof.
  induction ts as [|u ts IH]; intros d s; [done|].
  cbn [for_tickers for_tickers_items].
  set (line := "Fetching data for " +:+ u +:+ "...").
  rewrite !(bind_returned (print line) _ s tt (after (print line) s) eq_refl).
  destruct (fetch_data u i sd ed (after (print line) s)) as [[o|e] s1] eqn:F.
  2: { by rewrite !(bind_raised _ _ _ _ _ F). }
  rewrite !(bind_returned _ _ _ _ _ F). destruct o as [data|].
  - unfold try_except.
    destruct (save_data data u base_dir i s1) as [[paths|e] s2] eqn:S.
    + unfold bind, print, set_world, ret. rewrite S. cbv beta iota.
      rewrite <- list_to_map_setitem. apply IH.
    + unfold bind, print, set_world, ret. rewrite S. cbv beta iota.
      rewrite <- list_to_map_setitem. apply IH.
  - unfold bind, ret. rewrite <- list_to_map_setitem. apply IH.
Qed.

Lemma for_tickers_items_keys (ts : list string) :
  forall (d d' : Items) (s s' : State),
    for_tickers_items ts base_dir i sd ed d s = (Returned d', s') ->
    map fst d' = map fst d ++ first_seen (map fst d) ts.
Proof.
  induction ts as [|u ts IH]; intros d d' s s'.
  - intros [= <- <-]. cbn. by rewrite app_nil_r.
  - cbn [for_tickers_items first_seen].
    set (line := "Fetching data for " +:+ u +:+ "...").
    rewrite (bind_returned (print line) _ s tt (after (print line) s) eq_refl).
    destruct (fetch_data u i sd ed (after (print line) s)) as [[o|e] s1] eqn:F.
    2: { by rewrite (bind_raised _ _ _ _ _ F). }
    rewrite (bind_returned _ _ _ _ _ F).
    assert (Hkeys : forall v s2,
              for_tickers_items ts base_dir i sd ed (setitem d u v) s2 = (Returned d', s') ->
              map fst d' = map fst d
                           ++ (if bool_decide (u ∈ map fst d) then first_seen (map fst d) ts
                               else u :: first_seen (map fst d ++ [u]) ts)).
    { intros v s2 E%IH. rewrite E, keys_setitem.
      destruct (bool_decide _); by rewrite <- ?app_assoc. }
    destruct o as [data|].
    + unfold try_except.
      destruct (save_data data u base_dir i s1) as [[paths|e] s2] eqn:S.
      * unfold bind, print, set_world, ret. rewrite S. cbv beta iota. apply Hkeys.
      * unfold bind, print, set_world, ret. rewrite S. cbv beta iota. apply Hkeys.
    + unfold bind, ret. apply Hkeys.
Qed.

End OrderedFacts.

Lemma first_seen_spec (ts : list string) :
  forall seen,
    NoDup (first_seen seen ts)
    /\ forall x, x ∈ first_seen seen ts <-> x ∈ ts /\ x ∉ seen.
Proof.
  induction ts as [|t ts IH]; intros seen; cbn [first_seen].
  - split; [constructor|]. intros x. split; [by intros ?%elem_of_nil | by intros [?%elem_of_nil _]].
  - destruct (decide (t ∈ seen)) as [Hin|Hnin].
    + rewrite bool_decide_eq_true_2 by done. destruct (IH seen) as [Hnd Hel].
      split; [done|]. intros x. rewrite Hel, elem_of_cons. split; [tauto|].
      intros [[->|?] ?]; [done | tauto].
    + rewrite bool_decide_eq_false_2 by done. destruct (IH (seen ++ [t])) as [Hnd Hel].
      split.
      * constructor; [|done]. rewrite Hel, elem_of_app, list_elem_of_singleton. tauto.
      * intros x. rewrite !elem_of_cons, Hel, elem_of_app, list_elem_of_singleton.
        destruct (decide (x = t)) as [->|]; tauto.
Qed.

Section Report.
Context `{env : Environment}.

(** A batch on the ordered dictionary. *)
Lemma items_run (ticker_input : string) (base_dir : Path) (i p : string)
    (sd ed : option string) (s : State) :
  supported_intervals (self s) !! i = Some p ->
  exists (items : Items) (s' : State),
    fetch_and_save_multiple_items ticker_input base_dir i sd ed s = (Returned items, s')
    /\ fetch_and_save_multiple ticker_input base_dir i sd ed s
       = (Returned (list_to_map items), s')
    /\ map fst items = first_seen [] (process_tickers ticker_input).
Proof.
  intros Hsup.
  destruct (batch_entries ticker_input base_dir i p sd ed s Hsup) as (r & s' & E & _).
  pose proof (for_tickers_items_refines base_dir i sd ed (process_tickers ticker_input) [] s)
    as R.
  change (for_tickers _ _ _ _ _ (list_to_map []) s)
    with (fetch_and_save_multiple ticker_input base_dir i sd ed s) in R.
  change (for_tickers_items _ _ _ _ _ [] s)
    with (fetch_and_save_multiple_items ticker_input base_dir i sd ed s) in R.
  destruct (fetch_and_save_multiple_items ticker_input base_dir i sd ed s)
    as [[items|e] s1] eqn:Ei; rewrite E in R; [|done].
  injection R as -> ->.
  exists items, s1. split; [done|]. split; [done|].
  by apply (for_tickers_items_keys base_dir i sd ed _ _ _ _ _ Ei).
Qed.

(** X18: the report of a batch lists every ticker of the input once, in
    the order in which the tickers first appear in it; read as a plain
    dictionary it is the report of [fetch_and_save_multiple] as modelled
    for the other statements, reached in the same final state. *)
Theorem report_keeps_ticker_order (ticker_input : string) (base_dir : Path) (i p : string)
    (sd ed : option string) (s : State) :
  supported_intervals (self s) !! i = Some p ->
  exists (items : Items) (s' : State),
    fetch_and_save_multiple_items ticker_input base_dir i sd ed s = (Returned items, s')
    /\ fetch_and_save_multiple ticker_input base_dir i sd ed s
       = (Returned (list_to_map items), s')
    /\ map fst items = first_seen [] (process_tickers ticker_input)
    /\ NoDup (map fst items)
    /\ forall t, t ∈ map fst items <-> t ∈ process_tickers ticker_input.
Proof.
  intros Hsup.
  destruct (items_run ticker_input base_dir i p sd ed s Hsup) as (items & s' & Ei & E & K).
  exists items, s'. split; [done|]. split; [done|].
  destruct (first_seen_spec (process_tickers ticker_input) []) as [Hnd Hel].
  rewrite K. split; [done|]. split; [done|]. intros t. rewrite Hel.
  split; [tauto|]. intros ?. split; [done|]. apply not_elem_of_nil.
Qed.

(** X19: after a batch with at least one ticker, the summary panel
    depends on the first ticker of the input.  If its entry is an error
    (as it is when its fetch yields nothing), [_display_summary_panel]
    raises [KeyError('paths')], whatever the other tickers did;
    otherwise it returns, the location it shows is the parent of that
    first ticker's directory [base_dir / T], and its two counts add up
    to the number of entries. *)
Theorem summary_panel_after_batch (ticker_input : string) (base_dir : Path) (i p : string)
    (sd ed : option string) (s : State) (t : string) (rest : list string) :
  supported_intervals (self s) !! i = Some p ->
  process_tickers ticker_input = t :: rest ->
  exists (items : Items) (s' : State) (first : ResultEntry),
    fetch_and_save_multiple_items ticker_input base_dir i sd ed s = (Returned items, s')
    /\ head items = Some (t, first)
    /\ (result (fetch_data t i sd ed) s = Returned None ->
        first = StatusError "Failed to fetch data")
    /\ match first with
       | StatusError _ =>
           Visualization._display_summary_panel items = inl (KeyError "'paths'")
       | StatusSuccess _ _ =>
           exists n m,
             Visualization._display_summary_panel items
             = inr (Visualization.mkSummary n m
                      (Visualization.ParentOf (base_dir ++ [t])))
             /\ 0 < n /\ 0 <= m /\ n + m = Z.of_nat (length items)
       end.
Proof.
  intros Hsup Hts.
  destruct (items_run ticker_input base_dir i p sd ed s Hsup) as (items & s' & Ei & E & K).
  rewrite Hts in K. cbn [first_seen] in K.
  rewrite bool_decide_eq_false_2 in K by apply not_elem_of_nil.
  destruct items as [|[k first] items']; [done|]. injection K as -> K.
  exists ((t, first) :: items'), s', first. split; [done|]. split; [done|].
  destruct (fetch_data_returns t i p sd ed s Hsup) as (o & s0 & F & _).
  destruct (batch_run ticker_input base_dir i p sd ed s Hsup)
    as (l & r & s1 & _ & _ & E1 & _ & _ & _ & Hent).
  rewrite E in E1. injection E1 as <- <-.
  assert (Hr : (list_to_map ((t, first) :: items') : gmap string ResultEntry) !! t
               = Some (entry_for base_dir i t o)).
  { apply Hent; [rewrite Hts; left | unfold result; by rewrite F]. }
  cbn [list_to_map foldr fst snd] in Hr. rewrite lookup_insert_eq in Hr.
  injection Hr as ->.
  split.
  { unfold result. rewrite F. cbn. by intros [= ->]. }
  unfold entry_for. destruct o as [d|]; [|done].
  destruct (mkdir _); [done|]. destruct (to_csv _ _); [done|].
  unfold Visualization._display_summary_panel. cbv zeta.
  cbn [ticker_dir map snd List.filter Visualization.is_success].
  eexists _, _. split; [reflexivity|].
  cbn [length].
  pose proof (filter_length_le Visualization.is_success (map snd items')) as Hle.
  rewrite length_map in Hle. lia.
Qed.

End Report.

(* ===================================================================== *)
(** ** Concrete runs of the statements above *)
(* ===================================================================== *)

Lemma process_tickers_well_formed_witness :
  "MSFT" <> ""
  /\ ~ In ","%char (list_ascii_of_string "MSFT")
  /\ PyStr.strip "MSFT" = "MSFT"
  /\ PyStr.upper "MSFT" = "MSFT"
  /\ process_tickers "MSFT" = ["MSFT"].
Proof.
  apply (process_tickers_well_formed " aapl, msft ,,").
  vm_compute. right. left.
Defined.

Lemma blank_input_empty_report_witness :
  @fetch_and_save_multiple fake_env " , ,, " ["data"] "7m" None None fresh
  = (Returned ∅, fresh).
Proof.
  apply (@blank_input_empty_report fake_env).
  unfold blank_input. cbn [list_ascii_of_string].
  repeat (constructor; [first [left; reflexivity | right; reflexivity]|]).
  constructor.
Defined.

Lemma batch_provider_calls_witness :
  exists (l : list HistoryArgs) (r : gmap string ResultEntry) (s' : State),
    (length l <= 1)%nat
    /\ (PyStr.truthy (Some "2024-01-01") && PyStr.truthy None = false
        -> l = [ByPeriod "max" "1d"])
    /\ @fetch_and_save_multiple fake_env "aapl, down" ["data"] "1d"
         (Some "2024-01-01") None fresh = (Returned r, s')
    /\ provider_calls (world s')
       = provider_calls (world fresh)
         ++ concat (map (fun t => map (mkRequest t) l) (process_tickers "aapl, down")).
Proof.
  apply (@batch_provider_calls fake_env "aapl, down" ["data"] "1d" "max"
           (Some "2024-01-01") None fresh).
  reflexivity.
Defined.


Lemma batch_keys_witness :
  exists (r : gmap string ResultEntry) (s' : State),
    @fetch_and_save_multiple fake_env "aapl, down" ["data"] "1d" None None fresh
    = (Returned r, s')
    /\ dom r = list_to_set (process_tickers "aapl, down")
    /\ (NoDup (process_tickers "aapl, down") ->
        size r = length (process_tickers "aapl, down")).
Proof.
  apply (@batch_keys fake_env "aapl, down" ["data"] "1d" "max" None None fresh).
  reflexivity.
Defined.

Lemma batch_entry_by_cases_witness :
  exists (r : gmap string ResultEntry) (s' : State),
    @fetch_and_save_multiple fake_env "aapl, down" ["data"] "1d" None None fresh
    = (Returned r, s')
    /\ r !! "DOWN" = Some (@entry_for fake_env ["data"] "1d" "DOWN" None).
Proof.
  apply (@batch_entry_by_cases fake_env "aapl, down" ["data"] "1d" "max" None None fresh
           "DOWN" None).
  - reflexivity.
  - vm_compute. right. left.
  - reflexivity.
Defined.

Lemma batch_success_is_backed_witness :
  exists (r : gmap string ResultEntry) (s' : State),
    @fetch_and_save_multiple fake_env "aapl, down" ["data"] "1d" None None fresh
    = (Returned r, s')
    /\ forall t paths d,
         r !! t = Some (StatusSuccess paths d) ->
         t ∈ process_tickers "aapl, down"
         /\ paths = mkPaths (["data"] ++ [t])
                            (["data"] ++ [t; "data"; t +:+ "_" +:+ "1d" +:+ ".csv"])
         /\ empty d = false
         /\ (exists a, @history fake_env t a = inr d)
         /\ (data_path paths, d) ∈ files (world s').
Proof.
  apply (@batch_success_is_backed fake_env "aapl, down" ["data"] "1d" "max" None None fresh).
  reflexivity.
Defined.

Lemma batch_sleep_budget_witness :
  exists (r : gmap string ResultEntry) (s' : State) (l : list Q),
    @fetch_and_save_multiple fake_env "aapl, msft, down" ["data"] "1d" None None fresh
    = (Returned r, s')
    /\ sleeps (world s') = sleeps (world fresh) ++ l
    /\ (length l <= length (process_tickers "aapl, msft, down"))%nat
    /\ Forall (fun d => (0 < d /\ d <= min_request_interval (self fresh))%Q) l.
Proof.
  apply (@batch_sleep_budget fake_env "aapl, msft, down" ["data"] "1d" "max" None None fresh).
  - reflexivity.
  - intros u a. cbn. discriminate.
  - intros d. cbn. discriminate.
  - exact I.
Defined.

Lemma minute_range_span_bounded_witness :
  exists (sd' : string) (a' : Datetime.datetime) (s' : State),
    @fetch_data fake_env "AAPL" "5m" (Some "2024-01-01") (Some "2024-06-01") fresh
    = (Returned (classify (@history fake_env "AAPL" (ByRange sd' "2024-06-01" "5m"))), s')
    /\ provider_calls (world s')
       = provider_calls (world fresh) ++ [mkRequest "AAPL" (ByRange sd' "2024-06-01" "5m")]
    /\ Datetime.strptime_ymd sd' = inr a'
    /\ Datetime.sub_days (Datetime.mkDate 2024 6 1) a'
       <= (if String.eqb "5m" "1m" then 7 else 60)
    /\ Datetime.sub_days (Datetime.mkDate 2024 6 1) a'
       <= Datetime.sub_days (Datetime.mkDate 2024 6 1) (Datetime.mkDate 2024 1 1)
    /\ (Datetime.sub_days (Datetime.mkDate 2024 6 1) (Datetime.mkDate 2024 1 1)
        <= (if String.eqb "5m" "1m" then 7 else 60) -> sd' = "2024-01-01").
Proof.
  apply (@minute_range_span_bounded fake_env "AAPL" "5m" "60d" "2024-01-01" "2024-06-01"
           (Datetime.mkDate 2024 1 1) (Datetime.mkDate 2024 6 1) fresh).
  - reflexivity.
  - vm_compute. do 2 right. left.
  - reflexivity.
  - reflexivity.
  - cbn. lia.
Defined.

Lemma read_ticker_file_tickers_witness :
  ["aapl"; "BRK B"]
  = map (fun line => PyStr.strip (hd "" (PyStr.split "#" (PyStr.strip line))))
        (List.filter Main.is_ticker_line ["# watch list"; "  aapl  # apple"; ""; "BRK B"])
  /\ Forall (fun t => t <> "" /\ ~ In "#"%char (list_ascii_of_string t) /\ PyStr.strip t = t)
            ["aapl"; "BRK B"].
Proof.
  apply (read_ticker_file_tickers ["# watch list"; "  aapl  # apple"; ""; "BRK B"]).
  reflexivity.
Defined.

Lemma file_tickers_reach_batch_witness :
  Main.get_tickers (Some ["# watch list"; "  aapl  # apple"; ""; "BRK B"]) true
    (Some "tsla")
  = inr (Some (String.concat ", " ["aapl"; "BRK B"]))
  /\ process_tickers (String.concat ", " ["aapl"; "BRK B"])
     = concat (map process_tickers ["aapl"; "BRK B"])
  /\ (Forall (fun t => ~ In ","%char (list_ascii_of_string t)) ["aapl"; "BRK B"] ->
      process_tickers (String.concat ", " ["aapl"; "BRK B"])
      = map PyStr.upper ["aapl"; "BRK B"]).
Proof.
  apply (file_tickers_reach_batch ["# watch list"; "  aapl  # apple"; ""; "BRK B"]).
  - reflexivity.
  - discriminate.
Defined.

Lemma menu_interval_is_supported_witness :
  Main.get_interval_selection ("1wk" +:+ " (" +:+ "Weekly intervals" +:+ ")") = inr "1wk"
  /\ exists o s', @fetch_data fake_env "AAPL" "1wk" None None fresh = (Returned o, s').
Proof.
  apply (@menu_interval_is_supported fake_env "1wk" "Weekly intervals" "AAPL" None None fresh).
  - vm_compute. do 9 right. left.
  - reflexivity.
Defined.

Lemma date_range_both_or_none_witness :
  (Some "2024-03-08" = None /\ Some "2024-03-15" = None)
  \/ (PyStr.truthy (Some "2024-03-08") = true /\ PyStr.truthy (Some "2024-03-15") = true).
Proof.
  apply (date_range_both_or_none Datetime.strptime_ymd "1d" (Datetime.mkDate 2024 3 15)
           "Last 7 days" "" "").
  reflexivity.
Defined.

Lemma menu_range_sent_as_is_witness :
  exists (sd ed : option string) (a : HistoryArgs) (s' : State),
    Main.get_date_range Datetime.strptime_ymd "1h" (Datetime.mkDate 2024 3 15)
      "Last 60 days" "" "" = inr (sd, ed)
    /\ @fetch_data fake_env "AAPL" "1h" sd ed fresh
       = (Returned (classify (@history fake_env "AAPL" a)), s')
    /\ provider_calls (world s') = provider_calls (world fresh) ++ [mkRequest "AAPL" a]
    /\ match Main.preset_start "Last 60 days" (Datetime.mkDate 2024 3 15) with
       | Some (inr start) =>
           sd = Some (Datetime.strftime_ymd start)
           /\ ed = Some (Datetime.strftime_ymd (Datetime.mkDate 2024 3 15))
           /\ a = ByRange (Datetime.strftime_ymd start)
                          (Datetime.strftime_ymd (Datetime.mkDate 2024 3 15)) "1h"
       | Some (inl _) => False
       | None =>
           "Last 60 days" = "Last 60 days" /\ sd = None /\ ed = None
           /\ a = ByPeriod "60d" "1h"
       end.
Proof.
  apply (@menu_range_sent_as_is fake_env Datetime.strptime_ymd "1h" "60d" "Last 60 days"
           "" "" "AAPL" (Datetime.mkDate 2024 3 15) fresh).
  - reflexivity.
  - vm_compute. do 2 right. left.
  - discriminate.
  - unfold valid_date. cbn [Datetime.year Datetime.month Datetime.day].
    change (Datetime.days_in_month 2024 3) with 31. lia.
  - cbn. lia.
Defined.

Lemma custom_range_sent_as_parsed_witness :
  exists s',
    Main.get_date_range Datetime.strptime_ymd "1d" (Datetime.mkDate 2024 3 15)
      "Custom range" "2024-02-01" ""
    = inr (Some (Datetime.strftime_ymd (Datetime.mkDate 2024 2 1)),
           Some (Datetime.strftime_ymd (Datetime.mkDate 2024 3 15)))
    /\ @fetch_data fake_env "AAPL" "1d"
         (Some (Datetime.strftime_ymd (Datetime.mkDate 2024 2 1)))
         (Some (Datetime.strftime_ymd (Datetime.mkDate 2024 3 15))) fresh
       = (Returned (classify (@history fake_env "AAPL"
                                (ByRange (Datetime.strftime_ymd (Datetime.mkDate 2024 2 1))
                                         (Datetime.strftime_ymd (Datetime.mkDate 2024 3 15))
                                         "1d"))), s')
    /\ provider_calls (world s')
       = provider_calls (world fresh)
         ++ [mkRequest "AAPL" (ByRange (Datetime.strftime_ymd (Datetime.mkDate 2024 2 1))
                                       (Datetime.strftime_ymd (Datetime.mkDate 2024 3 15))
                                       "1d")].
Proof.
  apply (@custom_range_sent_as_parsed fake_env Datetime.strptime_ymd "1d" "max"
           "2024-02-01" "" "AAPL" (Datetime.mkDate 2024 3 15) (Datetime.mkDate 2024 2 1)
           (Datetime.mkDate 2024 3 15) fresh).
  - reflexivity.
  - vm_compute. do 6 right. left.
  - reflexivity.
  - reflexivity.
  - cbn. lia.
  - cbn. lia.
Defined.

Lemma menu_inputs_batch_returns_witness :
  exists (r : gmap string ResultEntry) (s' : State),
    @fetch_and_save_multiple fake_env "aapl, down" ["data"] "1d"
      (Some "2023-03-15") (Some "2024-03-15") fresh = (Returned r, s')
    /\ dom r = list_to_set (process_tickers "aapl, down")
    /\ ((Some "2023-03-15" = None /\ Some "2024-03-15" = None)
        \/ (PyStr.truthy (Some "2023-03-15") = true
            /\ PyStr.truthy (Some "2024-03-15") = true)).
Proof.
  apply (@menu_inputs_batch_returns fake_env None true (Some "aapl, down")
           "1d (Daily intervals)"
           Datetime.strptime_ymd (Datetime.mkDate 2024 3 15) "Last 1 year" "" "" true true
           "aapl, down" "1d" (Some "2023-03-15") (Some "2024-03-15") ["data"] fresh).
  - vm_compute. do 7 right. left.
  - reflexivity.
  - reflexivity.
Defined.

Lemma report_keeps_ticker_order_witness :
  exists (items : Items) (s' : State),
    @fetch_and_save_multiple_items fake_env "msft, aapl, msft" ["data"] "1d" None None fresh
    = (Returned items, s')
    /\ @fetch_and_save_multiple fake_env "msft, aapl, msft" ["data"] "1d" None None fresh
       = (Returned (list_to_map items), s')
    /\ map fst items = first_seen [] (process_tickers "msft, aapl, msft")
    /\ NoDup (map fst items)
    /\ forall t, t ∈ map fst items <-> t ∈ process_tickers "msft, aapl, msft".
Proof.
  apply (@report_keeps_ticker_order fake_env "msft, aapl, msft" ["data"] "1d" "max"
           None None fresh).
  reflexivity.
Defined.

Lemma summary_panel_after_batch_witness :
  exists (items : Items) (s' : State) (first : ResultEntry),
    @fetch_and_save_multiple_items fake_env "down, aapl" ["data"] "1d" None None fresh
    = (Returned items, s')
    /\ head items = Some ("DOWN", first)
    /\ (result (@fetch_data fake_env "DOWN" "1d" None None) fresh = Returned None ->
        first = StatusError "Failed to fetch data")
    /\ match first with
       | StatusError _ =>
           Visualization._display_summary_panel items = inl (KeyError "'paths'")
       | StatusSuccess _ _ =>
           exists n m,
             Visualization._display_summary_panel items
             = inr (Visualization.mkSummary n m
                      (Visualization.ParentOf (["data"] ++ ["DOWN"])))
             /\ 0 < n /\ 0 <= m /\ n + m = Z.of_nat (length items)
       end.
Proof.
  apply (@summary_panel_after_batch fake_env "down, aapl" ["data"] "1d" "max" None None fresh
           "DOWN" ["AAPL"]).
  - reflexivity.
  - reflexivity.
Defined.

(** The first ticker failing hides a report that holds a success: the
    panel raises although AAPL was fetched and saved. *)
Example summary_panel_raises_after_partial_success :
  match @fetch_and_save_multiple_items fake_env "down, aapl" ["data"] "1d" None None fresh with
  | (Returned items, s') =>
      map fst items = ["DOWN"; "AAPL"]
      /\ map Visualization.is_success (map snd items) = [false; true]
      /\ Visualization._display_summary_panel items = inl (KeyError "'paths'")
      /\ map fst (files (world s')) = [["data"; "AAPL"; "data"; "AAPL_1d.csv"]]
  | (Raised _, _) => False
  end.
Proof. vm_compute. repeat split. Qed.

(** The same tickers the other way round: the panel returns. *)
Example summary_panel_returns_when_first_succeeds :
  match @fetch_and_save_multiple_items fake_env "aapl, down" ["data"] "1d" None None fresh with
  | (Returned items, _) =>
      Visualization._display_summary_panel items
      = inr (Visualization.mkSummary 1 1 (Visualization.ParentOf ["data"; "AAPL"]))
  | (Raised _, _) => False
  end.
Proof. vm_compute. reflexivity. Qed.

(** A menu entry with two digits in its code. *)
Example interval_menu_entry :
  In "15m (Fifteen minute intervals - Last 60 days)" Main.choices
  /\ Main.get_interval_selection "15m (Fifteen minute intervals - Last 60 days)"
     = inr "15m".
Proof. split; [vm_compute; do 3 right; left; reflexivity | reflexivity]. Qed.

(** Three months before the last day of May is the last day of
    February. *)
Example three_months_before_may_31 :
  Main.get_date_range Datetime.strptime_ymd "1d" (Datetime.mkDate 2024 5 31)
    "Last 3 months" "" ""
  = inr (Some "2024-02-29", Some "2024-05-31").
Proof. reflexivity. Qed.

(** Five years before year 3 there is no date. *)
Example five_years_before_year_3 :
  Main.get_date_range Datetime.strptime_ymd "1d" (Datetime.mkDate 3 5 31)
    "Last 5 years" "" ""
  = inl (ValueError "year -2 is out of range").
Proof. reflexivity. Qed.
